(** * Mutual-fund factsheet extraction backend: a shallow embedding

    This development embeds the extraction and normalisation pipeline of
    [backend.py] (classes [ISINMapper] and [FactsheetExtractor]) and proves
    properties of it.

    Modelling conventions.
    - A Python [str] is a Rocq [string].  Character classification
      ([lower], [isalpha], [isspace], the regex classes [\w], [\s], [\d]) is
      the ASCII one; a byte above 127 is treated as a symbol (neither letter,
      digit nor space), which is what the one non-ASCII character the source
      itself mentions (the rupee sign) is.
    - A Python [float] is a [pyfloat]: the exact rational value of a binary64
      number, or an infinity, or NaN.  Every arithmetic result is rounded to
      the nearest binary64 value, ties to even, as IEEE 754 prescribes.  The
      sign of zero is not tracked.
    - A regular expression of the source is quoted in a comment with a
      blank before a closing parenthesis that follows a star.
    - A [dict] whose iteration order matters is an association list in
      insertion order.
    - The PDF library is outside the repository: a document is the list of
      its pages, each with its extracted text and tables, and a path whose
      document cannot be opened or parsed has no document.
    - Statements that depend on the letter case or on the class of a
      character outside ASCII are made of ASCII texts ([is_ascii]). *)

From Stdlib Require Import String Ascii List ZArith QArith Qround Bool Lia.
Import ListNotations.

Set Implicit Arguments.

Local Open Scope string_scope.

(** ** Python string operations *)

Module PyStr.

Definition code (c : ascii) : nat := nat_of_ascii c.

Definition is_upper (c : ascii) : bool := (65 <=? code c)%nat && (code c <=? 90)%nat.
Definition is_lower (c : ascii) : bool := (97 <=? code c)%nat && (code c <=? 122)%nat.
Definition is_alpha (c : ascii) : bool := is_upper c || is_lower c.
Definition is_digit (c : ascii) : bool := (48 <=? code c)%nat && (code c <=? 57)%nat.

(** [str.isspace] on ASCII: tab, newline, VT, FF, CR, the four separators
    28..31 and the space. *)
Definition is_space (c : ascii) : bool :=
  ((9 <=? code c)%nat && (code c <=? 13)%nat)
  || ((28 <=? code c)%nat && (code c <=? 32)%nat).

(** The regex class [\w]. *)
Definition is_word (c : ascii) : bool :=
  is_alpha c || is_digit c || (code c =? 95)%nat.

Definition lower_char (c : ascii) : ascii :=
  if is_upper c then ascii_of_nat (code c + 32) else c.
Definition upper_char (c : ascii) : ascii :=
  if is_lower c then ascii_of_nat (code c - 32) else c.

Fixpoint map_chars (f : ascii -> ascii) (s : string) : string :=
  match s with
  | EmptyString => EmptyString
  | String c s' => String (f c) (map_chars f s')
  end.

(** [s.lower()] *)
Definition lower (s : string) : string := map_chars lower_char s.

(** [s.lstrip()], [s.rstrip()], [s.strip()] *)
Fixpoint lstrip (s : string) : string :=
  match s with
  | EmptyString => EmptyString
  | String c s' => if is_space c then lstrip s' else s
  end.

Fixpoint rstrip (s : string) : string :=
  match s with
  | EmptyString => EmptyString
  | String c s' =>
      match rstrip s' with
      | EmptyString => if is_space c then EmptyString else String c EmptyString
      | r => String c r
      end
  end.

Definition strip (s : string) : string := rstrip (lstrip s).

(** [s.startswith(p)] *)
Definition startswith (p s : string) : bool := prefix p s.

(** [s.endswith(suf)]: some tail of [s] is [suf]. *)
Fixpoint endswith (suf s : string) : bool :=
  (s =? suf) ||
  match s with
  | EmptyString => false
  | String _ s' => endswith suf s'
  end.

(** [sub in s] *)
Fixpoint contains (sub s : string) : bool :=
  prefix sub s ||
  match s with
  | EmptyString => false
  | String _ s' => contains sub s'
  end.

(** [s[:n]] and [s[n:]] for [n >= 0] *)
Fixpoint take (n : nat) (s : string) : string :=
  match n, s with
  | S n', String c s' => String c (take n' s')
  | _, _ => EmptyString
  end.

Fixpoint drop (n : nat) (s : string) : string :=
  match n, s with
  | S n', String _ s' => drop n' s'
  | _, _ => s
  end.

(** [s[:-n]] for [n > 0] *)
Definition drop_last (n : nat) (s : string) : string := take (String.length s - n) s.

(** [s.replace(old, new)] for a non-empty [old]: scan left to right,
    replacing each non-overlapping occurrence.  [skip] counts the
    characters of the occurrence just replaced that are still to be
    passed over. *)
Fixpoint replace_go (old new : string) (skip : nat) (s : string) : string :=
  match s with
  | EmptyString => EmptyString
  | String c s' =>
      match skip with
      | S k => replace_go old new k s'
      | O =>
          if prefix old s
          then new ++ replace_go old new (String.length old - 1) s'
          else String c (replace_go old new 0 s')
      end
  end.

Definition replace (old new s : string) : string := replace_go old new 0 s.

(** [s.count(sub)] for a non-empty [sub]: non-overlapping occurrences. *)
Fixpoint count_go (sub : string) (skip : nat) (s : string) : nat :=
  match s with
  | EmptyString => 0
  | String _ s' =>
      match skip with
      | S k => count_go sub k s'
      | O =>
          if prefix sub s
          then S (count_go sub (String.length sub - 1) s')
          else count_go sub 0 s'
      end
  end.

Definition count (sub s : string) : nat := count_go sub 0 s.

(** [s.split()]: the maximal runs of non-space characters. *)
Fixpoint split_go (cur : string) (s : string) : list string :=
  match s with
  | EmptyString => match cur with EmptyString => [] | _ => [cur] end
  | String c s' =>
      if is_space c
      then match cur with
           | EmptyString => split_go EmptyString s'
           | _ => cur :: split_go EmptyString s'
           end
      else split_go (cur ++ String c EmptyString) s'
  end.

Definition split (s : string) : list string := split_go EmptyString s.

(** [sep.join(l)] *)
Definition join (sep : string) (l : list string) : string := String.concat sep l.

(** [s.title()]: a letter that follows a letter is lower-cased, any other
    letter is upper-cased. *)
Fixpoint title_go (prev_cased : bool) (s : string) : string :=
  match s with
  | EmptyString => EmptyString
  | String c s' =>
      if is_alpha c
      then String (if prev_cased then lower_char c else upper_char c) (title_go true s')
      else String c (title_go false s')
  end.

Definition title (s : string) : string := title_go false s.

(** [any(c.isalpha() for c in s)] *)
Fixpoint any_char (p : ascii -> bool) (s : string) : bool :=
  match s with
  | EmptyString => false
  | String c s' => p c || any_char p s'
  end.

(** [re.sub] of a character class by the empty string, as in
    "re.sub(r'[^\w\s]', '', s)". *)
Fixpoint remove_chars (p : ascii -> bool) (s : string) : string :=
  match s with
  | EmptyString => EmptyString
  | String c s' => if p c then remove_chars p s' else String c (remove_chars p s')
  end.

(** "re.sub(r'\s+', ' ', s)": every maximal run of spaces becomes one
    blank. *)
Fixpoint collapse_go (in_run : bool) (s : string) : string :=
  match s with
  | EmptyString => EmptyString
  | String c s' =>
      if is_space c
      then if in_run then collapse_go true s' else String " " (collapse_go true s')
      else String c (collapse_go false s')
  end.

Definition collapse_spaces (s : string) : string := collapse_go false s.

(** Python truthiness of a [str]. *)
Definition truthy (s : string) : bool := negb (s =? "").

(** [x in l] for a list of strings. *)
Definition mem (x : string) (l : list string) : bool := existsb (String.eqb x) l.

End PyStr.

Import PyStr.

(** ** Python floats *)

Module PyFloat.

(** The value of a [float]: a finite binary64 number by its exact rational
    value, an infinity, or NaN. *)
Inductive pyfloat : Type :=
| F_fin (q : Q)
| F_inf (neg : bool)
| F_nan.

Definition pow2 (e : Z) : Q :=
  if (0 <=? e)%Z then inject_Z (2 ^ e) else 1 # Z.to_pos (2 ^ (- e)).

(** Nearest binary64 value of the positive rational [n / d], ties to even:
    53 significant bits, least exponent -1074, overflow to infinity from
    2^1024 on. *)
Definition round_pos (n d : positive) : pyfloat :=
  let e1 := (Z.log2 (Zpos n) - Z.log2 (Zpos d) - 52)%Z in
  let scaled :=
    if (0 <=? e1)%Z then (Zpos n / (Zpos d * 2 ^ e1))%Z
    else (Zpos n * 2 ^ (- e1) / Zpos d)%Z in
  let e2 := if (scaled <? 2 ^ 52)%Z then (e1 - 1)%Z else e1 in
  let e := Z.max e2 (-1074) in
  let num := if (0 <=? e)%Z then Zpos n else (Zpos n * 2 ^ (- e))%Z in
  let den := if (0 <=? e)%Z then (Zpos d * 2 ^ e)%Z else Zpos d in
  let m := (num / den)%Z in
  let r := (num mod den)%Z in
  let m' :=
    if (den <? 2 * r)%Z || ((2 * r =? den)%Z && Z.odd m) then (m + 1)%Z else m in
  if (971 <? e)%Z || ((e =? 971)%Z && (2 ^ 53 <=? m')%Z)
  then F_inf false
  else F_fin (Qred (inject_Z m' * pow2 e)).

Definition fneg (x : pyfloat) : pyfloat :=
  match x with
  | F_fin q => F_fin (Qred (- q))
  | F_inf neg => F_inf (negb neg)
  | F_nan => F_nan
  end.

(** Rounding of an exact rational result to a [float]. *)
Definition rnd (q : Q) : pyfloat :=
  match Qnum q with
  | Z0 => F_fin 0
  | Zpos n => round_pos n (Qden q)
  | Zneg n => fneg (round_pos n (Qden q))
  end.

(** A float literal [m * 10^x], as Python reads it. *)
Definition decimal (m x : Z) : pyfloat :=
  if (0 <=? x)%Z then rnd (inject_Z (m * 10 ^ x))
  else rnd (m # Z.to_pos (10 ^ (- x))).

Definition of_Z (z : Z) : pyfloat := rnd (inject_Z z).
Definition of_nat (n : nat) : pyfloat := of_Z (Z.of_nat n).

(** Comparisons.  Any comparison with NaN is false. *)
Definition Qltb (a b : Q) : bool := (Qnum a * QDen b <? Qnum b * QDen a)%Z.

Definition flt (x y : pyfloat) : bool :=
  match x, y with
  | F_nan, _ | _, F_nan => false
  | F_fin a, F_fin b => Qltb a b
  | F_inf nx, F_inf ny => nx && negb ny
  | F_inf nx, F_fin _ => nx
  | F_fin _, F_inf ny => negb ny
  end.

Definition feq (x y : pyfloat) : bool :=
  match x, y with
  | F_fin a, F_fin b => Qeq_bool a b
  | F_inf nx, F_inf ny => Bool.eqb nx ny
  | _, _ => false
  end.

Definition fgt (x y : pyfloat) : bool := flt y x.
Definition fle (x y : pyfloat) : bool := flt x y || feq x y.
Definition fge (x y : pyfloat) : bool := fle y x.

(** Truthiness of a float: everything but zero. *)
Definition truthy (x : pyfloat) : bool := negb (feq x (F_fin 0)).

(** [max(x, y)]: [y] only when it is greater than [x]. *)
Definition fmax (x y : pyfloat) : pyfloat := if fgt y x then y else x.

Definition is_zero (x : pyfloat) : bool := feq x (F_fin 0).
Definition is_neg (x : pyfloat) : bool := flt x (F_fin 0).

(** [x * y] *)
Definition fmul (x y : pyfloat) : pyfloat :=
  match x, y with
  | F_nan, _ | _, F_nan => F_nan
  | F_fin a, F_fin b => rnd (a * b)
  | F_inf n, o | o, F_inf n =>
      if is_zero o then F_nan else F_inf (xorb n (is_neg o))
  end.

(** [x / y].  Python raises on a zero divisor; the only divisor in the
    source is the literal [100], and the zero case is given NaN here. *)
Definition fdiv (x y : pyfloat) : pyfloat :=
  match x, y with
  | F_nan, _ | _, F_nan => F_nan
  | F_fin a, F_fin b => if Qeq_bool b 0 then F_nan else rnd (a / b)
  | F_fin _, F_inf _ => F_fin 0
  | F_inf n, F_fin b => if Qeq_bool b 0 then F_nan else F_inf (xorb n (Qltb b 0))
  | F_inf _, F_inf _ => F_nan
  end.

(** The integer nearest to [q], ties to even. *)
Definition round_half_even (q : Q) : Z :=
  let m := (Qnum q / QDen q)%Z in
  let r := (Qnum q mod QDen q)%Z in
  if (QDen q <? 2 * r)%Z || ((2 * r =? QDen q)%Z && Z.odd m) then (m + 1)%Z else m.

(** [round(x, 2)]: the exact value of [x] is rounded to two decimals, ties
    to even, and the result read back as a float; infinities and NaN round
    to themselves. *)
Definition round2 (x : pyfloat) : pyfloat :=
  match x with
  | F_fin q => rnd (round_half_even (q * 100) # 100)
  | _ => x
  end.

(** *** [float(s)] *)

Fixpoint span (p : ascii -> bool) (s : string) : string * string :=
  match s with
  | EmptyString => (EmptyString, EmptyString)
  | String c s' =>
      if p c then let (a, b) := span p s' in (String c a, b)
      else (EmptyString, s)
  end.

Fixpoint digits_value (acc : Z) (s : string) : Z :=
  match s with
  | EmptyString => acc
  | String c s' => digits_value (acc * 10 + Z.of_nat (code c - 48)) s'
  end.

(** The C-locale white space [float] strips: 9..13 and the blank. *)
Definition is_c_space (c : ascii) : bool :=
  ((9 <=? code c)%nat && (code c <=? 13)%nat) || (code c =? 32)%nat.

Fixpoint lstrip_c (s : string) : string :=
  match s with
  | EmptyString => EmptyString
  | String c s' => if is_c_space c then lstrip_c s' else s
  end.

Fixpoint rstrip_c (s : string) : string :=
  match s with
  | EmptyString => EmptyString
  | String c s' =>
      match rstrip_c s' with
      | EmptyString => if is_c_space c then EmptyString else String c EmptyString
      | r => String c r
      end
  end.

(** An underscore is allowed only between two digits. *)
Fixpoint underscores_ok (prev_digit : bool) (s : string) : bool :=
  match s with
  | EmptyString => true
  | String c s' =>
      if (code c =? 95)%nat
      then prev_digit
           && match s' with String d _ => is_digit d | EmptyString => false end
           && underscores_ok false s'
      else underscores_ok (is_digit c) s'
  end.

Definition take_sign (s : string) : bool * string :=
  match s with
  | String "-" s' => (true, s')
  | String "+" s' => (false, s')
  | _ => (false, s)
  end.

(** [digits [. digits] [e [sign] digits]] with a digit in the mantissa,
    after the sign. *)
Definition parse_unsigned (neg : bool) (s1 : string) : option pyfloat :=
  let (ip, s2) := span is_digit s1 in
  let (fp, s3) :=
    match s2 with
    | String "." t => span is_digit t
    | _ => (EmptyString, s2)
    end in
  if (ip =? "") && (fp =? "") then None
  else
    let m := digits_value 0 (ip ++ fp) in
    let m := if neg then (- m)%Z else m in
    let shift := Z.of_nat (String.length fp) in
    match s3 with
    | EmptyString => Some (decimal m (- shift))
    | String c s4 =>
        if (c =? "e")%char || (c =? "E")%char
        then
          let (eneg, s5) := take_sign s4 in
          let (ed, s6) := span is_digit s5 in
          if (ed =? "") || negb (s6 =? "") then None
          else
            let x := digits_value 0 ed in
            Some (decimal m ((if eneg then - x else x) - shift))
        else None
    end.

Definition parse_decimal (s : string) : option pyfloat :=
  let (neg, s1) := take_sign s in parse_unsigned neg s1.

Definition parse_inf_nan (s : string) : option pyfloat :=
  let (neg, s1) := take_sign s in
  let w := lower s1 in
  if (w =? "inf") || (w =? "infinity") then Some (F_inf neg)
  else if w =? "nan" then Some F_nan
  else None.

(** [float(s)]; [None] stands for the [ValueError]. *)
Definition py_float (s : string) : option pyfloat :=
  let s := rstrip_c (lstrip_c s) in
  if underscores_ok false s
  then
    let s := replace "_" "" s in
    match parse_decimal s with
    | Some x => Some x
    | None => parse_inf_nan s
    end
  else None.

End PyFloat.

Import PyFloat.

(** ** Regular expressions, as Python's [re] matches them *)

Module Regex.

(** The fragment of the pattern language the source uses.  Quantifiers are
    greedy, alternatives are tried left to right, and the first way to
    match that succeeds is the match. *)
Inductive re : Type :=
| Eps
| Chr (p : ascii -> bool)
| Cat (r1 r2 : re)
| Alt (r1 r2 : re)
| Star (r : re)
| Grp (i : nat) (r : re)
| Bol
| Eol.

Definition captures := list (nat * string).

Definition set_group (i : nat) (v : string) (cs : captures) : captures :=
  (i, v) :: filter (fun e => negb (fst e =? i)%nat) cs.

Fixpoint group (i : nat) (cs : captures) : option string :=
  match cs with
  | [] => None
  | (j, v) :: cs' => if (j =? i)%nat then Some v else group i cs'
  end.

(** [run r total s cs k]: match [r] at the head of [s], a suffix of a
    subject of length [total], then hand what is left to [k]; when [k]
    fails, try the next way of matching [r]. *)
Fixpoint run (R : Type) (r : re) (total : nat) (s : string) (cs : captures)
         (k : string -> captures -> option R) {struct r} : option R :=
  match r with
  | Eps => k s cs
  | Chr p =>
      match s with
      | String c s' => if p c then k s' cs else None
      | EmptyString => None
      end
  | Cat r1 r2 => run r1 total s cs (fun s1 c1 => run r2 total s1 c1 k)
  | Alt r1 r2 =>
      match run r1 total s cs k with
      | Some x => Some x
      | None => run r2 total s cs k
      end
  | Star r1 =>
      (fix loop (n : nat) (s : string) (cs : captures) {struct n} : option R :=
         match n with
         | O => k s cs
         | S n' =>
             match run r1 total s cs
                     (fun s1 c1 =>
                        if (String.length s1 <? String.length s)%nat
                        then loop n' s1 c1 else None) with
             | Some x => Some x
             | None => k s cs
             end
         end) (String.length s) s cs
  | Grp i r1 =>
      run r1 total s cs
        (fun s1 c1 =>
           k s1 (set_group i (take (String.length s - String.length s1) s) c1))
  | Bol => if (String.length s =? total)%nat then k s cs else None
  | Eol =>
      if (s =? "") || (s =? String (ascii_of_nat 10) "") then k s cs else None
  end.

Definition Opt (r : re) : re := Alt r Eps.
Definition Plus (r : re) : re := Cat r (Star r).

Fixpoint Rep (n : nat) (r : re) : re :=
  match n with
  | O => Eps
  | S n' => Cat r (Rep n' r)
  end.

(** [r{1,n}] *)
Fixpoint UpTo (n : nat) (r : re) : re :=
  match n with
  | O => Eps
  | S n' => Opt (Cat r (UpTo n' r))
  end.

Fixpoint seq (l : list re) : re :=
  match l with
  | [] => Eps
  | [r] => r
  | r :: l' => Cat r (seq l')
  end.

Fixpoint alts (l : list re) : re :=
  match l with
  | [] => Eps
  | [r] => r
  | r :: l' => Alt r (alts l')
  end.

Definition chr (c : ascii) : re := Chr (Ascii.eqb c).

(** A class under [re.IGNORECASE]: a character matches when one of its
    case variants is in the class. *)
Definition icase (p : ascii -> bool) : ascii -> bool :=
  fun c => p c || p (lower_char c) || p (upper_char c).

Fixpoint lit (s : string) : re :=
  match s with
  | EmptyString => Eps
  | String c EmptyString => chr c
  | String c s' => Cat (chr c) (lit s')
  end.

Fixpoint liti (s : string) : re :=
  match s with
  | EmptyString => Eps
  | String c EmptyString => Chr (icase (Ascii.eqb c))
  | String c s' => Cat (Chr (icase (Ascii.eqb c))) (liti s')
  end.

Definition one_of (s : string) : ascii -> bool :=
  fun c => any_char (Ascii.eqb c) s.

Definition digit : re := Chr is_digit.
Definition space : re := Chr is_space.
Definition word : re := Chr is_word.

(** The result of a match: what precedes it is not kept, [m_rest] is the
    subject after the match. *)
Record rmatch : Type := { m_groups : captures; m_rest : string }.

Definition match_here (r : re) (total : nat) (s : string) : option rmatch :=
  run r total s [] (fun rest cs => Some {| m_groups := cs; m_rest := rest |}).

(** [re.match(r, s)] *)
Definition rematch (r : re) (s : string) : option rmatch :=
  match_here r (String.length s) s.

(** [re.search(r, s)]: the match at the leftmost position that has one. *)
Fixpoint search_go (r : re) (total : nat) (s : string) : option rmatch :=
  match match_here r total s with
  | Some m => Some m
  | None =>
      match s with
      | EmptyString => None
      | String _ s' => search_go r total s'
      end
  end.

Definition search (r : re) (s : string) : option rmatch :=
  search_go r (String.length s) s.

(** [re.findall(r, s)] for a pattern that cannot match the empty string:
    the groups of the successive non-overlapping matches.  [skip] is the
    number of characters of the last match still to pass over. *)
Fixpoint findall_go (r : re) (total : nat) (skip : nat) (s : string) : list captures :=
  match s with
  | EmptyString => []
  | String _ s' =>
      match skip with
      | S k => findall_go r total k s'
      | O =>
          match match_here r total s with
          | Some m =>
              m_groups m
                :: findall_go r total (String.length s' - String.length (m_rest m)) s'
          | None => findall_go r total 0 s'
          end
      end
  end.

Definition findall (r : re) (s : string) : list captures :=
  findall_go r (String.length s) 0 s.

(** A group of a match; a group that took no part reads as [''] in
    [findall]. *)
Definition group_or_empty (i : nat) (cs : captures) : string :=
  match group i cs with
  | Some v => v
  | None => EmptyString
  end.

(** What [run] computes, told as a relation: [matches_re total r s cs s' cs']
    when [r] can match the head of [s] and leave [s'], turning the captures
    [cs] into [cs']. *)
Inductive matches_re (total : nat) : re -> string -> captures -> string -> captures -> Prop :=
| M_eps : forall s cs, matches_re total Eps s cs s cs
| M_chr : forall p c s cs, p c = true -> matches_re total (Chr p) (String c s) cs s cs
| M_cat : forall r1 r2 s cs s1 c1 s2 c2,
    matches_re total r1 s cs s1 c1 -> matches_re total r2 s1 c1 s2 c2 ->
    matches_re total (Cat r1 r2) s cs s2 c2
| M_alt_l : forall r1 r2 s cs s1 c1,
    matches_re total r1 s cs s1 c1 -> matches_re total (Alt r1 r2) s cs s1 c1
| M_alt_r : forall r1 r2 s cs s1 c1,
    matches_re total r2 s cs s1 c1 -> matches_re total (Alt r1 r2) s cs s1 c1
| M_star_nil : forall r s cs, matches_re total (Star r) s cs s cs
| M_star_cons : forall r s cs s1 c1 s2 c2,
    matches_re total r s cs s1 c1 -> matches_re total (Star r) s1 c1 s2 c2 ->
    matches_re total (Star r) s cs s2 c2
| M_grp : forall i r s cs s1 c1,
    matches_re total r s cs s1 c1 ->
    matches_re total (Grp i r) s cs s1
               (set_group i (take (String.length s - String.length s1) s) c1)
| M_bol : forall s cs, String.length s = total -> matches_re total Bol s cs s cs
| M_eol : forall s cs,
    s = "" \/ s = String (ascii_of_nat 10) "" -> matches_re total Eol s cs s cs.

End Regex.

Import Regex.

(** ** Dictionaries in insertion order *)

Module Dict.

Section WithValues.

Variable V : Type.

Definition dict : Type := list (string * V).

(** [d.get(k)] *)
Fixpoint get (k : string) (d : dict) : option V :=
  match d with
  | [] => None
  | (k', v) :: d' => if k' =? k then Some v else get k d'
  end.

(** [k in d] *)
Definition mem (k : string) (d : dict) : bool :=
  match get k d with
  | Some _ => true
  | None => false
  end.

(** [d[k] = v]: a key already present keeps its place, a new key goes
    last. *)
Fixpoint set (k : string) (v : V) (d : dict) : dict :=
  match d with
  | [] => [(k, v)]
  | (k', v') :: d' => if k' =? k then (k', v) :: d' else (k', v') :: set k v d'
  end.

End WithValues.

End Dict.

(** ** [difflib.SequenceMatcher(None, a, b).ratio()] *)

Module Difflib.

Fixpoint common_prefix (a b : string) : nat :=
  match a, b with
  | String x a', String y b' => if (x =? y)%char then S (common_prefix a' b') else 0
  | _, _ => 0
  end.

(** The longest block of [a] that starts at its head and occurs in [b]:
    the earliest start [j] in [b] among the longest ones.  [best] is
    [(start in a, start in b, size)] so far and is replaced only by a
    strictly longer block. *)
Fixpoint scan_b (i : nat) (a : string) (j : nat) (b : string)
         (best : nat * nat * nat) : nat * nat * nat :=
  let k := common_prefix a b in
  let best := if (snd best <? k)%nat then (i, j, k) else best in
  match b with
  | EmptyString => best
  | String _ b' => scan_b i a (S j) b' best
  end.

Fixpoint scan_a (i : nat) (a : string) (b : string)
         (best : nat * nat * nat) : nat * nat * nat :=
  let best := scan_b i a 0 b best in
  match a with
  | EmptyString => best
  | String _ a' => scan_a (S i) a' b best
  end.

(** [find_longest_match]: the longest common block, the one starting
    earliest in [a] and, among those, earliest in [b]. *)
Definition find_longest_match (a b : string) : nat * nat * nat :=
  scan_a 0 a b (0, 0, 0)%nat.

(** Total size of the matching blocks: the longest block, then the same
    on what lies left of it and on what lies right of it. *)
Fixpoint matches (fuel : nat) (a b : string) : nat :=
  match fuel with
  | O => 0
  | S fuel' =>
      let '(i, j, k) := find_longest_match a b in
      if (k =? 0)%nat then 0
      else (matches fuel' (take i a) (take j b) + k
            + matches fuel' (drop (i + k) a) (drop (j + k) b))%nat
  end.

(** [2.0 * matches / length], and [1.0] for two empty sequences.  Each
    recursive call of [matches] is on a strictly shorter [a], so the fuel
    never runs out.  The "popular element" heuristic, which applies only
    to a second sequence of 200 characters or more, is not modelled. *)
Definition ratio (a b : string) : pyfloat :=
  let total := (String.length a + String.length b)%nat in
  if (total =? 0)%nat then of_Z 1
  else rnd (Z.of_nat (2 * matches (S (String.length a)) a b) # Pos.of_nat total).

End Difflib.

(** ** [class ISINMapper] *)

Module ISINMapper.

Definition BUILTIN_ISIN_DB : list (string * string) :=
  [
    ("hdfc bank", "INE040A01034");
    ("icici bank", "INE090A01021");
    ("state bank of india", "INE062A01020");
    ("sbi", "INE062A01020");
    ("axis bank", "INE238A01034");
    ("kotak mahindra bank", "INE237A01028");
    ("indusind bank", "INE095A01012");
    ("federal bank", "INE171A01029");
    ("bandhan bank", "INE545U01014");
    ("idfc first bank", "INE092T01019");
    ("tata consultancy services", "INE467B01029");
    ("tcs", "INE467B01029");
    ("infosys", "INE009A01021");
    ("wipro", "INE075A01022");
    ("hcl technologies", "INE860A01027");
    ("tech mahindra", "INE669C01036");
    ("ltimindtree", "INE214T01019");
    ("coforge", "INE591G01017");
    ("persistent systems", "INE262H01013");
    ("mphasis", "INE356A01018");
    ("bajaj finance", "INE296A01024");
    ("bajaj finserv", "INE918I01018");
    ("hdfc life insurance", "INE795G01014");
    ("sbi life insurance", "INE123W01016");
    ("icici prudential life", "INE726G01019");
    ("cholamandalam investment", "INE121A01024");
    ("shriram finance", "INE721A01013");
    ("muthoot finance", "INE414G01012");
    ("angel one", "INE732I01013");
    ("maruti suzuki", "INE585B01010");
    ("tata motors", "INE155A01022");
    ("mahindra & mahindra", "INE101A01026");
    ("m&m", "INE101A01026");
    ("bajaj auto", "INE917I01010");
    ("hero motocorp", "INE158A01026");
    ("eicher motors", "INE066A01021");
    ("tvs motor company", "INE494B01023");
    ("ashok leyland", "INE208A01029");
    ("samvardhana motherson", "INE775A01035");
    ("samvardhana motherson international", "INE775A01035");
    ("sun pharmaceutical", "INE044A01036");
    ("sun pharma", "INE044A01036");
    ("dr reddys laboratories", "INE089A01023");
    ("cipla", "INE059A01026");
    ("divi's laboratories", "INE361B01024");
    ("lupin", "INE326A01037");
    ("aurobindo pharma", "INE406A01037");
    ("biocon", "INE376G01013");
    ("mankind pharma", "INE634S01028");
    ("torrent pharmaceuticals", "INE685A01028");
    ("hindustan unilever", "INE030A01027");
    ("hul", "INE030A01027");
    ("itc", "INE154A01025");
    ("nestle india", "INE239A01016");
    ("britannia industries", "INE216A01030");
    ("dabur india", "INE016A01026");
    ("marico", "INE196A01026");
    ("godrej consumer products", "INE102D01028");
    ("colgate palmolive", "INE259A01022");
    ("tata consumer products", "INE192A01025");
    ("reliance industries", "INE002A01018");
    ("ongc", "INE213A01029");
    ("oil india", "INE274J01014");
    ("indian oil corporation", "INE242A01010");
    ("ioc", "INE242A01010");
    ("bharat petroleum", "INE029A01011");
    ("bpcl", "INE029A01011");
    ("gail india", "INE129A01019");
    ("bharti airtel", "INE397D01024");
    ("jio financial services", "INE758E01017");
    ("indus towers", "INE121J01017");
    ("tata steel", "INE081A01020");
    ("jsw steel", "INE019A01038");
    ("hindalco industries", "INE038A01020");
    ("vedanta", "INE205A01025");
    ("coal india", "INE522F01014");
    ("nmdc", "INE584A01023");
    ("ntpc", "INE733E01010");
    ("power grid corporation", "INE752E01010");
    ("adani power", "INE814H01011");
    ("tata power", "INE245A01021");
    ("adani green energy", "INE364U01010");
    ("larsen & toubro", "INE018A01030");
    ("l&t", "INE018A01030");
    ("siemens", "INE003A01024");
    ("abb india", "INE117A01022");
    ("bharat heavy electricals", "INE257A01026");
    ("bhel", "INE257A01026");
    ("cummins india", "INE298A01020");
    ("titan company", "INE280A01028");
    ("titan", "INE280A01028");
    ("havells india", "INE176B01034");
    ("voltas", "INE226A01021");
    ("whirlpool of india", "INE716A01013");
    ("crompton greaves consumer", "INE299U01018");
    ("dixon technologies", "INE935N01020");
    ("dixon technologies (india)", "INE935N01020");
    ("amber enterprises", "INE371P01015");
    ("amber enterprises india", "INE371P01015");
    ("kalyan jewellers", "INE303R01014");
    ("kalyan jewellers india", "INE303R01014");
    ("dlf", "INE271C01023");
    ("godrej properties", "INE484J01027");
    ("oberoi realty", "INE093I01010");
    ("prestige estates projects", "INE811K01011");
    ("prestige estates", "INE811K01011");
    ("phoenix mills", "INE211B01039");
    ("the phoenix mills", "INE211B01039");
    ("brigade enterprises", "INE791I01019");
    ("sobha", "INE671H01015");
    ("macrotech developers", "INE670K01029");
    ("bse", "INE118H01025");
    ("bse ltd", "INE118H01025");
    ("mcx", "INE745G01035");
    ("multi commodity exchange", "INE745G01035");
    ("multi commodity exchange of india", "INE745G01035");
    ("icici securities", "INE763G01038");
    ("cams", "INE596I01012");
    ("kfin technologies", "INE138Y01010");
    ("religare enterprises", "INE621H01010");
    ("hindustan aeronautics", "INE066F01020");
    ("hal", "INE066F01020");
    ("bharat electronics", "INE263A01024");
    ("bel", "INE263A01024");
    ("bharat dynamics", "INE171Z01018");
    ("zen technologies", "INE251B01027");
    ("data patterns", "INE822Q01010");
    ("paras defence", "INE114S01016");
    ("cg power and industrial solutions", "INE067A01029");
    ("cg power", "INE067A01029");
    ("ge vernova t&d india", "INE200A01026");
    ("ge vernova", "INE200A01026");
    ("ge t&d india", "INE200A01026");
    ("suzlon energy", "INE040H01021");
    ("inox wind", "INE066P01011");
    ("premier energies", "INE555Y01016");
    ("waaree energies", "INE377N01016");
    ("apar industries", "INE372A01015");
    ("polycab india", "INE455K01017");
    ("kaynes technology", "INE918Z01012");
    ("kaynes technology india", "INE918Z01012");
    ("thermax", "INE152A01029");
    ("grindwell norton", "INE536A01023");
    ("titagarh rail systems", "INE615H01020");
    ("ptc industries", "INE591D01018");
    ("asian paints", "INE021A01026");
    ("pidilite industries", "INE318A01026");
    ("upl", "INE628A01036");
    ("srf", "INE647A01010");
    ("gujarat fluorochemicals", "INE538A01037");
    ("navin fluorine", "INE048G01026");
    ("deepak nitrite", "INE288B01029");
    ("avenue supermarts", "INE192R01011");
    ("dmart", "INE192R01011");
    ("trent", "INE849A01020");
    ("trent ltd", "INE849A01020");
    ("zomato", "INE758T01015");
    ("swiggy", "INE044G01017");
    ("nykaa", "INE388Y01029");
    ("fsn e-commerce ventures", "INE388Y01029");
    ("devyani international", "INE872J01015");
    ("v2 retail", "INE945K01017")
  ].

Record t : Type := {
  isin_map : Dict.dict string;
  company_names : list string
}.

Definition suffixes : list string :=
  [ " limited"; " ltd"; " ltd."; " pvt"; " private";
    " public"; " inc"; " corp"; " corporation";
    " (india)"; " india"; " & co"; " co." ].

Definition _normalize_name (name : string) : string :=
  let name := strip (lower name) in
  let name :=
    fold_left
      (fun name suffix =>
         if endswith suffix name then drop_last (String.length suffix) name else name)
      suffixes name in
  let name := remove_chars (fun c => negb (is_word c || is_space c)) name in
  strip (collapse_spaces name).

(** The rows of [_load_csv]: the cells of the name column and of the ISIN
    column of the reference file, as [str(...)] gives them. *)
Definition csv_rows : Type := list (string * string).

Definition load_row (self : t) (row : string * string) : t :=
  let name := strip (fst row) in
  let isin := strip (snd row) in
  if PyStr.truthy name && PyStr.truthy isin && startswith "INE" isin
  then {| isin_map := Dict.set (_normalize_name name) isin (isin_map self);
          company_names := company_names self ++ [name] |}
  else self.

Definition _load_csv (self : t) (rows : csv_rows) : t :=
  fold_left load_row rows self.

(** [__init__]: the built-in table, then the reference file when there is
    one that can be read. *)
Definition init (csv : option csv_rows) : t :=
  let self := {| isin_map := BUILTIN_ISIN_DB; company_names := [] |} in
  match csv with
  | Some rows => _load_csv self rows
  | None => self
  end.

Definition _similarity (a b : string) : pyfloat := Difflib.ratio a b.

Definition default_threshold : pyfloat := decimal 8 (-1).

(** One turn of the loop of [get_isin] over [isin_map.items()]. *)
Definition fuzzy_step (normalized : string) (st : option string * pyfloat)
           (item : string * string) : option string * pyfloat :=
  let '(best_match, best_score) := st in
  let '(ref_name, isin) := item in
  let score := _similarity normalized ref_name in
  let score :=
    if contains normalized ref_name || contains ref_name normalized
    then fmax score (decimal 85 (-2)) else score in
  if fgt score best_score then (Some isin, score) else (best_match, best_score).

(** [get_isin(company_name, threshold)].  The result is a Python value:
    [None] is Python's [None], which the function returns when nothing
    scored above zero and the threshold is not positive. *)
Definition get_isin (self : t) (company_name : string) (threshold : pyfloat)
  : option string :=
  if negb (PyStr.truthy company_name) then Some "-"
  else
    let normalized := _normalize_name company_name in
    match Dict.get normalized (isin_map self) with
    | Some isin => Some isin
    | None =>
        let '(best_match, best_score) :=
          fold_left (fuzzy_step normalized) (isin_map self) (None, of_Z 0) in
        if fge best_score threshold then best_match else Some "-"
    end.

(** [get_isin(company_name)] with the default threshold, as the pipeline
    calls it.  With that threshold the result is never [None] (lemma
    [get_isin_default_eq] below), so the last branch is not taken. *)
Definition get_isin_default (self : t) (company_name : string) : string :=
  match get_isin self company_name default_threshold with
  | Some isin => isin
  | None => "-"
  end.

End ISINMapper.

(** ** [os.path] *)

Module OsPath.

(** [p.rfind(c)], with [None] for -1. *)
Fixpoint rfind (c : ascii) (p : string) : option nat :=
  match p with
  | EmptyString => None
  | String x p' =>
      match rfind c p' with
      | Some i => Some (S i)
      | None => if (x =? c)%char then Some 0%nat else None
      end
  end.

(** [os.path.basename(p)] *)
Definition basename (p : string) : string :=
  match rfind "/" p with
  | Some i => drop (S i) p
  | None => p
  end.

(** [os.path.splitext(p)[0]]: the path up to the last dot of its last
    component, unless that component has only leading dots. *)
Definition splitext_root (p : string) : string :=
  let name_start := match rfind "/" p with Some i => S i | None => 0%nat end in
  match rfind "." p with
  | Some dot =>
      if (name_start <=? dot)%nat
         && any_char (fun c => negb (c =? ".")%char) (take (dot - name_start) (drop name_start p))
      then take dot p
      else p
  | None => p
  end.

End OsPath.

(** ** The PDF library's view of a document *)

(** A cell of an extracted table is a [str] or [None]. *)
Definition cell : Type := option string.
Definition row : Type := list cell.
Definition table : Type := list row.

Record page : Type := {
  extract_text : option string;
  extract_tables : list table
}.

(** The pages of a document that could be opened. *)
Definition pdf : Type := list page.

(** What the PDF library makes of the document at a path: [None] when it
    raises before any page has been read, because the document cannot be
    opened or cannot be parsed. *)
Definition filesystem : Type := string -> option pdf.

(** Python truthiness of a cell. *)
Definition cell_truthy (c : cell) : bool :=
  match c with
  | Some s => PyStr.truthy s
  | None => false
  end.

(** [str(cell)] *)
Definition cell_str (c : cell) : string :=
  match c with
  | Some s => s
  | None => "None"
  end.

(** The rupee sign, U+20B9, by its UTF-8 bytes. *)
Definition rupee : string :=
  String (ascii_of_nat 226) (String (ascii_of_nat 130) (String (ascii_of_nat 185) "")).

(** ** [class FactsheetExtractor] *)

Module FactsheetExtractor.

(** A holding as the table and text parsers build it (a [dict]). *)
Record holding : Type := {
  security : string;
  isin : string;
  sector : string;
  pct_of_aum : pyfloat;
  market_value : option pyfloat;
  quantity : option pyfloat
}.

(** [asdict(HoldingRecord(...))] *)
Record HoldingRecord : Type := {
  r_date : string;
  r_amc : string;
  r_fund_name : string;
  r_security : string;
  r_isin : string;
  r_sector : string;
  r_pct_of_aum : pyfloat;
  r_market_value : option pyfloat;
  r_quantity : option pyfloat
}.

Record metadata : Type := {
  amc : string;
  fund_name : string;
  date : string;
  aum_cr : option pyfloat
}.

Definition SECTOR_MAPPINGS : list (string * string) :=
  [
    ("it - software", "Information Technology");
    ("it-software", "Information Technology");
    ("information technology", "Information Technology");
    ("software", "Information Technology");
    ("banks", "Banking");
    ("banking", "Banking");
    ("private sector bank", "Banking");
    ("public sector bank", "Banking");
    ("finance", "Financial Services");
    ("financial services", "Financial Services");
    ("nbfc", "Financial Services");
    ("pharmaceuticals & biotechnology", "Pharmaceuticals");
    ("pharmaceuticals", "Pharmaceuticals");
    ("pharma", "Pharmaceuticals");
    ("healthcare", "Healthcare");
    ("consumer durables", "Consumer Durables");
    ("consumer goods", "Consumer Goods");
    ("fmcg", "FMCG");
    ("retailing", "Retailing");
    ("retail", "Retailing");
    ("auto components", "Automobile");
    ("automobiles", "Automobile");
    ("automobile", "Automobile");
    ("auto", "Automobile");
    ("telecom - services", "Telecom");
    ("telecom", "Telecom");
    ("telecommunications", "Telecom");
    ("realty", "Real Estate");
    ("real estate", "Real Estate");
    ("construction", "Construction");
    ("capital markets", "Capital Markets");
    ("chemicals & petrochemicals", "Chemicals");
    ("chemicals", "Chemicals");
    ("industrial products", "Industrial Products");
    ("industrial manufacturing", "Industrial Manufacturing");
    ("aerospace & defense", "Aerospace & Defense");
    ("defence", "Aerospace & Defense");
    ("electrical equipment", "Electrical Equipment");
    ("power", "Power");
    ("oil & gas", "Oil & Gas");
    ("energy", "Energy");
    ("metals & mining", "Metals & Mining");
    ("cement", "Cement & Construction Materials")
  ].

Definition AMC_MAPPINGS : list (string * string) :=
  [
    ("motilaloswal", "Motilal Oswal");
    ("motilal oswal", "Motilal Oswal");
    ("hdfc", "HDFC");
    ("icici prudential", "ICICI Prudential");
    ("sbi", "SBI");
    ("axis", "Axis");
    ("kotak", "Kotak");
    ("nippon india", "Nippon India");
    ("aditya birla", "Aditya Birla Sun Life");
    ("dsp", "DSP");
    ("tata", "Tata");
    ("uti", "UTI");
    ("franklin templeton", "Franklin Templeton");
    ("mirae asset", "Mirae Asset");
    ("pgim", "PGIM India");
    ("invesco", "Invesco India");
    ("edelweiss", "Edelweiss");
    ("canara robeco", "Canara Robeco");
    ("bandhan", "Bandhan");
    ("quant", "Quant");
    ("parag parikh", "PPFAS");
    ("ppfas", "PPFAS");
    ("groww", "Groww");
    ("baroda bnp", "Baroda BNP Paribas")
  ].

Definition zero : pyfloat := F_fin 0.

Definition normalize_sector (sector : string) : string :=
  if negb (PyStr.truthy sector) then "Unknown"
  else
    let sector_lower := strip (lower sector) in
    match Dict.get sector_lower SECTOR_MAPPINGS with
    | Some v => v
    | None => title sector
    end.

Definition normalize_amc (amc : string) : string :=
  if negb (PyStr.truthy amc) then "Unknown"
  else
    let amc_lower := strip (lower amc) in
    match find (fun kv => contains (fst kv) amc_lower) AMC_MAPPINGS with
    | Some (_, value) => value
    | None => title amc
    end.

(** [s[1:-1]] *)
Definition inner (s : string) : string := drop 1 (drop_last 1 s).

(** The two assignments to [cleaned] in [parse_percentage]. *)
Definition clean_percentage (value : string) : string :=
  strip (replace "," "" (replace "%" "" value)).

Definition unparenthesize (cleaned : string) : string :=
  if startswith "(" cleaned && endswith ")" cleaned
  then "-" ++ inner cleaned else cleaned.

Definition parse_percentage (value : cell) : pyfloat :=
  if negb (cell_truthy value) then zero
  else
    match py_float (unparenthesize (clean_percentage (cell_str value))) with
    | Some x => x
    | None => zero
    end.

(** The assignment to [cleaned] in [parse_number]. *)
Definition clean_number (value : string) : string :=
  strip (replace rupee "" (replace "`" "" (replace "," "" value))).

Definition parse_number (value : cell) : option pyfloat :=
  if negb (cell_truthy value) then None
  else
    let cleaned := clean_number (cell_str value) in
    if (cleaned =? "-") || (cleaned =? "") || (lower cleaned =? "na") then None
    else py_float cleaned.

(** "(\d{6})\.pdf$", ignoring case *)
Definition re_yyyymm_pdf : re :=
  seq [Grp 1 (Rep 6 digit); chr "."; liti "pdf"; Eol].

(** "(\d{4})[-_]?(\d{2})" *)
Definition re_yyyy_mm : re :=
  seq [Grp 1 (Rep 4 digit); Opt (Chr (one_of "-_")); Grp 2 (Rep 2 digit)].

(** [now] is [datetime.now().strftime("%Y-%m-01")]. *)
Definition extract_date_from_filename (now : string) (filename : string) : string :=
  match search re_yyyymm_pdf filename with
  | Some m =>
      let date_str := group_or_empty 1 (m_groups m) in
      let year := take 4 date_str in
      let month := take 2 (drop 4 date_str) in
      year ++ "-" ++ month ++ "-01"
  | None =>
      match search re_yyyy_mm filename with
      | Some m =>
          group_or_empty 1 (m_groups m) ++ "-" ++ group_or_empty 2 (m_groups m) ++ "-01"
      | None => now
      end
  end.

Definition extract_amc_from_filename (filename : string) : string :=
  let base := OsPath.splitext_root filename in
  let parts := split (replace "_" " " base) in
  match parts with
  | first :: _ => normalize_amc first
  | [] => "Unknown"
  end.

(** *** Free-text metadata *)

Definition ws : re := Star space.
Definition word_or_space : re := Chr (fun c => is_word c || is_space c).

(** The pattern
    "([\w\s]+(?:Large\s*(?:and|&)?\s*Mid\s*Cap|Large\s*Cap|Mid\s*Cap|Small\s*Cap|Multi\s*Cap|Flexi\s*Cap)\s*Fund)",
    ignoring case. *)
Definition re_fund_capped : re :=
  Grp 1 (seq [ Plus word_or_space;
               alts [ seq [liti "Large"; ws; Opt (Alt (liti "and") (chr "&")); ws;
                           liti "Mid"; ws; liti "Cap"];
                      seq [liti "Large"; ws; liti "Cap"];
                      seq [liti "Mid"; ws; liti "Cap"];
                      seq [liti "Small"; ws; liti "Cap"];
                      seq [liti "Multi"; ws; liti "Cap"];
                      seq [liti "Flexi"; ws; liti "Cap"] ];
               ws; liti "Fund" ]).

(** The pattern "([\w\s]+Fund)", ignoring case. *)
Definition re_fund_any : re :=
  Grp 1 (seq [Plus word_or_space; liti "Fund"]).

Definition fund_name_of (text : string) (pattern : re) : option string :=
  match search pattern text with
  | Some m =>
      let fund_name := collapse_spaces (strip (group_or_empty 1 (m_groups m))) in
      if (10 <? String.length fund_name)%nat && contains "fund" (lower fund_name)
      then Some fund_name else None
  | None => None
  end.

Fixpoint first_some (A B : Type) (f : A -> option B) (l : list A) : option B :=
  match l with
  | [] => None
  | a :: l' =>
      match f a with
      | Some b => Some b
      | None => first_some f l'
      end
  end.

Definition extract_fund_name_from_text (text : string) : string :=
  match first_some (fund_name_of text) [re_fund_capped; re_fund_any] with
  | Some fund_name => fund_name
  | None => "Unknown Fund"
  end.

(** The group "([\d,]+\.?\d* )". *)
Definition re_amount : re :=
  Grp 1 (seq [ Plus (Chr (fun c => is_digit c || (c =? ",")%char));
               Opt (chr "."); Star digit ]).

(** "[`₹]?", the rupee sign by its three bytes. *)
Definition re_currency_opt : re := Opt (Alt (chr "`") (lit rupee)).

(** "[:\s]*" *)
Definition re_colon_spaces : re := Star (Chr (fun c => (c =? ":")%char || is_space c)).

Definition re_crore : re := Alt (liti "Cr") (liti "Crore").

(** "label[^`]*`\s*([\d,]+\.?\d* )\s*\(?[`₹]?\s*cr" *)
Definition re_ticked (label : re) : re :=
  seq [ label; Star (Chr (fun c => negb (c =? "`")%char)); chr "`"; ws;
        re_amount; ws; Opt (chr "("); re_currency_opt; ws; liti "cr" ].

(** "label[:\s]*[`₹]?\s*([\d,]+\.?\d* )\s*(?:Cr|Crore)" *)
Definition re_labelled (label : re) : re :=
  seq [ label; re_colon_spaces; re_currency_opt; ws; re_amount; ws; re_crore ].

Definition aum_patterns : list re :=
  [ re_ticked (seq [liti "Latest"; Plus space; liti "AUM"]);
    re_labelled (liti "AUM");
    re_labelled (seq [liti "Net"; Plus space; liti "Assets"]);
    re_labelled (seq [liti "Fund"; Plus space; liti "Size"]);
    re_ticked (seq [liti "Monthly"; Plus space; liti "AAUM"]);
    (* "(\d{1,3}(?:,\d{3})*\.?\d* )\s*\(?[`₹]?\s*cr\)?" *)
    seq [ Grp 1 (seq [ digit; UpTo 2 digit; Star (Cat (chr ",") (Rep 3 digit));
                       Opt (chr "."); Star digit ]);
          ws; Opt (chr "("); re_currency_opt; ws; liti "cr"; Opt (chr ")") ] ].

Definition aum_of (text : string) (pattern : re) : option pyfloat :=
  match search pattern text with
  | Some m =>
      let aum_str := replace "," "" (group_or_empty 1 (m_groups m)) in
      match py_float aum_str with
      | Some aum =>
          if fle (of_Z 10) aum && fle aum (of_Z 1000000) then Some aum else None
      | None => None
      end
  | None => None
  end.

Definition extract_aum_from_text (text : string) : option pyfloat :=
  first_some (aum_of text) aum_patterns.

(** The pattern
    "(?:as\s+on|data\s+as\s+on|as\s+of)[\s:]+(\d{1,2}[-/]\w+[-/]\d{2,4}|\d{1,2}\s+\w+\s+\d{4}|\d{2}[-/]\d{2}[-/]\d{4})",
    ignoring case. *)
Definition re_as_on : re :=
  let sep := Chr (one_of "-/") in
  seq [ alts [ seq [liti "as"; Plus space; liti "on"];
               seq [liti "data"; Plus space; liti "as"; Plus space; liti "on"];
               seq [liti "as"; Plus space; liti "of"] ];
        Plus (Chr (fun c => is_space c || (c =? ":")%char));
        Grp 1 (alts [ seq [digit; UpTo 1 digit; sep; Plus word; sep; Rep 2 digit; UpTo 2 digit];
                      seq [digit; UpTo 1 digit; Plus space; Plus word; Plus space; Rep 4 digit];
                      seq [Rep 2 digit; sep; Rep 2 digit; sep; Rep 4 digit] ]) ].

(** *** Tables *)

Definition skip_patterns : list string :=
  [ "total"; "grand total"; "equity"; "net receivables";
    "scrip"; "security"; "stock"; "weightage"; "weight";
    "debt"; "cash"; "net current"; "receivables"; "payables";
    "equity & equity"; "related"; "holdings"; "portfolio" ].

Definition _is_valid_security (name : string) : bool :=
  if negb (PyStr.truthy name) then false
  else
    let name_lower := strip (lower name) in
    if existsb (fun pattern => contains pattern name_lower) skip_patterns then false
    else if (String.length name <? 3)%nat || (100 <? String.length name)%nat then false
    else if negb (any_char is_alpha name) then false
    else true.

Definition column_patterns : list (string * list string) :=
  [
    ("security", ["scrip"; "security"; "stock"; "name"; "holding"; "company"]);
    ("isin", ["isin"]);
    ("sector", ["sector"; "industry"]);
    ("pct_of_aum", ["weight"; "%"; "pct"; "weightage"; "allocation"; "% of"; "aum"]);
    ("market_value", ["market"; "value"; "mv"; "amount"]);
    ("quantity", ["quantity"; "qty"; "units"; "shares"])
  ].

(** [enumerate(l)] *)
Definition enumerate (A : Type) (l : list A) : list (nat * A) :=
  combine (List.seq 0 (List.length l)) l.

Definition map_cell (idx : nat) (cell_lower : string) (col_map : Dict.dict nat)
           (entry : string * list string) : Dict.dict nat :=
  let '(field, patterns) := entry in
  if existsb (fun pattern => contains pattern cell_lower) patterns
  then if negb (Dict.mem field col_map) then Dict.set field idx col_map else col_map
  else col_map.

Definition _map_columns (header_row : row) : Dict.dict nat :=
  fold_left
    (fun col_map (ic : nat * cell) =>
       let '(idx, c) := ic in
       if negb (cell_truthy c) then col_map
       else fold_left (map_cell idx (lower (cell_str c))) column_patterns col_map)
    (enumerate header_row) [].

(** Truthiness of [col_map.get(key)]: the key is mapped, and not to
    column 0. *)
Definition get_truthy (key : string) (col_map : Dict.dict nat) : bool :=
  match Dict.get key col_map with
  | Some (S _) => true
  | _ => false
  end.

Definition non_data_labels : list string :=
  [ "total"; "grand total"; "equity"; "net receivables";
    "net receivables / (payables)" ].

(** "^IN[A-Z0-9]{10}$" *)
Definition re_isin : re :=
  seq [Bol; lit "IN"; Rep 10 (Chr (fun c => is_upper c || is_digit c)); Eol].

(** The cell of [row] at a mapped column, when the column is mapped and
    inside the row. *)
Definition mapped_cell (key : string) (col_map : Dict.dict nat) (r : row) : option cell :=
  match Dict.get key col_map with
  | Some idx => nth_error r idx
  | None => None
  end.

(** [col_map.get('security') or col_map.get('scrip', 0)] *)
Definition security_index (col_map : Dict.dict nat) : nat :=
  if get_truthy "security" col_map
  then match Dict.get "security" col_map with Some i => i | None => 0%nat end
  else match Dict.get "scrip" col_map with Some i => i | None => 0%nat end.

Definition _parse_holding_row (r : row) (col_map : Dict.dict nat)
           (current_sector : string) : option holding :=
  let security_idx := security_index col_map in
  let security :=
    match nth_error r security_idx with
    | Some c => if cell_truthy c then Some (strip (cell_str c)) else None
    | None => None
    end in
  match security with
  | None => None
  | Some security =>
      if negb (PyStr.truthy security) || PyStr.mem (lower security) non_data_labels
      then None
      else
        let security := collapse_spaces security in
        let pct_of_aum :=
          match mapped_cell "pct_of_aum" col_map r with
          | Some c => parse_percentage c
          | None => zero
          end in
        let sector :=
          match mapped_cell "sector" col_map r with
          | Some c => if cell_truthy c then strip (cell_str c) else current_sector
          | None => current_sector
          end in
        let isin :=
          match mapped_cell "isin" col_map r with
          | Some c =>
              if cell_truthy c
              then let isin_value := strip (cell_str c) in
                   match rematch re_isin isin_value with
                   | Some _ => isin_value
                   | None => ""
                   end
              else ""
          | None => ""
          end in
        let market_value :=
          match mapped_cell "market_value" col_map r with
          | Some c => parse_number c
          | None => None
          end in
        let quantity :=
          match mapped_cell "quantity" col_map r with
          | Some c => parse_number c
          | None => None
          end in
        Some {| security := security; isin := isin; sector := sector;
                pct_of_aum := pct_of_aum; market_value := market_value;
                quantity := quantity |}
  end.

(** One (name, weight) pair of a two-column row. *)
Definition parse_pair (name weight : cell) : list holding :=
  if cell_truthy name
  then
    let security := strip (cell_str name) in
    if PyStr.truthy security && _is_valid_security security
    then
      let pct := parse_percentage weight in
      if fgt pct zero
      then [ {| security := security; isin := ""; sector := "Unknown";
                pct_of_aum := pct; market_value := None; quantity := None |} ]
      else []
    else []
  else [].

Definition parse_two_column_row (r : row) : list holding :=
  match r with
  | c0 :: c1 :: rest =>
      parse_pair c0 c1
      ++ match rest with
         | c2 :: c3 :: _ => parse_pair c2 c3
         | _ => []
         end
  | _ => []
  end.

Definition _parse_two_column_table (t : table) (header_idx : nat) : list holding :=
  flat_map parse_two_column_row (skipn (S header_idx) t).

(** *** Text fallback *)

(** "([A-Z][A-Za-z\s&\.\(\)]+(?:Ltd|Limited|Corp|Inc)?\.?)\s+(\d+\.\d+)" *)
Definition re_text_holding : re :=
  seq [ Grp 1 (seq [ Chr is_upper;
                     Plus (Chr (fun c => is_alpha c || is_space c || one_of "&.()" c));
                     Opt (alts [lit "Ltd"; lit "Limited"; lit "Corp"; lit "Inc"]);
                     Opt (chr ".") ]);
        Plus space;
        Grp 2 (seq [Plus digit; chr "."; Plus digit]) ].

Definition skip_words : list string :=
  ["page"; "total"; "scheme"; "fund"; "year"; "month"; "return"; "nav"].

(** The loop over the matches.  [None] is the [ValueError] of
    [float(match[1])], which leaves the function. *)
Fixpoint text_holdings (matches : list (string * string)) : option (list holding) :=
  match matches with
  | [] => Some []
  | m :: matches' =>
      let security := strip (fst m) in
      match py_float (snd m) with
      | None => None
      | Some pct =>
          match text_holdings matches' with
          | None => None
          | Some holdings =>
              if (String.length security <? 3)%nat || fgt pct (of_Z 100) || fle pct zero
              then Some holdings
              else if existsb (fun w => contains w (lower security)) skip_words
              then Some holdings
              else Some ({| security := security; isin := ""; sector := "Unknown";
                            pct_of_aum := pct; market_value := None;
                            quantity := None |} :: holdings)
          end
      end
  end.

Definition groups2 (cs : captures) : string * string :=
  (group_or_empty 1 cs, group_or_empty 2 cs).

Definition _extract_holdings_from_text (text : string) : option (list holding) :=
  text_holdings (map groups2 (findall re_text_holding text)).

(** *** Table classification *)

Record table_info : Type := { ti_page : nat; ti_data : table }.

Definition portfolio_keywords : list string :=
  ["scrip"; "security"; "stock"; "holding"; "weightage"; "weight"].

Definition row_text (r : row) : string :=
  join " " (map (fun c => lower (cell_str c)) (filter cell_truthy r)).

(** The header among the first three rows: its index, the row, and
    whether it announces the two-column layout. *)
Fixpoint find_header (rows : list (nat * row)) : option (nat * row * bool) :=
  match rows with
  | [] => None
  | (idx, r) :: rows' =>
      match r with
      | [] => find_header rows'
      | _ =>
          let text := row_text r in
          if existsb (fun kw => contains kw text) portfolio_keywords
          then
            let scrip_count := count "scrip" text in
            Some (idx, r,
                  (2 <=? scrip_count)%nat
                  || ((4 <=? List.length r)%nat && contains "scrip" text))
          else find_header rows'
      end
  end.

Definition is_empty (A : Type) (l : list A) : bool :=
  match l with
  | [] => true
  | _ => false
  end.

Definition parse_single_block (t : table) (header_idx : nat) (col_map : Dict.dict nat)
           (current_sector : string) : list holding :=
  flat_map
    (fun r =>
       if is_empty r then []
       else match _parse_holding_row r col_map current_sector with
            | Some h => if PyStr.truthy (security h) then [h] else []
            | None => []
            end)
    (skipn (S header_idx) t).

(** The holdings one table adds. *)
Definition process_table (t : table) (current_sector : string) : list holding :=
  if is_empty t || (List.length t <? 2)%nat then []
  else
    match find_header (enumerate (firstn 3 t)) with
    | None => []
    | Some (header_idx, header_row, is_two_column_format) =>
        if is_two_column_format
        then _parse_two_column_table t header_idx
        else
          let col_map := _map_columns header_row in
          if negb (get_truthy "security" col_map) && negb (get_truthy "scrip" col_map)
          then []
          else parse_single_block t header_idx col_map current_sector
    end.

Definition _process_tables (tables : list table_info) (full_text : string)
  : option (list holding) :=
  let current_sector := "Unknown" in
  let holdings := flat_map (fun ti => process_table (ti_data ti) current_sector) tables in
  if is_empty holdings then _extract_holdings_from_text full_text
  else Some holdings.

(** *** One document *)

Definition text_or_empty (p : page) : string :=
  match extract_text p with
  | Some t => t
  | None => ""
  end.

Definition all_text_of (pages : pdf) : string :=
  String.concat "" (map (fun p => text_or_empty p ++ String (ascii_of_nat 10) "") pages).

Definition all_tables_of (pages : pdf) : list table_info :=
  flat_map
    (fun (np : nat * page) =>
       let '(page_num, p) := np in
       map (fun t => {| ti_page := page_num + 1; ti_data := t |})
           (filter (fun t => negb (is_empty t) && (1 <? List.length t)%nat)
                   (extract_tables p)))
    (enumerate pages).

(** [extract_portfolio_table].  A document that cannot be opened or parsed
    raises inside the [try] block, before [holdings] and [metadata] are
    assigned; the handler logs the error and the function returns the empty
    holdings and the initial metadata. *)
Definition extract_portfolio_table (fs : filesystem) (pdf_path : string)
  : list holding * metadata :=
  match fs pdf_path with
  | None => ([], {| amc := ""; fund_name := ""; date := ""; aum_cr := None |})
  | Some pages =>
      let all_text := all_text_of pages in
      let all_tables := all_tables_of pages in
      let md :=
        {| amc := "";
           fund_name := extract_fund_name_from_text all_text;
           date := match search re_as_on all_text with
                   | Some m => group_or_empty 1 (m_groups m)
                   | None => ""
                   end;
           aum_cr := extract_aum_from_text all_text |} in
      match _process_tables all_tables all_text with
      | Some holdings => (holdings, md)
      | None => ([], md)
      end
  end.

(** "([A-Za-z\s&\-]+)\s+(\d+\.?\d* )%" *)
Definition re_sector_pct : re :=
  seq [ Grp 1 (Plus (Chr (fun c => is_alpha c || is_space c || one_of "&-" c)));
        Plus space;
        Grp 2 (seq [Plus digit; Opt (chr "."); Star digit]);
        chr "%" ].

(** The loop of [extract_sector_allocation] over the matches of all
    pages; a [ValueError] leaves it with what has been gathered. *)
Fixpoint allocation_loop (matches : list (string * string))
         (sector_allocation : Dict.dict pyfloat) : Dict.dict pyfloat :=
  match matches with
  | [] => sector_allocation
  | m :: matches' =>
      let sector := strip (fst m) in
      match py_float (snd m) with
      | None => sector_allocation
      | Some pct =>
          if (3 <? String.length sector)%nat && fgt pct zero && fle pct (of_Z 100)
          then
            let normalized_sector := normalize_sector sector in
            if negb (Dict.mem normalized_sector sector_allocation)
            then allocation_loop matches' (Dict.set normalized_sector pct sector_allocation)
            else allocation_loop matches' sector_allocation
          else allocation_loop matches' sector_allocation
      end
  end.

Definition extract_sector_allocation (fs : filesystem) (pdf_path : string)
  : Dict.dict pyfloat :=
  match fs pdf_path with
  | None => []
  | Some pages =>
      allocation_loop
        (flat_map (fun p => map groups2 (findall re_sector_pct (text_or_empty p))) pages)
        []
  end.

Definition sector_keywords : list (string * list string) :=
  [
    ("Banking", ["bank"; "hdfc bank"; "icici bank"; "axis bank"; "kotak"; "sbi"; "indusind"; "federal bank"]);
    ("Information Technology", ["infosys"; "tcs"; "wipro"; "tech mahindra"; "hcl tech"; "coforge"; "ltimindtree"; "persistent"; "mphasis"]);
    ("Pharmaceuticals", ["pharma"; "dr."; "cipla"; "sun pharma"; "lupin"; "divi"; "mankind"; "aurobindo"; "biocon"]);
    ("Financial Services", ["bajaj finance"; "bajaj finserv"; "cholamandalam"; "shriram"; "muthoot"; "manappuram"; "piramal"; "angel one"]);
    ("Automobile", ["auto"; "motor"; "maruti"; "tata motors"; "mahindra"; "hero motocorp"; "bajaj auto"; "tvs"; "ashok leyland"; "motherson"; "samvardhana"]);
    ("FMCG", ["hindustan unilever"; "itc"; "nestle"; "britannia"; "dabur"; "marico"; "godrej consumer"; "colgate"; "p&g"]);
    ("Telecom", ["bharti airtel"; "jio"; "vodafone"; "indus towers"; "telecom"]);
    ("Energy", ["reliance industries"; "ongc"; "oil india"; "bpcl"; "ioc"; "gail"; "ntpc"; "power grid"; "adani power"; "tata power"]);
    ("Metals & Mining", ["tata steel"; "jsw steel"; "hindalco"; "vedanta"; "coal india"; "nmdc"; "hindustan zinc"]);
    ("Real Estate", ["dlf"; "godrej properties"; "oberoi realty"; "prestige"; "phoenix mills"; "brigade"; "sobha"; "macrotech"]);
    ("Consumer Durables", ["titan"; "havells"; "voltas"; "whirlpool"; "crompton"; "dixon"; "amber"; "kalyan jewellers"; "v2 retail"]);
    ("Retailing", ["avenue supermarts"; "trent"; "dmart"; "zomato"; "swiggy"; "nykaa"; "tata consumer"; "devyani"]);
    ("Capital Markets", ["bse"; "mcx"; "angel one"; "icici securities"; "exchange"; "cams"; "kfin"; "religare"]);
    ("Aerospace & Defense", ["hal"; "hindustan aeronautics"; "bharat dynamics"; "bharat electronics"; "bel"; "zen technologies"; "paras defence"; "data patterns"]);
    ("Electrical Equipment", ["abb"; "siemens"; "cg power"; "ge vernova"; "suzlon"; "inox wind"; "premier energies"; "waaree"; "apar"; "polycab"; "kaynes"]);
    ("Industrial Manufacturing", ["larsen"; "l&t"; "thermax"; "cummins"; "grindwell norton"; "titagarh"; "ptc industries"]);
    ("Chemicals", ["asian paints"; "pidilite"; "upl"; "srf"; "gujarat fluorochemicals"; "navin fluorine"; "deepak nitrite"])
  ].

Definition _build_sector_keyword_map (sector_allocation : Dict.dict pyfloat)
  : Dict.dict (list string) := sector_keywords.

Definition _guess_sector (security : string) (keyword_map : Dict.dict (list string))
  : string :=
  let security_lower := lower security in
  match find (fun sk => existsb (fun kw => contains kw security_lower) (snd sk)) keyword_map with
  | Some (sector, _) => sector
  | None => "Other"
  end.

(** Truthiness of an optional float: present and not zero. *)
Definition opt_truthy (x : option pyfloat) : bool :=
  match x with
  | Some v => PyFloat.truthy v
  | None => false
  end.

(** [(pct / 100) * aum], rounded to two decimals. *)
Definition computed_value (pct aum : pyfloat) : pyfloat :=
  round2 (fmul (fdiv pct (of_Z 100)) aum).

(** The body of the loop of [process_pdf] over the holdings. *)
Definition enrich (mapper : ISINMapper.t) (aum_cr : option pyfloat)
           (keyword_map : Dict.dict (list string)) (h : holding) : holding :=
  let sector :=
    if sector h =? "Unknown" then _guess_sector (security h) keyword_map
    else normalize_sector (sector h) in
  let isin :=
    if negb (PyStr.truthy (isin h)) || (isin h =? "")
    then ISINMapper.get_isin_default mapper (security h)
    else isin h in
  let market_value :=
    match aum_cr with
    | Some aum =>
        if PyFloat.truthy aum && fgt (pct_of_aum h) zero
        then if negb (opt_truthy (market_value h))
             then Some (computed_value (pct_of_aum h) aum)
             else market_value h
        else market_value h
    | None => market_value h
    end in
  {| security := security h; isin := isin; sector := sector;
     pct_of_aum := pct_of_aum h; market_value := market_value;
     quantity := quantity h |}.

Definition to_record (date : string) (md : metadata) (h : holding) : HoldingRecord :=
  {| r_date := date; r_amc := amc md; r_fund_name := fund_name md;
     r_security := security h; r_isin := isin h; r_sector := sector h;
     r_pct_of_aum := pct_of_aum h; r_market_value := market_value h;
     r_quantity := quantity h |}.

(** The result of [process_pdf]; [res_metadata] is [None] for the empty
    dict the result starts with. *)
Record result : Type := {
  success : bool;
  res_filename : string;
  res_metadata : option metadata;
  res_holdings : list HoldingRecord;
  res_sector_allocation : Dict.dict pyfloat;
  res_errors : list string
}.

(** [process_pdf(pdf_path, filename)].  No step of its [try] block
    raises: the two functions that open the document catch what the PDF
    library raises, and the rest works on strings and floats.  So the
    handler that sets [errors] to the message of the exception is never
    entered, and the result always has [success] set. *)
Definition process_pdf (mapper : ISINMapper.t) (fs : filesystem) (now : string)
           (pdf_path : string) (filename : option string) : result :=
  let filename :=
    match filename with
    | Some f => f
    | None => OsPath.basename pdf_path
    end in
  let date := extract_date_from_filename now filename in
  let amc := extract_amc_from_filename filename in
  let '(holdings, md) := extract_portfolio_table fs pdf_path in
  let md :=
    {| amc := if negb (amc =? "Unknown") then amc else FactsheetExtractor.amc md;
       fund_name := fund_name md;
       date := date;
       aum_cr := aum_cr md |} in
  let sector_allocation := extract_sector_allocation fs pdf_path in
  let sector_keywords_map := _build_sector_keyword_map sector_allocation in
  let holdings := map (enrich mapper (aum_cr md) sector_keywords_map) holdings in
  let records := map (to_record date md) holdings in
  {| success := true;
     res_filename := filename;
     res_metadata := Some md;
     res_holdings := records;
     res_sector_allocation := sector_allocation;
     res_errors := [] |}.

(** *** A batch *)

Record batch_metadata : Type := {
  bm_filename : string;
  bm_metadata : option metadata
}.

Record batch_allocation : Type := {
  ba_filename : string;
  ba_amc : string;
  ba_fund_name : string;
  ba_date : string;
  ba_allocation : Dict.dict pyfloat
}.

Record batch : Type := {
  all_holdings : list HoldingRecord;
  all_metadata : list batch_metadata;
  all_sector_allocations : list batch_allocation;
  errors : list string
}.

Definition md_get (f : metadata -> string) (default : string) (md : option metadata)
  : string :=
  match md with
  | Some m => f m
  | None => default
  end.

Definition batch_step (mapper : ISINMapper.t) (fs : filesystem) (now : string)
           (acc : batch) (file : string * string) : batch :=
  let '(pdf_path, filename) := file in
  let res := process_pdf mapper fs now pdf_path (Some filename) in
  if success res
  then
    {| all_holdings := all_holdings acc ++ res_holdings res;
       all_metadata :=
         all_metadata acc
         ++ [ {| bm_filename := filename; bm_metadata := res_metadata res |} ];
       all_sector_allocations :=
         all_sector_allocations acc
         ++ [ {| ba_filename := filename;
                 ba_amc := md_get amc "Unknown" (res_metadata res);
                 ba_fund_name := md_get fund_name "Unknown" (res_metadata res);
                 ba_date := md_get date "" (res_metadata res);
                 ba_allocation := res_sector_allocation res |} ];
       errors := errors acc |}
  else
    {| all_holdings := all_holdings acc;
       all_metadata := all_metadata acc;
       all_sector_allocations := all_sector_allocations acc;
       errors := errors acc ++ res_errors res |}.

Definition process_multiple_pdfs (mapper : ISINMapper.t) (fs : filesystem) (now : string)
           (pdf_files : list (string * string)) : batch :=
  fold_left (batch_step mapper fs now) pdf_files
    {| all_holdings := []; all_metadata := []; all_sector_allocations := [];
       errors := [] |}.

End FactsheetExtractor.

Import FactsheetExtractor.


(** * The resolver as the specification words it *)

Module Spec.

(** The score of a catalog key for a normalised input: the similarity
    ratio, raised to 0.85 when one of the two contains the other. *)
Definition score (normalized ref_name : string) : pyfloat :=
  let ratio := ISINMapper._similarity normalized ref_name in
  if contains normalized ref_name || contains ref_name normalized
  then fmax ratio (decimal 85 (-2)) else ratio.

(** An entry is a maximum when no entry of the catalog scores more. *)
Definition is_maximum (normalized : string) (catalog : Dict.dict string)
           (entry : string * string) : bool :=
  forallb (fun other => fle (score normalized (fst other)) (score normalized (fst entry)))
          catalog.

(** The first-encountered maximum, in the iteration order of the catalog. *)
Definition first_maximum (normalized : string) (catalog : Dict.dict string)
  : option (string * string) :=
  find (is_maximum normalized catalog) catalog.

(** Exact match first; otherwise the first-encountered maximum, accepted
    from a score of 0.80 on, and the sentinel when it is not. *)
Definition resolve (self : ISINMapper.t) (name : string) : string :=
  let normalized := ISINMapper._normalize_name name in
  match Dict.get normalized (ISINMapper.isin_map self) with
  | Some code => code
  | None =>
      match first_maximum normalized (ISINMapper.isin_map self) with
      | Some (ref_name, code) =>
          if fge (score normalized ref_name) ISINMapper.default_threshold
          then code else "-"
      | None => "-"
      end
  end.

End Spec.

(** * Definitions used in the statements *)

Unset Implicit Arguments.

Section RunningMaximumBody.

Variable A : Type.
Variable sc : A -> pyfloat.
Variable code : A -> string.

(** The loop body: keep the first element that scores strictly more than
    the best so far. *)
Definition best_step (st : option string * pyfloat) (a : A) : option string * pyfloat :=
  if fgt (sc a) (snd st) then (Some (code a), sc a) else st.

(** An element no other element of the list outscores. *)
Definition is_max (l : list A) (a : A) : bool :=
  forallb (fun other => fle (sc other) (sc a)) l.

End RunningMaximumBody.

(** A text that starts like a number: with a digit or the point. *)
Definition starts_number (s : string) : bool :=
  match s with
  | String d _ => is_digit d || (d =? ".")%char
  | EmptyString => false
  end.

(** The catalog after [__init__]: its first key is the first built-in key
    and no code is the sentinel. *)
Definition catalog_ok (m : Dict.dict string) : Prop :=
  (exists code rest, m = ("hdfc bank", code) :: rest)
  /\ forall e, In e m -> snd e <> "-".

(** The weight a single-block row is given. *)
Definition row_weight (r : row) (col_map : Dict.dict nat) : pyfloat :=
  match mapped_cell "pct_of_aum" col_map r with
  | Some c => parse_percentage c
  | None => zero
  end.

(** A text of ASCII characters only. *)
Definition is_ascii (s : string) : bool :=
  negb (any_char (fun c => (128 <=? code c)%nat) s).

(** Six digits. *)
Definition six_digits (d : string) : Prop :=
  exists c1 c2 c3 c4 c5 c6,
    d = String c1 (String c2 (String c3 (String c4 (String c5 (String c6 "")))))
    /\ is_digit c1 = true /\ is_digit c2 = true /\ is_digit c3 = true
    /\ is_digit c4 = true /\ is_digit c5 = true /\ is_digit c6 = true.

(** ** Sample documents *)

Module Examples.

Definition newline : string := String (ascii_of_nat 10) "".

(** A factsheet with a single-block table: a plain row, a row with a
    parenthesised weight, a row without a weight, a row whose value cell
    reads 0, and a row that brings its own value. *)
Definition factsheet : pdf :=
  [ {| extract_text := Some ("HDFC Flexi Cap Fund" ++ newline ++ "AUM: 1000 Cr");
       extract_tables :=
         [ [ [Some "Sr"; Some "Security Name"; Some "% of AUM"; Some "Market Value"];
             [Some "1"; Some "Infosys Ltd"; Some "10.0%"; None];
             [Some "2"; Some "Loss Maker"; Some "(1.23)%"; None];
             [Some "3"; Some "No Weight"; Some "-"; None];
             [Some "4"; Some "Zero Value"; Some "5.0%"; Some "0"];
             [Some "5"; Some "Own Value"; Some "5.0%"; Some "7.5"] ] ] |} ].

(** A factsheet whose only table names the security in its first column. *)
Definition first_column : pdf :=
  [ {| extract_text := None;
       extract_tables :=
         [ [ [Some "Security"; Some "Weight"];
             [Some "Infosys"; Some "5.0%"] ] ] |} ].

(** The same table with a serial number in front. *)
Definition second_column : pdf :=
  [ {| extract_text := None;
       extract_tables :=
         [ [ [Some "Sr"; Some "Security"; Some "Weight"];
             [Some "1"; Some "Infosys"; Some "5.0%"] ] ] |} ].

(** A factsheet in the two-column layout. *)
Definition two_column : pdf :=
  [ {| extract_text := None;
       extract_tables :=
         [ [ [Some "Scrip"; Some "Weightage"; Some "Scrip"; Some "Weightage"];
             [Some "Reliance Industries"; Some "8.5%"; Some "TCS"; Some "6.2%"] ] ] |} ].

(** The files that can be opened; every other path raises. *)
Definition fs : filesystem :=
  fun path =>
    if path =? "/in/HDFC_BlueChip_202412.pdf" then Some factsheet
    else if path =? "/in/first.pdf" then Some first_column
    else if path =? "/in/second.pdf" then Some second_column
    else if path =? "/in/two.pdf" then Some two_column
    else None.

Definition now : string := "2026-01-01".

Definition mapper : ISINMapper.t := ISINMapper.init None.

End Examples.

(** * Definitions used in the further statements *)

(** [all(p(c) for c in s)] *)
Fixpoint all_chars (p : ascii -> bool) (s : string) : bool :=
  match s with
  | EmptyString => true
  | String c s' => p c && all_chars p s'
  end.

(** A character of a normalised name: a word character that is not an
    upper-case letter, or the blank. *)
Definition normal_char (c : ascii) : bool :=
  (is_word c && negb (is_upper c)) || (c =? " ")%char.

(** A header cell that names a role: a cell with a text that contains one
    of the patterns of the role, in any letter case. *)
Definition names_role (patterns : list string) (c : cell) : bool :=
  cell_truthy c
  && existsb (fun pattern => contains pattern (lower (cell_str c))) patterns.

(** The index of the first element of a list that satisfies [p]. *)
Fixpoint first_index (A : Type) (p : A -> bool) (l : list A) : option nat :=
  match l with
  | [] => None
  | a :: l' => if p a then Some 0%nat else option_map S (first_index A p l')
  end.

(** The format the table parser asks of an identifier: twelve characters,
    "IN" first, upper-case letters and digits only. *)
Definition isin_format (s : string) : bool :=
  (String.length s =? 12)%nat && startswith "IN" s
  && all_chars (fun c => is_upper c || is_digit c) s.

(** [batch_lookup(company_names)]: the dict comprehension
    [{name: self.get_isin(name) for name in company_names}].  The lookup
    is made with the default threshold, with which it always returns a
    string. *)
Definition batch_lookup (self : ISINMapper.t) (company_names : list string)
  : Dict.dict string :=
  fold_left (fun d name => Dict.set name (ISINMapper.get_isin_default self name) d)
            company_names [].

(** * Properties *)

Ltac inv H := inversion H; subst; clear H.

(** ** The order of floats *)

Lemma Qltb_lt (a b : Q) : Qltb a b = true <-> (a < b)%Q.
Proof. unfold Qltb, Qlt. apply Z.ltb_lt. Qed.

Lemma Qltb_nlt (a b : Q) : Qltb a b = false <-> (b <= a)%Q.
Proof.
  unfold Qltb, Qle. rewrite Z.ltb_ge. reflexivity.
Qed.

Lemma flt_irrefl (x : pyfloat) : flt x x = false.
Proof.
  destruct x as [q | [] | ]; simpl; try reflexivity.
  apply Qltb_nlt. apply Qle_refl.
Qed.

Lemma flt_trans (x y z : pyfloat) :
  flt x y = true -> flt y z = true -> flt x z = true.
Proof.
  destruct x as [a | [] | ], y as [b | [] | ], z as [c | [] | ]; simpl;
    try congruence.
  rewrite !Qltb_lt. apply Qlt_trans.
Qed.

(** On floats that are not NaN, "not less" is transitive. *)
Lemma flt_neg_trans (x y z : pyfloat) :
  x <> F_nan -> y <> F_nan -> z <> F_nan ->
  flt x y = false -> flt y z = false -> flt x z = false.
Proof.
  destruct x as [a | [] | ], y as [b | [] | ], z as [c | [] | ]; simpl;
    try congruence.
  rewrite !Qltb_nlt. intros _ _ _ H1 H2. eapply Qle_trans; eauto.
Qed.

Lemma flt_asym (x y : pyfloat) : flt x y = true -> flt y x = false.
Proof.
  destruct x as [a | [] | ], y as [b | [] | ]; simpl; try congruence.
  rewrite Qltb_lt, Qltb_nlt. apply Qlt_le_weak.
Qed.

(** Without NaN, [x <= y] is the negation of [y < x]. *)
Lemma fle_nlt (x y : pyfloat) :
  x <> F_nan -> y <> F_nan -> fle x y = negb (flt y x).
Proof.
  unfold fle.
  destruct x as [a | [] | ], y as [b | [] | ]; simpl; try congruence; intros _ _.
  destruct (Qltb a b) eqn:Hab, (Qltb b a) eqn:Hba, (Qeq_bool a b) eqn:He;
    try reflexivity; exfalso.
  - apply Qltb_lt in Hab, Hba. exact (Qlt_irrefl a (Qlt_trans _ _ _ Hab Hba)).
  - apply Qltb_lt in Hab, Hba. exact (Qlt_irrefl a (Qlt_trans _ _ _ Hab Hba)).
  - apply Qltb_lt in Hba. apply Qeq_bool_iff in He. rewrite He in Hba.
    exact (Qlt_irrefl _ Hba).
  - apply Qltb_nlt in Hab, Hba.
    assert (a == b)%Q by (apply Qle_antisym; assumption).
    apply Qeq_bool_iff in H. congruence.
Qed.

Lemma fle_refl (x : pyfloat) : x <> F_nan -> fle x x = true.
Proof.
  intros H. rewrite fle_nlt by assumption. now rewrite flt_irrefl.
Qed.

Lemma rnd_not_nan (q : Q) : rnd q <> F_nan.
Proof.
  unfold rnd, round_pos.
  destruct (Qnum q); try discriminate;
    match goal with
    | |- context [if ?c then F_inf false else _] => destruct c
    end; simpl; discriminate.
Qed.

Lemma fmax_not_nan (x y : pyfloat) : x <> F_nan -> y <> F_nan -> fmax x y <> F_nan.
Proof. unfold fmax. destruct (fgt y x); auto. Qed.

Lemma fmax_ge_r (x y : pyfloat) :
  x <> F_nan -> y <> F_nan -> fge (fmax x y) y = true.
Proof.
  intros Hx Hy. unfold fge, fmax, fgt.
  destruct (flt x y) eqn:E.
  - apply fle_refl; assumption.
  - rewrite fle_nlt by assumption. now rewrite E.
Qed.

(** ** The running maximum of a loop *)

Section RunningMaximum.

Variable A : Type.
Variable sc : A -> pyfloat.
Variable code : A -> string.
Hypothesis sc_not_nan : forall a, sc a <> F_nan.

Local Abbreviation best_step := (best_step A sc code).
Local Abbreviation is_max := (is_max A sc).

Lemma best_step_not_nan (st : option string * pyfloat) (a : A) :
  snd st <> F_nan -> snd (best_step st a) <> F_nan.
Proof.
  intros H. unfold best_step. destruct (fgt (sc a) (snd st)); simpl; auto.
Qed.

Lemma best_step_grows (st : option string * pyfloat) (a : A) :
  flt (snd (best_step st a)) (snd st) = false
  /\ flt (snd (best_step st a)) (sc a) = false.
Proof.
  unfold best_step, fgt. destruct (flt (snd st) (sc a)) eqn:E; simpl.
  - split; [now apply flt_asym | apply flt_irrefl].
  - split; [apply flt_irrefl | assumption].
Qed.

(** The final score bounds the initial one and every element's. *)
Lemma fold_best_upper (l : list A) :
  forall st, snd st <> F_nan ->
    snd (fold_left best_step l st) <> F_nan
    /\ flt (snd (fold_left best_step l st)) (snd st) = false
    /\ forall a, In a l -> flt (snd (fold_left best_step l st)) (sc a) = false.
Proof.
  induction l as [| x l IH]; intros st Hst; simpl.
  - repeat split; auto using flt_irrefl. intros a [].
  - pose proof (best_step_not_nan st x Hst) as H1.
    destruct (best_step_grows st x) as [G1 G2].
    destruct (IH (best_step st x) H1) as (N & U1 & U2).
    repeat split; auto.
    + eapply flt_neg_trans with (y := snd (best_step st x)); eauto.
    + intros a [<- | Ha]; auto.
      eapply flt_neg_trans with (y := snd (best_step st x)); eauto.
Qed.

(** Either nothing beat the initial score, or the result is the first
    element that beats it and everything before it. *)
Lemma fold_best_first (l : list A) :
  forall st, snd st <> F_nan ->
    (fold_left best_step l st = st
     /\ forall a, In a l -> flt (snd st) (sc a) = false)
    \/ (exists l1 a l2,
          l = (l1 ++ a :: l2)%list
          /\ fold_left best_step l st = (Some (code a), sc a)
          /\ flt (snd st) (sc a) = true
          /\ forall x, In x l1 -> flt (sc x) (sc a) = true).
Proof.
  induction l as [| x l IH]; intros st Hst; simpl.
  - left. split; [reflexivity | intros a []].
  - pose proof (best_step_not_nan st x Hst) as H1.
    specialize (IH (best_step st x) H1).
    assert (Hs : best_step st x
                 = if flt (snd st) (sc x) then (Some (code x), sc x) else st)
      by reflexivity.
    rewrite Hs in IH |- *. clear Hs H1.
    destruct (flt (snd st) (sc x)) eqn:C;
      destruct IH as [[E F] | (l1 & a & l2 & El & E & G & B)]; simpl in *.
    + right. exists [], x, l. simpl. repeat split; auto; intros y [].
    + right. exists (x :: l1), a, l2. subst l. simpl. repeat split; auto.
      * eapply flt_trans; eauto.
      * intros y [<- | Hy]; auto.
    + left. split; auto. intros a [<- | Ha]; auto.
    + right. exists (x :: l1), a, l2. subst l. simpl. repeat split; auto.
      intros y [<- | Hy]; auto.
      destruct (flt (sc x) (sc a)) eqn:D; auto.
      pose proof (flt_neg_trans _ _ _ Hst (sc_not_nan x) (sc_not_nan a) C D).
      congruence.
Qed.

Lemma find_first (p : A -> bool) (l1 : list A) (a : A) (l2 : list A) :
  (forall x, In x l1 -> p x = false) -> p a = true ->
  find p (l1 ++ a :: l2)%list = Some a.
Proof.
  induction l1 as [| y l1 IH]; simpl; intros H Ha.
  - now rewrite Ha.
  - rewrite (H y) by auto. apply IH; auto.
Qed.

(** A loop that found something found the first maximum. *)
Lemma fold_best_is_first_max (l : list A) (st : option string * pyfloat) :
  snd st <> F_nan ->
  forall l1 a l2,
    l = (l1 ++ a :: l2)%list ->
    fold_left best_step l st = (Some (code a), sc a) ->
    (forall x, In x l1 -> flt (sc x) (sc a) = true) ->
    find (is_max l) l = Some a.
Proof.
  intros Hst l1 a l2 El E B.
  destruct (fold_best_upper l st Hst) as (_ & _ & U). rewrite E in U. simpl in U.
  rewrite El at 2. apply find_first.
  - intros x Hx. unfold is_max. apply not_true_is_false. intros H.
    rewrite forallb_forall in H.
    assert (Ha : In a l) by (rewrite El; apply in_or_app; right; left; reflexivity).
    specialize (H a Ha). rewrite fle_nlt in H by auto.
    rewrite (B x Hx) in H. discriminate.
  - unfold is_max. apply forallb_forall. intros x Hx.
    rewrite fle_nlt by auto. now rewrite (U x Hx).
Qed.

End RunningMaximum.

(** ** The identifier resolver *)

Lemma truthy_nonempty (s : string) : s <> "" -> PyStr.truthy s = true.
Proof. destruct s; [congruence | reflexivity]. Qed.

Lemma ratio_not_nan (a b : string) : Difflib.ratio a b <> F_nan.
Proof.
  unfold Difflib.ratio.
  destruct (String.length a + String.length b =? 0)%nat;
    [unfold of_Z |]; apply rnd_not_nan.
Qed.

Lemma decimal_not_nan (m x : Z) : decimal m x <> F_nan.
Proof. unfold decimal. destruct (0 <=? x)%Z; apply rnd_not_nan. Qed.

Lemma score_not_nan (normalized ref_name : string) :
  Spec.score normalized ref_name <> F_nan.
Proof.
  unfold Spec.score, ISINMapper._similarity.
  destruct (contains normalized ref_name || contains ref_name normalized).
  - apply fmax_not_nan; [apply ratio_not_nan | apply decimal_not_nan].
  - apply ratio_not_nan.
Qed.

(** The loop body of [get_isin] keeps the running maximum of the scores. *)
Lemma fuzzy_step_best_step (normalized : string) (st : option string * pyfloat)
      (item : string * string) :
  ISINMapper.fuzzy_step normalized st item
  = best_step _ (fun e => Spec.score normalized (fst e)) snd st item.
Proof. destruct st, item. reflexivity. Qed.

Lemma fold_left_ext (A B : Type) (f g : A -> B -> A) (l : list B) :
  (forall a b, f a b = g a b) -> forall a, fold_left f l a = fold_left g l a.
Proof.
  intros H. induction l as [| b l IH]; intros a; simpl; [reflexivity |].
  rewrite H. apply IH.
Qed.

(** A score that is not above zero is below the default threshold. *)
Lemma below_threshold (s : pyfloat) :
  s <> F_nan -> flt (of_Z 0) s = false ->
  fge s ISINMapper.default_threshold = false.
Proof.
  intros Hs H0. unfold fge, ISINMapper.default_threshold.
  rewrite (fle_nlt _ _ (decimal_not_nan 8 (-1)) Hs).
  destruct (flt s (decimal 8 (-1))) eqn:E; [reflexivity |].
  assert (Hn : of_Z 0 <> F_nan) by apply rnd_not_nan.
  pose proof (flt_neg_trans _ _ _ Hn Hs (decimal_not_nan 8 (-1)) H0 E) as C.
  vm_compute in C. discriminate.
Qed.

(** The fuzzy branch of [get_isin] returns what the first maximum gives. *)
Lemma fuzzy_branch (normalized : string) (catalog : Dict.dict string) :
  (let '(best_match, best_score) :=
     fold_left (ISINMapper.fuzzy_step normalized) catalog (None, of_Z 0) in
   if fge best_score ISINMapper.default_threshold then best_match else Some "-")
  = Some
      match Spec.first_maximum normalized catalog with
      | Some (ref_name, code) =>
          if fge (Spec.score normalized ref_name) ISINMapper.default_threshold
          then code else "-"
      | None => "-"
      end.
Proof.
  rewrite (fold_left_ext _ _ _ _ catalog (fuzzy_step_best_step normalized)).
  set (sc := fun e : string * string => Spec.score normalized (fst e)).
  assert (Hsc : forall e, sc e <> F_nan) by (intros e; apply score_not_nan).
  assert (Hz : snd (@None string, of_Z 0) <> F_nan) by apply rnd_not_nan.
  destruct (fold_best_first _ sc snd Hsc catalog _ Hz)
    as [[E F] | (l1 & a & l2 & El & E & G & B)]; rewrite E.
  - replace (fge (of_Z 0) ISINMapper.default_threshold) with false by reflexivity.
    unfold Spec.first_maximum.
    destruct (find (Spec.is_maximum normalized catalog) catalog) as [[k c] |] eqn:Hf;
      [| reflexivity].
    apply find_some in Hf. destruct Hf as [Hin _].
    specialize (F _ Hin). simpl in F.
    pose proof (below_threshold _ (Hsc (k, c)) F) as W.
    unfold sc in W. simpl in W. now rewrite W.
  - pose proof (fold_best_is_first_max _ sc snd Hsc catalog _ Hz l1 a l2 El E B) as M.
    unfold Spec.first_maximum.
    change (Spec.is_maximum normalized catalog) with (is_max _ sc catalog).
    rewrite M. destruct a as [k c]. simpl.
    unfold sc. simpl. destruct (fge (Spec.score normalized k) ISINMapper.default_threshold);
      reflexivity.
Qed.

(** With the default threshold [get_isin] never returns [None]. *)
Lemma get_isin_default_eq (self : ISINMapper.t) (company_name : string) :
  ISINMapper.get_isin self company_name ISINMapper.default_threshold
  = Some (ISINMapper.get_isin_default self company_name).
Proof.
  unfold ISINMapper.get_isin_default, ISINMapper.get_isin.
  destruct (negb (PyStr.truthy company_name)); [reflexivity |].
  destruct (Dict.get _ _); [reflexivity |].
  rewrite fuzzy_branch. reflexivity.
Qed.

Lemma find_split (A : Type) (p : A -> bool) (l : list A) (a : A) :
  find p l = Some a ->
  exists l1 l2, l = (l1 ++ a :: l2)%list /\ p a = true
                /\ forall x, In x l1 -> p x = false.
Proof.
  induction l as [| y l IH]; simpl; [discriminate |].
  destruct (p y) eqn:E.
  - intros [= ->]. exists [], l. repeat split; auto. intros x [].
  - intros H. destruct (IH H) as (l1 & l2 & -> & Pa & B).
    exists (y :: l1), l2. repeat split; auto.
    intros x [<- | Hx]; auto.
Qed.

(** *** The empty normal form *)

Lemma scan_b_empty (i j : nat) (b : string) (best : nat * nat * nat) :
  Difflib.scan_b i "" j b best = best.
Proof.
  revert j. induction b as [| c b IH]; intros j; simpl.
  - now destruct (snd best).
  - replace (snd best <? 0)%nat with false by (now destruct (snd best)).
    apply IH.
Qed.

Lemma ratio_empty (key : string) : key <> "" -> Difflib.ratio "" key = F_fin 0.
Proof.
  intros H. destruct key as [| c key]; [congruence |].
  unfold Difflib.ratio. simpl String.length. simpl Nat.eqb. cbv iota.
  unfold Difflib.matches, Difflib.find_longest_match, Difflib.scan_a.
  rewrite scan_b_empty. reflexivity.
Qed.

Lemma contains_empty (s : string) : contains "" s = true.
Proof. destruct s; reflexivity. Qed.

(** The substring rule gives every non-empty key the score 0.85 against the
    empty normal form. *)
Lemma score_empty (key : string) : key <> "" -> Spec.score "" key = decimal 85 (-2).
Proof.
  intros H. unfold Spec.score, ISINMapper._similarity.
  rewrite contains_empty, (ratio_empty _ H). reflexivity.
Qed.

Lemma get_none_keys (V : Type) (k : string) (d : Dict.dict V) :
  Dict.get k d = None -> forall e, In e d -> fst e <> k.
Proof.
  induction d as [| [k' v] d IH]; simpl; [intros _ e [] |].
  destruct (k' =? k) eqn:E; [discriminate |].
  intros H e [<- | He]; auto.
  simpl. now apply String.eqb_neq.
Qed.

(** When every key scores the same positive value, the loop keeps the first
    entry. *)
Lemma fold_constant_score (normalized : string) (s : pyfloat) (c : string)
      (rest : Dict.dict string) :
  (forall e, In e rest -> Spec.score normalized (fst e) = s) ->
  fold_left (ISINMapper.fuzzy_step normalized) rest (Some c, s) = (Some c, s).
Proof.
  intros H. rewrite (fold_left_ext _ _ _ _ rest (fuzzy_step_best_step normalized)).
  induction rest as [| [k v] rest IH]; simpl; [reflexivity |].
  assert (E : best_step _ (fun e => Spec.score normalized (fst e)) snd (Some c, s) (k, v)
              = (Some c, s)).
  { pose proof (H (k, v) (or_introl eq_refl)) as Hk.
    unfold best_step. cbn [fst snd] in *. rewrite Hk.
    unfold fgt. now rewrite flt_irrefl. }
  rewrite E. apply IH. intros e He. apply H. now right.
Qed.

Lemma set_in (V : Type) (k : string) (v : V) (d : Dict.dict V) (e : string * V) :
  In e (Dict.set k v d) -> In e d \/ snd e = v.
Proof.
  induction d as [| [k' v'] d IH]; simpl.
  - intros [<- | []]. now right.
  - destruct (k' =? k); simpl.
    + intros [<- | H]; [now right | left; now right].
    + intros [<- | H]; [left; now left |].
      destruct (IH H); [left; now right | now right].
Qed.

Lemma load_row_ok (self : ISINMapper.t) (r : string * string) :
  catalog_ok (ISINMapper.isin_map self) ->
  catalog_ok (ISINMapper.isin_map (ISINMapper.load_row self r)).
Proof.
  intros [(code & rest & E) Hc]. unfold ISINMapper.load_row.
  destruct (PyStr.truthy (strip (fst r)) && PyStr.truthy (strip (snd r))
            && startswith "INE" (strip (snd r))) eqn:G; simpl;
    [| split; eauto].
  apply andb_true_iff in G. destruct G as [_ G].
  split.
  - rewrite E. cbn [Dict.set].
    match goal with
    | |- context [if ?c then _ else _] => destruct c
    end; eauto.
  - intros e He. apply set_in in He. destruct He as [He | ->]; auto.
    intros C. rewrite C in G. discriminate.
Qed.

Lemma init_ok (csv : option ISINMapper.csv_rows) :
  catalog_ok (ISINMapper.isin_map (ISINMapper.init csv)).
Proof.
  assert (B : catalog_ok ISINMapper.BUILTIN_ISIN_DB).
  { split; [unfold ISINMapper.BUILTIN_ISIN_DB; eauto |].
    assert (F : forallb (fun e => negb (snd e =? "-")) ISINMapper.BUILTIN_ISIN_DB = true)
      by (vm_compute; reflexivity).
    rewrite forallb_forall in F. intros e He C. specialize (F e He).
    rewrite C in F. discriminate. }
  unfold ISINMapper.init. destruct csv as [rows |]; [| exact B].
  unfold ISINMapper._load_csv.
  assert (L : forall self, catalog_ok (ISINMapper.isin_map self) ->
                catalog_ok (ISINMapper.isin_map (fold_left ISINMapper.load_row rows self))).
  { induction rows as [| r rows IH]; intros self Hs; simpl; auto.
    apply IH. now apply load_row_ok. }
  apply L. exact B.
Qed.

Lemma get_some_in (V : Type) (k : string) (v : V) (d : Dict.dict V) :
  Dict.get k d = Some v -> exists e, In e d /\ snd e = v.
Proof.
  induction d as [| [k' v'] d IH]; simpl; [discriminate |].
  destruct (k' =? k).
  - intros [= ->]. exists (k', v). split; [now left | reflexivity].
  - intros H. destruct (IH H) as (e & He & Hv). exists e. split; [now right | exact Hv].
Qed.

Lemma get_isin_exact (self : ISINMapper.t) (company_name code : string) :
  company_name <> "" ->
  Dict.get (ISINMapper._normalize_name company_name) (ISINMapper.isin_map self) = Some code ->
  ISINMapper.get_isin self company_name ISINMapper.default_threshold = Some code.
Proof.
  intros Hne Hget. unfold ISINMapper.get_isin.
  rewrite (truthy_nonempty _ Hne), Hget. reflexivity.
Qed.

(** An input with the empty normal form, in a catalog without the empty
    key, resolves to the first entry. *)
Lemma get_isin_empty_fuzzy (self : ISINMapper.t) (company_name key code : string)
      (rest : Dict.dict string) :
  company_name <> "" ->
  ISINMapper._normalize_name company_name = "" ->
  ISINMapper.isin_map self = (key, code) :: rest ->
  Dict.get "" (ISINMapper.isin_map self) = None ->
  ISINMapper.get_isin self company_name ISINMapper.default_threshold = Some code.
Proof.
  intros Hne Hn E Hget. unfold ISINMapper.get_isin.
  rewrite (truthy_nonempty _ Hne), Hn, Hget. cbn [negb].
  pose proof (get_none_keys _ _ _ Hget) as K. rewrite E in K |- *.
  cbn [fold_left].
  assert (S1 : ISINMapper.fuzzy_step "" (None, of_Z 0) (key, code)
               = (Some code, decimal 85 (-2))).
  { rewrite fuzzy_step_best_step. unfold best_step. cbn [fst snd].
    rewrite (score_empty key) by (apply (K (key, code)); now left).
    reflexivity. }
  rewrite S1, fold_constant_score; [reflexivity |].
  intros e He. apply score_empty. apply K. now right.
Qed.

(** C4, as amended.  For every non-empty input name: when its normal form
    is a key of the catalog, [get_isin] returns that key's code; otherwise
    it scores the normal form against every key (a substring relation in
    either direction scoring at least 0.85), takes the first-encountered
    maximum and returns its code when the score reaches the 0.80 threshold,
    and the sentinel when it does not.  [Spec.resolve] is that description. *)
Theorem get_isin_resolves (self : ISINMapper.t) (company_name : string) :
  company_name <> "" ->
  ISINMapper.get_isin self company_name ISINMapper.default_threshold
  = Some (Spec.resolve self company_name)
  /\ (forall code,
        Dict.get (ISINMapper._normalize_name company_name) (ISINMapper.isin_map self)
        = Some code ->
        Spec.resolve self company_name = code)
  /\ (forall ref_name,
        contains (ISINMapper._normalize_name company_name) ref_name
        || contains ref_name (ISINMapper._normalize_name company_name) = true ->
        fge (Spec.score (ISINMapper._normalize_name company_name) ref_name)
            (decimal 85 (-2)) = true)
  /\ (forall entry,
        Spec.first_maximum (ISINMapper._normalize_name company_name)
                           (ISINMapper.isin_map self) = Some entry ->
        exists before after,
          ISINMapper.isin_map self = (before ++ entry :: after)%list
          /\ (forall other, In other (ISINMapper.isin_map self) ->
                fle (Spec.score (ISINMapper._normalize_name company_name) (fst other))
                    (Spec.score (ISINMapper._normalize_name company_name) (fst entry))
                = true)
          /\ (forall earlier, In earlier before ->
                Spec.is_maximum (ISINMapper._normalize_name company_name)
                                (ISINMapper.isin_map self) earlier = false)).
Proof.
  intros Hne. repeat split.
  - unfold ISINMapper.get_isin, Spec.resolve.
    rewrite (truthy_nonempty _ Hne). cbn [negb].
    destruct (Dict.get _ _); [reflexivity |]. apply fuzzy_branch.
  - intros code H. unfold Spec.resolve. now rewrite H.
  - intros ref_name H. unfold Spec.score. rewrite H.
    apply fmax_ge_r; [apply ratio_not_nan | apply decimal_not_nan].
  - intros entry H. unfold Spec.first_maximum in H.
    destruct (find_split _ _ _ _ H) as (l1 & l2 & E & M & B).
    exists l1, l2. repeat split; auto.
    intros other Ho. unfold Spec.is_maximum in M. rewrite forallb_forall in M. auto.
Qed.

Lemma get_isin_resolves_witness :
  "Infosys Technologies" <> ""
  /\ ISINMapper.get_isin (ISINMapper.init None) "Infosys Technologies"
                         ISINMapper.default_threshold
     = Some (Spec.resolve (ISINMapper.init None) "Infosys Technologies").
Proof.
  split; [discriminate |].
  apply (get_isin_resolves (ISINMapper.init None) "Infosys Technologies").
  discriminate.
Defined.

(** C4, as first stated, fails at the empty name: the guard at the head of
    [get_isin] answers the sentinel, where scoring the (empty) normal form
    against the catalog would accept the first entry. *)
Lemma get_isin_empty_name_not_resolved :
  ISINMapper.get_isin (ISINMapper.init None) "" ISINMapper.default_threshold = Some "-"
  /\ Dict.get (ISINMapper._normalize_name "") (ISINMapper.isin_map (ISINMapper.init None))
     = None
  /\ Spec.resolve (ISINMapper.init None) "" = "INE040A01034".
Proof. vm_compute. repeat split. Qed.

(** C10, as amended.  A non-empty name whose normal form is empty is never
    answered with the sentinel.  When the catalog has an entry under the
    empty key, which a row of the reference file whose name normalises to
    the empty text puts there, the exact-match rule returns that entry's
    code.  Otherwise every key scores 0.85 against the empty normal form by
    the substring rule, which passes the threshold, and the code of the
    first entry, the built-in key 'hdfc bank', is returned; that code is
    'INE040A01034' when no reference file is loaded.  Only the empty name
    itself is answered with the sentinel. *)
Theorem get_isin_empty_normal_form (csv : option ISINMapper.csv_rows)
        (company_name : string) :
  company_name <> "" ->
  ISINMapper._normalize_name company_name = "" ->
  ISINMapper.get_isin_default (ISINMapper.init csv) company_name <> "-"
  /\ (forall key, key <> "" ->
        Spec.score "" key = decimal 85 (-2)
        /\ fge (Spec.score "" key) ISINMapper.default_threshold = true)
  /\ (exists code rest,
        ISINMapper.isin_map (ISINMapper.init csv) = ("hdfc bank", code) :: rest
        /\ ISINMapper.get_isin (ISINMapper.init csv) company_name
                               ISINMapper.default_threshold
           = Some match Dict.get "" (ISINMapper.isin_map (ISINMapper.init csv)) with
                  | Some own => own
                  | None => code
                  end)
  /\ (csv = None ->
      ISINMapper.get_isin (ISINMapper.init csv) company_name
                          ISINMapper.default_threshold = Some "INE040A01034")
  /\ ISINMapper.get_isin (ISINMapper.init csv) "" ISINMapper.default_threshold
     = Some "-".
Proof.
  intros Hne Hn.
  destruct (init_ok csv) as [(code & rest & E) Hc].
  assert (R : ISINMapper.get_isin (ISINMapper.init csv) company_name
                                  ISINMapper.default_threshold
              = Some match Dict.get "" (ISINMapper.isin_map (ISINMapper.init csv)) with
                     | Some own => own
                     | None => code
                     end).
  { destruct (Dict.get "" (ISINMapper.isin_map (ISINMapper.init csv))) as [own |] eqn:G.
    - apply get_isin_exact; [exact Hne | now rewrite Hn].
    - exact (get_isin_empty_fuzzy _ _ _ _ _ Hne Hn E G). }
  split; [| split; [| split; [| split]]].
  - unfold ISINMapper.get_isin_default. rewrite R.
    destruct (Dict.get "" (ISINMapper.isin_map (ISINMapper.init csv))) as [own |] eqn:G.
    + destruct (get_some_in _ _ _ _ G) as (e & He & <-). auto.
    + apply (Hc ("hdfc bank", code)). rewrite E. now left.
  - intros key Hk. split; [now apply score_empty |].
    rewrite (score_empty _ Hk). reflexivity.
  - exists code, rest. split; [exact E | exact R].
  - intros ->.
    apply (get_isin_empty_fuzzy _ _ "hdfc bank" _ (tl ISINMapper.BUILTIN_ISIN_DB) Hne Hn);
      reflexivity.
  - reflexivity.
Qed.

Lemma get_isin_empty_normal_form_witness :
  "&" <> "" /\ ISINMapper._normalize_name "&" = ""
  /\ ISINMapper.get_isin_default (ISINMapper.init None) "&" <> "-"
  /\ ISINMapper.get_isin (ISINMapper.init None) "&" ISINMapper.default_threshold
     = Some "INE040A01034".
Proof.
  assert (H1 : "&" <> "") by discriminate.
  assert (H2 : ISINMapper._normalize_name "&" = "") by reflexivity.
  destruct (get_isin_empty_normal_form None "&" H1 H2) as (A & _ & _ & B & _).
  repeat split; auto.
Defined.

(** C10, as first stated, fails: a reference file with the row
    ("-", "INE999Z01011") stores that code under the empty key, the normal
    form of "-"; the name "&" then resolves to it by the exact-match rule,
    not to the code of the first entry of the catalog, and no score is
    computed. *)
Lemma empty_key_code_returned :
  "&" <> ""
  /\ ISINMapper._normalize_name "&" = ""
  /\ hd_error (ISINMapper.isin_map (ISINMapper.init (Some [("-", "INE999Z01011")])))
     = Some ("hdfc bank", "INE040A01034")
  /\ ISINMapper.get_isin (ISINMapper.init (Some [("-", "INE999Z01011")])) "&"
                         ISINMapper.default_threshold
     = Some "INE999Z01011"
  /\ ISINMapper.get_isin (ISINMapper.init (Some [("-", "INE999Z01011")])) "&"
                         ISINMapper.default_threshold
     <> Some "INE040A01034".
Proof.
  split; [discriminate |]. split; [reflexivity |].
  split; [vm_compute; reflexivity |].
  assert (E : ISINMapper.get_isin (ISINMapper.init (Some [("-", "INE999Z01011")])) "&"
                                  ISINMapper.default_threshold
              = Some "INE999Z01011") by (vm_compute; reflexivity).
  split; [exact E |]. rewrite E. discriminate.
Qed.

(** ** Field normalisers *)

Lemma prefix_single (c x : ascii) (s : string) :
  prefix (String c "") (String x s) = (c =? x)%char.
Proof.
  simpl. destruct (ascii_dec c x) as [-> | N].
  - rewrite Ascii.eqb_refl. now destruct s.
  - symmetry. now apply Ascii.eqb_neq.
Qed.

(** Replacing a single character by nothing removes it everywhere. *)
Lemma replace_single (c : ascii) (s : string) :
  replace (String c "") "" s = remove_chars (Ascii.eqb c) s.
Proof.
  unfold replace. induction s as [| x s IH]; [reflexivity |].
  cbn [replace_go remove_chars]. rewrite prefix_single.
  destruct (c =? x)%char; cbn [String.length Nat.sub append]; now rewrite IH.
Qed.

Lemma remove_chars_none (c : ascii) (s : string) :
  any_char (Ascii.eqb c) (remove_chars (Ascii.eqb c) s) = false.
Proof.
  induction s as [| x s IH]; [reflexivity |]. simpl.
  destruct (c =? x)%char eqn:E; [exact IH |]. simpl. now rewrite E.
Qed.

Lemma remove_chars_keeps_none (p : ascii -> bool) (c : ascii) (s : string) :
  any_char (Ascii.eqb c) s = false ->
  any_char (Ascii.eqb c) (remove_chars p s) = false.
Proof.
  induction s as [| x s IH]; [reflexivity |]. simpl.
  intros H. apply orb_false_iff in H. destruct H as [H1 H2].
  destruct (p x); simpl; [auto |]. rewrite H1. auto.
Qed.

Lemma lstrip_keeps_none (p : ascii -> bool) (s : string) :
  any_char p s = false -> any_char p (lstrip s) = false.
Proof.
  induction s as [| x s IH]; [reflexivity |]. simpl.
  intros H. destruct (is_space x); [| exact H].
  apply orb_false_iff in H. now apply IH.
Qed.

Lemma rstrip_keeps_none (p : ascii -> bool) (s : string) :
  any_char p s = false -> any_char p (rstrip s) = false.
Proof.
  induction s as [| x s IH]; [reflexivity |]. simpl.
  intros H. apply orb_false_iff in H. destruct H as [H1 H2].
  specialize (IH H2).
  destruct (rstrip s) as [| y r].
  - destruct (is_space x); simpl; [reflexivity | now rewrite H1].
  - simpl in *. now rewrite H1, IH.
Qed.

Lemma strip_keeps_none (p : ascii -> bool) (s : string) :
  any_char p s = false -> any_char p (strip s) = false.
Proof. intros H. apply rstrip_keeps_none, lstrip_keeps_none, H. Qed.

Lemma contains_single (c : ascii) (s : string) :
  contains (String c "") s = any_char (Ascii.eqb c) s.
Proof.
  induction s as [| x s IH]; [reflexivity |].
  cbn [contains any_char]. now rewrite prefix_single, IH.
Qed.

(** The cleaned text of a percentage has no percent sign and no comma. *)
Lemma clean_percentage_stripped (value : string) :
  contains "%" (clean_percentage value) = false
  /\ contains "," (clean_percentage value) = false.
Proof.
  unfold clean_percentage. rewrite !contains_single, !replace_single. split.
  - apply strip_keeps_none, remove_chars_keeps_none, remove_chars_none.
  - apply strip_keeps_none, remove_chars_none.
Qed.

Lemma endswith_app (a suf : string) : endswith suf (a ++ suf) = true.
Proof.
  induction a as [| x a IH]; cbn [append].
  - destruct suf as [| y suf]; [reflexivity |].
    cbn [endswith]. now rewrite String.eqb_refl.
  - cbn [endswith]. rewrite IH. apply orb_true_r.
Qed.

Lemma take_app (a b : string) : take (String.length a) (a ++ b) = a.
Proof. induction a as [| x a IH]; simpl; [now destruct b | now rewrite IH]. Qed.

Lemma length_app (a b : string) :
  String.length (a ++ b) = (String.length a + String.length b)%nat.
Proof. induction a as [| x a IH]; simpl; [reflexivity | now rewrite IH]. Qed.

(** A parenthesised text is read with a minus sign in front. *)
Lemma unparenthesize_parens (body : string) :
  unparenthesize ("(" ++ body ++ ")") = "-" ++ body.
Proof.
  unfold unparenthesize, inner, drop_last, startswith.
  change ("(" ++ body ++ ")") with (String "(" (body ++ ")")).
  rewrite (endswith_app (String "(" body) ")" : endswith ")" (String "(" (body ++ ")")) = true).
  rewrite prefix_single. cbn [Ascii.eqb Bool.eqb andb].
  replace (String.length (String "(" (body ++ ")")) - 1)%nat
    with (String.length (String "(" body)).
  - rewrite (take_app (String "(" body) ")" : take _ (String "(" (body ++ ")")) = _).
    reflexivity.
  - simpl. rewrite length_app. simpl. lia.
Qed.

(** *** A leading minus sign negates *)

Lemma rnd_opp (n : Z) (d : positive) :
  (0 <= n)%Z -> rnd ((- n) # d) = fneg (rnd (n # d)).
Proof. destruct n; [reflexivity | reflexivity | lia]. Qed.

Lemma decimal_opp (m x : Z) :
  (0 <= m)%Z -> decimal (- m) x = fneg (decimal m x).
Proof.
  intros H. unfold decimal. destruct (0 <=? x)%Z eqn:E.
  - unfold inject_Z. rewrite Z.mul_opp_l. apply rnd_opp.
    apply Z.mul_nonneg_nonneg; [exact H |]. apply Z.pow_nonneg. lia.
  - now apply rnd_opp.
Qed.

Lemma digits_value_nonneg (s : string) :
  forall acc, (0 <= acc)%Z -> (0 <= digits_value acc s)%Z.
Proof.
  induction s as [| c s IH]; intros acc H; simpl; [exact H |].
  apply IH. lia.
Qed.

Lemma parse_unsigned_minus (s : string) :
  parse_unsigned true s = option_map fneg (parse_unsigned false s).
Proof.
  unfold parse_unsigned.
  destruct (span is_digit s) as [ip s2].
  destruct (match s2 with
            | String "." t => span is_digit t
            | _ => (EmptyString, s2)
            end) as [fp s3].
  destruct ((ip =? "") && (fp =? "")); [reflexivity |].
  pose proof (digits_value_nonneg (ip ++ fp) 0 (Z.le_refl 0)) as Hm.
  destruct s3 as [| c s4]; cbn [option_map].
  - now rewrite decimal_opp.
  - destruct ((c =? "e")%char || (c =? "E")%char); [| reflexivity].
    destruct (take_sign s4) as [eneg s5].
    destruct (span is_digit s5) as [ed s6].
    destruct ((ed =? "") || negb (s6 =? "")); [reflexivity |].
    cbn [option_map]. now rewrite decimal_opp.
Qed.

Lemma number_head (d : ascii) :
  is_digit d || (d =? ".")%char = true ->
  is_c_space d = false /\ (code d =? 95)%nat = false
  /\ (forall r, take_sign (String d r) = (false, String d r))
  /\ (forall old r, prefix (String "_" old) (String d r) = false).
Proof.
  destruct d as [[] [] [] [] [] [] [] []]; vm_compute; intros H;
    try discriminate H; repeat split; intros; reflexivity.
Qed.

Lemma rstrip_c_cons (c : ascii) (s : string) :
  is_c_space c = false -> rstrip_c (String c s) = String c (rstrip_c s).
Proof. intros H. simpl. rewrite H. now destruct (rstrip_c s). Qed.

Lemma replace_cons_other (old new : string) (c : ascii) (t : string) :
  prefix old (String c t) = false ->
  replace old new (String c t) = String c (replace old new t).
Proof. intros H. unfold replace. cbn [replace_go]. now rewrite H. Qed.

(** [float("-" + b)] is the negation of [float(b)] when [b] starts with a
    digit or the point. *)
Lemma py_float_minus (b : string) :
  starts_number b = true ->
  py_float ("-" ++ b) = option_map fneg (py_float b).
Proof.
  destruct b as [| d b]; [discriminate |]. cbn [starts_number]. intros H.
  destruct (number_head d H) as (Hs & Hu & Ht & Hp).
  unfold py_float. cbn [append lstrip_c].
  change (is_c_space "-") with false. rewrite Hs. cbn iota.
  rewrite (rstrip_c_cons "-") by reflexivity.
  rewrite (rstrip_c_cons d) by exact Hs.
  set (r := rstrip_c b).
  cbn [underscores_ok]. change (code "-" =? 95)%nat with false. rewrite Hu.
  cbn iota. change (is_digit "-") with false.
  destruct (underscores_ok (is_digit d) r); [| reflexivity].
  rewrite (replace_cons_other "_" "" "-") by reflexivity.
  rewrite (replace_cons_other "_" "" d) by apply Hp.
  set (t := replace "_" "" r).
  unfold parse_decimal. rewrite Ht.
  change (take_sign (String "-" (String d t))) with (true, String d t).
  cbn iota. rewrite parse_unsigned_minus.
  destruct (parse_unsigned false (String d t)); [reflexivity |].
  cbn [option_map]. unfold parse_inf_nan. rewrite Ht.
  change (take_sign (String "-" (String d t))) with (true, String d t).
  cbn iota.
  destruct ((lower (String d t) =? "inf") || (lower (String d t) =? "infinity"));
    [reflexivity |].
  destruct (lower (String d t) =? "nan"); reflexivity.
Qed.

Lemma lower_char_n (c : ascii) : lower_char c = "n"%char -> c = "n"%char \/ c = "N"%char.
Proof.
  destruct c as [[] [] [] [] [] [] [] []]; vm_compute; intros H;
    try discriminate H; auto.
Qed.

Lemma lower_char_a (c : ascii) : lower_char c = "a"%char -> c = "a"%char \/ c = "A"%char.
Proof.
  destruct c as [[] [] [] [] [] [] [] []]; vm_compute; intros H;
    try discriminate H; auto.
Qed.

Lemma lower_na (s : string) :
  lower s = "na" -> s = "na" \/ s = "Na" \/ s = "nA" \/ s = "NA".
Proof.
  destruct s as [| c1 [| c2 [| c3 s]]]; cbn [lower map_chars]; try discriminate.
  intros [= H1 H2].
  destruct (lower_char_n _ H1) as [-> | ->], (lower_char_a _ H2) as [-> | ->]; auto.
Qed.

(** C8.  [parse_percentage] strips the percent sign and the thousands
    separators, reads a parenthesised value as the negative of what the
    parentheses hold (so "(1.23)%" is -1.23) and answers 0.0 for what
    [float] does not read; it is a total function.  [parse_number] reads
    the rupee amount "9,001.07" as 9001.07 and answers [None] for "-", for
    the empty text, for "NA" in any letter case and for what [float] does
    not read. *)
Theorem parse_percentage_and_number :
  (forall value,
      contains "%" (clean_percentage value) = false
      /\ contains "," (clean_percentage value) = false)
  /\ (forall value body x,
        value <> "" ->
        clean_percentage value = "(" ++ body ++ ")" ->
        starts_number body = true ->
        py_float body = Some x ->
        parse_percentage (Some value) = fneg x)
  /\ parse_percentage (Some "(1.23)%") = fneg (decimal 123 (-2))
  /\ parse_percentage (Some "1,234.5%") = decimal 12345 (-1)
  /\ (forall value,
        py_float (unparenthesize (clean_percentage (cell_str value))) = None ->
        parse_percentage value = zero)
  /\ parse_percentage None = zero
  /\ parse_percentage (Some "") = zero
  /\ parse_number (Some (rupee ++ "9,001.07")) = Some (decimal 900107 (-2))
  /\ parse_number (Some "-") = None
  /\ parse_number (Some "") = None
  /\ (forall value, lower value = "na" -> parse_number (Some value) = None)
  /\ (forall value,
        py_float (clean_number (cell_str value)) = None -> parse_number value = None).
Proof.
  split; [exact clean_percentage_stripped |].
  split.
  { intros value body x Hne Hc Hs Hx. unfold parse_percentage.
    cbn [cell_truthy cell_str]. rewrite (truthy_nonempty _ Hne). cbn [negb].
    rewrite Hc, unparenthesize_parens, (py_float_minus _ Hs), Hx. reflexivity. }
  split; [vm_compute; reflexivity |].
  split; [vm_compute; reflexivity |].
  split.
  { intros value H. unfold parse_percentage. rewrite H.
    now destruct (negb (cell_truthy value)). }
  split; [reflexivity |]. split; [reflexivity |].
  split; [vm_compute; reflexivity |].
  split; [reflexivity |]. split; [reflexivity |].
  split.
  { intros value H.
    destruct (lower_na _ H) as [-> | [-> | [-> | ->]]]; reflexivity. }
  intros value H. unfold parse_number. rewrite H.
  destruct (negb (cell_truthy value)); [reflexivity |].
  now destruct (_ || _).
Qed.

Lemma parse_percentage_and_number_witness :
  "(4.5) %" <> ""
  /\ clean_percentage "(4.5) %" = "(" ++ "4.5" ++ ")"
  /\ starts_number "4.5" = true
  /\ py_float "4.5" = Some (decimal 45 (-1))
  /\ parse_percentage (Some "(4.5) %") = fneg (decimal 45 (-1))
  /\ lower "Na" = "na"
  /\ parse_number (Some "Na") = None.
Proof.
  assert (H1 : "(4.5) %" <> "") by discriminate.
  assert (H2 : clean_percentage "(4.5) %" = "(" ++ "4.5" ++ ")") by reflexivity.
  assert (H3 : starts_number "4.5" = true) by reflexivity.
  assert (H4 : py_float "4.5" = Some (decimal 45 (-1))) by (vm_compute; reflexivity).
  assert (H5 : lower "Na" = "na") by reflexivity.
  destruct parse_percentage_and_number
    as (_ & P & _ & _ & _ & _ & _ & _ & _ & _ & N & _).
  split; [exact H1 |]. split; [exact H2 |]. split; [exact H3 |].
  split; [exact H4 |]. split; [exact (P "(4.5) %" "4.5" _ H1 H2 H3 H4) |].
  split; [exact H5 | exact (N "Na" H5)].
Defined.

(** ** The result of one document *)

Lemma process_pdf_fields (mapper : ISINMapper.t) (fs : filesystem) (now pdf_path : string)
      (filename : string) :
  let res := process_pdf mapper fs now pdf_path (Some filename) in
  let date := extract_date_from_filename now filename in
  let amc := extract_amc_from_filename filename in
  success res = true
  /\ res_errors res = []
  /\ (exists md, res_metadata res = Some md
                 /\ FactsheetExtractor.date md = date
                 /\ (amc <> "Unknown" -> FactsheetExtractor.amc md = amc)
                 /\ aum_cr md = aum_cr (snd (extract_portfolio_table fs pdf_path)))
  /\ res_holdings res
     = map (fun h =>
              to_record date
                {| amc := if negb (amc =? "Unknown") then amc
                          else FactsheetExtractor.amc (snd (extract_portfolio_table fs pdf_path));
                   fund_name := fund_name (snd (extract_portfolio_table fs pdf_path));
                   date := date;
                   aum_cr := aum_cr (snd (extract_portfolio_table fs pdf_path)) |}
                (enrich mapper (aum_cr (snd (extract_portfolio_table fs pdf_path)))
                        sector_keywords h))
           (fst (extract_portfolio_table fs pdf_path)).
Proof.
  cbv zeta. unfold process_pdf.
  destruct (extract_portfolio_table fs pdf_path) as [holdings md]. cbn [fst snd].
  cbn [success res_errors res_metadata res_holdings FactsheetExtractor.aum_cr
       FactsheetExtractor.amc FactsheetExtractor.date FactsheetExtractor.fund_name].
  repeat split.
  - eexists. repeat split.
    intros H. cbn [FactsheetExtractor.amc].
    apply String.eqb_neq in H. now rewrite H.
  - now rewrite map_map.
Qed.


(** ** The two-column layout *)

Lemma existsb_false (A : Type) (p : A -> bool) (l : list A) :
  existsb p l = false -> forall x, In x l -> p x = false.
Proof.
  intros H x Hx. destruct (p x) eqn:E; [| reflexivity].
  assert (existsb p l = true) by (apply existsb_exists; eauto). congruence.
Qed.

(** What [_is_valid_security] asks of a name. *)
Lemma valid_security_inv (name : string) :
  _is_valid_security name = true ->
  (3 <= String.length name <= 100)%nat
  /\ any_char is_alpha name = true
  /\ forall pattern, In pattern skip_patterns ->
       contains pattern (strip (lower name)) = false.
Proof.
  unfold _is_valid_security.
  destruct (negb (PyStr.truthy name)); [discriminate |].
  destruct (existsb _ skip_patterns) eqn:E; [discriminate |].
  destruct ((String.length name <? 3)%nat || (100 <? String.length name)%nat) eqn:L;
    [discriminate |].
  destruct (any_char is_alpha name) eqn:A; [| discriminate].
  intros _. apply orb_false_iff in L. destruct L as [L1 L2].
  apply Nat.ltb_ge in L1, L2.
  repeat split; auto. intros pattern Hp. exact (existsb_false _ _ _ E pattern Hp).
Qed.

(** A pair gives at most one holding, and gives it only for a valid name
    with a positive weight. *)
Lemma parse_pair_inv (name weight : cell) (h : holding) :
  In h (parse_pair name weight) ->
  parse_pair name weight = [h]
  /\ exists s,
       name = Some s
       /\ security h = strip s
       /\ _is_valid_security (strip s) = true
       /\ pct_of_aum h = parse_percentage weight
       /\ fgt (pct_of_aum h) zero = true.
Proof.
  unfold parse_pair.
  destruct name as [s |]; cbn [cell_truthy cell_str]; [| intros []].
  destruct (PyStr.truthy s); [| intros []].
  destruct (PyStr.truthy (strip s) && _is_valid_security (strip s)) eqn:V; [| intros []].
  destruct (fgt (parse_percentage weight) zero) eqn:P; [| intros []].
  intros [<- | []]. split; [reflexivity |].
  apply andb_true_iff in V. destruct V as [_ V].
  exists s. repeat split; auto.
Qed.

(** C7.  In a table of the two-column layout the data row
    ["Reliance Industries", "8.5%", "TCS", "6.2%"] gives exactly two
    holdings, of weight 8.5 and 6.2; and a (name, weight) pair gives a
    holding only when the name has 3 to 100 characters, has a letter,
    contains no skip label, and the weight read is positive. *)
Theorem two_column_pairs :
  let data_row : row :=
    [Some "Reliance Industries"; Some "8.5%"; Some "TCS"; Some "6.2%"] in
  let reliance :=
    {| security := "Reliance Industries"; isin := ""; sector := "Unknown";
       pct_of_aum := decimal 85 (-1); market_value := None; quantity := None |} in
  let tcs :=
    {| security := "TCS"; isin := ""; sector := "Unknown";
       pct_of_aum := decimal 62 (-1); market_value := None; quantity := None |} in
  parse_two_column_row data_row = [reliance; tcs]
  /\ (forall (t : table) (header_idx : nat) (before after : list row),
        skipn (S header_idx) t = (before ++ (data_row : row) :: after)%list ->
        _parse_two_column_table t header_idx
        = (flat_map parse_two_column_row before
           ++ [reliance; tcs]
           ++ flat_map parse_two_column_row after)%list)
  /\ _process_tables
       [ {| ti_page := 1;
            ti_data := [ [Some "Scrip"; Some "Weightage"; Some "Scrip"; Some "Weightage"];
                         data_row ] |} ] ""
     = Some [reliance; tcs]
  /\ (forall name weight h,
        In h (parse_pair name weight) ->
        parse_pair name weight = [h]
        /\ exists s,
             name = Some s
             /\ security h = strip s
             /\ (3 <= String.length (strip s) <= 100)%nat
             /\ any_char is_alpha (strip s) = true
             /\ (forall pattern, In pattern skip_patterns ->
                   contains pattern (strip (lower (strip s))) = false)
             /\ pct_of_aum h = parse_percentage weight
             /\ fgt (pct_of_aum h) zero = true).
Proof.
  cbv zeta.
  assert (R : parse_two_column_row
                [Some "Reliance Industries"; Some "8.5%"; Some "TCS"; Some "6.2%"]
              = [ {| security := "Reliance Industries"; isin := ""; sector := "Unknown";
                     pct_of_aum := decimal 85 (-1); market_value := None;
                     quantity := None |};
                  {| security := "TCS"; isin := ""; sector := "Unknown";
                     pct_of_aum := decimal 62 (-1); market_value := None;
                     quantity := None |} ])
    by (vm_compute; reflexivity).
  split; [exact R |]. split.
  { intros t header_idx before after E. unfold _parse_two_column_table.
    rewrite E, flat_map_app. cbn [flat_map]. now rewrite R. }
  split; [vm_compute; reflexivity |].
  intros name weight h H.
  destruct (parse_pair_inv _ _ _ H) as (E & s & Hn & Hs & V & P & G).
  split; [exact E |]. exists s.
  destruct (valid_security_inv _ V) as (L & A & S).
  repeat split; auto; apply L.
Qed.

Lemma two_column_pairs_witness :
  let tcs :=
    {| security := "TCS"; isin := ""; sector := "Unknown";
       pct_of_aum := decimal 62 (-1); market_value := None; quantity := None |} in
  In tcs (parse_pair (Some " TCS ") (Some "6.2%"))
  /\ parse_pair (Some " TCS ") (Some "6.2%") = [tcs]
  /\ (3 <= String.length (strip " TCS ") <= 100)%nat.
Proof.
  cbv zeta.
  assert (H : In {| security := "TCS"; isin := ""; sector := "Unknown";
                    pct_of_aum := decimal 62 (-1); market_value := None;
                    quantity := None |}
                 (parse_pair (Some " TCS ") (Some "6.2%")))
    by (vm_compute; left; reflexivity).
  destruct two_column_pairs as (_ & _ & _ & P).
  destruct (P (Some " TCS ") (Some "6.2%") _ H) as (E & s & Hs & _ & L & _).
  injection Hs as <-.
  split; [exact H |]. split; [exact E | exact L].
Defined.

(** ** Where a holding comes from *)

Lemma parse_two_column_row_inv (r : row) (h : holding) :
  In h (parse_two_column_row r) ->
  exists name weight, In h (parse_pair name weight).
Proof.
  destruct r as [| c0 [| c1 rest]]; cbn [parse_two_column_row]; try (intros []).
  intros H. apply in_app_or in H. destruct H as [H | H]; [eauto |].
  destruct rest as [| c2 [| c3 rest]]; try (destruct H); eauto.
Qed.

Lemma parse_holding_row_inv (r : row) (col_map : Dict.dict nat) (current_sector : string)
      (h : holding) :
  _parse_holding_row r col_map current_sector = Some h ->
  exists c text,
    nth_error r (security_index col_map) = Some c
    /\ cell_truthy c = true
    /\ text = strip (cell_str c)
    /\ PyStr.mem (lower text) non_data_labels = false
    /\ security h = collapse_spaces text
    /\ pct_of_aum h = row_weight r col_map.
Proof.
  unfold _parse_holding_row.
  destruct (nth_error r (security_index col_map)) as [c |]; [| discriminate].
  destruct (cell_truthy c) eqn:T; [| discriminate].
  destruct (negb (PyStr.truthy (strip (cell_str c)))
            || PyStr.mem (lower (strip (cell_str c))) non_data_labels) eqn:G;
    [discriminate |].
  intros [= <-]. apply orb_false_iff in G. destruct G as [_ G].
  exists c, (strip (cell_str c)). repeat split; auto.
Qed.

Lemma text_holdings_inv (matches : list (string * string)) :
  forall holdings h,
    text_holdings matches = Some holdings -> In h holdings ->
    exists m pct,
      In m matches
      /\ security h = strip (fst m)
      /\ py_float (snd m) = Some pct
      /\ pct_of_aum h = pct
      /\ fgt pct (of_Z 100) = false
      /\ fle pct zero = false
      /\ existsb (fun w => contains w (lower (strip (fst m)))) skip_words = false.
Proof.
  induction matches as [| m matches IH]; intros holdings h; cbn [text_holdings].
  - intros [= <-] [].
  - destruct (py_float (snd m)) as [pct |] eqn:P; [| discriminate].
    destruct (text_holdings matches) as [hs |]; [| discriminate].
    assert (Rec : In h hs ->
                  exists m0 pct0,
                    In m0 (m :: matches) /\ security h = strip (fst m0)
                    /\ py_float (snd m0) = Some pct0 /\ pct_of_aum h = pct0
                    /\ fgt pct0 (of_Z 100) = false /\ fle pct0 zero = false
                    /\ existsb (fun w => contains w (lower (strip (fst m0)))) skip_words
                       = false).
    { intros Hh. destruct (IH hs h eq_refl Hh) as (m0 & pct0 & Hin & R).
      exists m0, pct0. split; [now right | exact R]. }
    destruct ((String.length (strip (fst m)) <? 3)%nat || fgt pct (of_Z 100)
              || fle pct zero) eqn:C.
    + intros [= <-]. exact Rec.
    + destruct (existsb (fun w => contains w (lower (strip (fst m)))) skip_words) eqn:S.
      * intros [= <-]. exact Rec.
      * intros [= <-] [<- | Hh]; [| auto].
        apply orb_false_iff in C. destruct C as [C C3].
        apply orb_false_iff in C. destruct C as [C1 C2].
        exists m, pct. cbn [security pct_of_aum]. repeat split; auto. now left.
Qed.

(** A holding of [process_table] is a pair of a two-column row or a row of
    a single-block table. *)
Lemma process_table_inv (t : table) (current_sector : string) (h : holding) :
  In h (process_table t current_sector) ->
  (exists name weight, In h (parse_pair name weight))
  \/ (exists r col_map, _parse_holding_row r col_map current_sector = Some h).
Proof.
  unfold process_table.
  destruct (is_empty t || (List.length t <? 2)%nat); [intros [] |].
  destruct (find_header (enumerate (firstn 3 t))) as [[[idx hr] two] |]; [| intros []].
  destruct two.
  - unfold _parse_two_column_table. intros H. apply in_flat_map in H.
    destruct H as (r & _ & H). left. exact (parse_two_column_row_inv _ _ H).
  - destruct (negb (get_truthy "security" (_map_columns hr))
              && negb (get_truthy "scrip" (_map_columns hr))); [intros [] |].
    unfold parse_single_block. intros H. apply in_flat_map in H.
    destruct H as (r & _ & H). right.
    destruct (is_empty r); [destruct H |].
    destruct (_parse_holding_row r (_map_columns hr) current_sector) as [h' |] eqn:E;
      [| destruct H].
    destruct (PyStr.truthy (security h')); [| destruct H].
    destruct H as [<- | []]. eauto.
Qed.

Lemma process_tables_inv (tables : list table_info) (full_text : string)
      (holdings : list holding) (h : holding) :
  _process_tables tables full_text = Some holdings -> In h holdings ->
  (exists name weight, In h (parse_pair name weight))
  \/ (exists r col_map, _parse_holding_row r col_map "Unknown" = Some h)
  \/ (exists hs, _extract_holdings_from_text full_text = Some hs /\ In h hs).
Proof.
  unfold _process_tables.
  destruct (is_empty (flat_map _ tables)) eqn:E.
  - intros H Hh. right. right. eauto.
  - intros [= <-] Hh. apply in_flat_map in Hh. destruct Hh as (ti & _ & Hh).
    destruct (process_table_inv _ _ _ Hh) as [P | P]; auto.
Qed.

Lemma extract_portfolio_table_inv (fs : filesystem) (pdf_path : string) (h : holding) :
  In h (fst (extract_portfolio_table fs pdf_path)) ->
  exists pages holdings,
    fs pdf_path = Some pages
    /\ _process_tables (all_tables_of pages) (all_text_of pages) = Some holdings
    /\ In h holdings.
Proof.
  unfold extract_portfolio_table.
  destruct (fs pdf_path) as [pages |]; [| intros []].
  destruct (_process_tables (all_tables_of pages) (all_text_of pages)) as [hs |] eqn:E;
    cbn [fst]; [| intros []].
  intros H. exists pages, hs. auto.
Qed.

(** ** Rows labelled "Total" *)








(** ** The regular-expression engine *)

Lemma run_sound (R : Type) (r : re) :
  forall total s cs (k : string -> captures -> option R) x,
    run r total s cs k = Some x ->
    exists s' cs', matches_re total r s cs s' cs' /\ k s' cs' = Some x.
Proof.
  induction r as [| p | r1 IH1 r2 IH2 | r1 IH1 r2 IH2 | r1 IH1 | i r1 IH1 | |];
    intros total s cs k x; cbn [run].
  - intros H. exists s, cs. split; [constructor | exact H].
  - destruct s as [| c s]; [discriminate |].
    destruct (p c) eqn:E; [| discriminate].
    intros H. exists s, cs. split; [now constructor | exact H].
  - intros H. apply IH1 in H. destruct H as (s1 & c1 & M1 & H).
    apply IH2 in H. destruct H as (s2 & c2 & M2 & H).
    exists s2, c2. split; [econstructor; eauto | exact H].
  - destruct (run r1 total s cs k) eqn:E.
    + intros [= <-]. apply IH1 in E. destruct E as (s1 & c1 & M1 & H).
      exists s1, c1. split; [now apply M_alt_l | exact H].
    + intros H. apply IH2 in H. destruct H as (s1 & c1 & M1 & H).
      exists s1, c1. split; [now apply M_alt_r | exact H].
  - generalize (String.length s) at 1. intros n. revert s cs.
    induction n as [| n IHn]; intros s cs.
    + intros H. exists s, cs. split; [constructor | exact H].
    + match goal with
      | |- context [run r1 total s cs ?K] => destruct (run r1 total s cs K) eqn:E
      end.
      * intros [= <-]. apply IH1 in E. destruct E as (s1 & c1 & M1 & H).
        destruct (String.length s1 <? String.length s)%nat; [| discriminate].
        apply IHn in H. destruct H as (s2 & c2 & M2 & H).
        exists s2, c2. split; [eapply M_star_cons; eauto | exact H].
      * intros H. exists s, cs. split; [constructor | exact H].
  - intros H. apply IH1 in H. destruct H as (s1 & c1 & M1 & H).
    eexists _, _. split; [apply M_grp; eauto | exact H].
  - destruct (String.length s =? total)%nat eqn:E; [| discriminate].
    intros H. exists s, cs. split; [constructor; now apply Nat.eqb_eq | exact H].
  - destruct ((s =? "") || (s =? String (ascii_of_nat 10) "")) eqn:E; [| discriminate].
    intros H. exists s, cs. split; [| exact H]. constructor.
    apply orb_true_iff in E. destruct E as [E | E]; apply String.eqb_eq in E; auto.
Qed.

Lemma append_assoc (a b c : string) : (a ++ b) ++ c = a ++ (b ++ c).
Proof. induction a as [| x a IH]; simpl; [reflexivity | now rewrite IH]. Qed.

Lemma append_nil_r (s : string) : s ++ "" = s.
Proof. induction s as [| c s IH]; cbn [append]; [reflexivity | now rewrite IH]. Qed.

Lemma matches_suffix (total : nat) (r : re) (s : string) (cs : captures)
      (s' : string) (cs' : captures) :
  matches_re total r s cs s' cs' -> exists pre, s = pre ++ s'.
Proof.
  induction 1.
  - now exists "".
  - now exists (String c "").
  - destruct IHmatches_re1 as [p1 ->], IHmatches_re2 as [p2 ->].
    exists (p1 ++ p2). now rewrite append_assoc.
  - assumption.
  - assumption.
  - now exists "".
  - destruct IHmatches_re1 as [p1 ->], IHmatches_re2 as [p2 ->].
    exists (p1 ++ p2). now rewrite append_assoc.
  - assumption.
  - now exists "".
  - now exists "".
Qed.

Lemma take_prefix (pre s : string) :
  take (String.length (pre ++ s) - String.length s) (pre ++ s) = pre.
Proof.
  rewrite length_app. replace (String.length pre + String.length s - String.length s)%nat
    with (String.length pre) by lia.
  apply take_app.
Qed.

(** The second group of a match of the text-fallback pattern starts with a
    digit. *)
Lemma text_match_number (total : nat) (s : string) (m : rmatch) :
  match_here re_text_holding total s = Some m ->
  exists d rest, group_or_empty 2 (m_groups m) = String d rest /\ is_digit d = true.
Proof.
  unfold match_here. intros H. apply run_sound in H.
  destruct H as (s' & cs' & M & [= <-]). cbn [m_groups].
  cbv [re_text_holding seq Plus digit] in M.
  inversion M as [| | r1 r2 s0 cs0 s1 c1 s2 c2 M1 M2 | | | | | | |]; subst; clear M M1.
  inversion M2 as [| | r1 r2 s0 cs0 s2 c2 s3 c3 M3 M4 | | | | | | |]; subst; clear M2 M3.
  inversion M4 as [| | | | | | | i r s0 cs0 s3 c3 M5 | |]; subst; clear M4.
  repeat match goal with
         | H : matches_re _ (Cat _ _) _ _ _ _ |- _ => inv H
         | H : matches_re _ (Chr _) _ _ _ _ |- _ => inv H
         end.
  repeat match goal with
         | H : matches_re _ _ _ _ _ _ |- _ =>
             apply matches_suffix in H; destruct H as [? H]
         end.
  subst.
  match goal with
  | |- context [take (String.length (String ?c ?X) - String.length ?t) _] =>
      assert (L : (String.length t <= String.length X)%nat)
        by (rewrite ?length_app; cbn [String.length]; rewrite ?length_app; lia);
      cbn [String.length]; rewrite (Nat.sub_succ_l _ _ L)
  end.
  cbn. eauto.
Qed.

Lemma findall_go_inv (r : re) (total : nat) (s : string) :
  forall skip cs,
    In cs (findall_go r total skip s) ->
    exists s0 m, match_here r total s0 = Some m /\ m_groups m = cs.
Proof.
  induction s as [| c s IH]; intros skip cs; cbn [findall_go]; [intros [] |].
  destruct skip as [| k]; [| apply IH].
  destruct (match_here r total (String c s)) as [m |] eqn:E; [| apply IH].
  intros [<- | H]; [eauto | exact (IH _ _ H)].
Qed.

Lemma parse_unsigned_not_nan (neg : bool) (s : string) (x : pyfloat) :
  parse_unsigned neg s = Some x -> x <> F_nan.
Proof.
  unfold parse_unsigned.
  destruct (span is_digit s) as [ip s2].
  destruct (match s2 with
            | String "." t => span is_digit t
            | _ => (EmptyString, s2)
            end) as [fp s3].
  destruct ((ip =? "") && (fp =? "")); [discriminate |].
  destruct s3 as [| c s4].
  - intros [= <-]. apply decimal_not_nan.
  - destruct ((c =? "e")%char || (c =? "E")%char); [| discriminate].
    destruct (take_sign s4) as [eneg s5].
    destruct (span is_digit s5) as [ed s6].
    destruct ((ed =? "") || negb (s6 =? "")); [discriminate |].
    intros [= <-]. apply decimal_not_nan.
Qed.

Lemma digit_head (d : ascii) :
  is_digit d = true ->
  forall t, (lower (String d t) =? "nan") = false.
Proof.
  destruct d as [[] [] [] [] [] [] [] []]; vm_compute; intros H;
    try discriminate H; intros; reflexivity.
Qed.

(** [float] never reads NaN from a text that starts with a digit. *)
Lemma py_float_digit_not_nan (d : ascii) (s : string) (x : pyfloat) :
  is_digit d = true -> py_float (String d s) = Some x -> x <> F_nan.
Proof.
  intros Hd.
  assert (H : is_digit d || (d =? ".")%char = true) by now rewrite Hd.
  destruct (number_head d H) as (Hs & Hu & Ht & Hp).
  unfold py_float. cbn [lstrip_c]. rewrite Hs.
  rewrite (rstrip_c_cons d) by exact Hs.
  set (r := rstrip_c s).
  destruct (underscores_ok false (String d r)); [| discriminate].
  rewrite (replace_cons_other "_" "" d) by apply Hp.
  set (t := replace "_" "" r).
  unfold parse_decimal. rewrite Ht.
  destruct (parse_unsigned false (String d t)) as [y |] eqn:P.
  - intros [= <-]. exact (parse_unsigned_not_nan _ _ _ P).
  - unfold parse_inf_nan. rewrite Ht.
    destruct ((lower (String d t) =? "inf") || (lower (String d t) =? "infinity"));
      [intros [= <-]; discriminate |].
    now rewrite (digit_head d Hd t).
Qed.

(** The weights of the text fallback lie in (0, 100]. *)
Lemma text_fallback_weight (text : string) (holdings : list holding) (h : holding) :
  _extract_holdings_from_text text = Some holdings -> In h holdings ->
  fgt (pct_of_aum h) zero = true /\ fle (pct_of_aum h) (of_Z 100) = true.
Proof.
  unfold _extract_holdings_from_text. intros E Hh.
  destruct (text_holdings_inv _ _ _ E Hh) as (m & pct & Hm & _ & P & -> & G & L & _).
  apply in_map_iff in Hm. destruct Hm as (cs & <- & Hcs).
  unfold findall in Hcs. apply findall_go_inv in Hcs.
  destruct Hcs as (s0 & mt & Hmt & <-).
  destruct (text_match_number _ _ _ Hmt) as (d & rest & Hg & Hd).
  cbn [groups2 snd] in P. rewrite Hg in P.
  pose proof (py_float_digit_not_nan _ _ _ Hd P) as N.
  assert (Z0 : zero <> F_nan) by discriminate.
  assert (Z100 : of_Z 100 <> F_nan) by apply rnd_not_nan.
  rewrite (fle_nlt _ _ N Z0) in L. unfold fgt in *.
  rewrite (fle_nlt _ _ N Z100), G. split; [| reflexivity].
  now destruct (flt zero pct).
Qed.

(** ** Weights *)

(** C2, as amended.  A holding of the two-column layout has a positive
    weight and a holding of the text fallback a weight in (0, 100]; a holding
    of a single-block row carries what [parse_percentage] reads in its
    weight cell, or 0.0 without such a cell, and that value is negative for
    a parenthesised cell.  The records of a document keep these weights. *)
Theorem weights_by_layout :
  (forall name weight h,
      In h (parse_pair name weight) -> fgt (pct_of_aum h) zero = true)
  /\ (forall (t : table) header_idx h,
        In h (_parse_two_column_table t header_idx) -> fgt (pct_of_aum h) zero = true)
  /\ (forall text holdings h,
        _extract_holdings_from_text text = Some holdings -> In h holdings ->
        fgt (pct_of_aum h) zero = true /\ fle (pct_of_aum h) (of_Z 100) = true)
  /\ (forall (r : row) col_map current_sector h,
        _parse_holding_row r col_map current_sector = Some h ->
        pct_of_aum h = row_weight r col_map)
  /\ (forall mapper fs now pdf_path filename r,
        In r (res_holdings (process_pdf mapper fs now pdf_path (Some filename))) ->
        fgt (r_pct_of_aum r) zero = true
        \/ exists (row : row) col_map, r_pct_of_aum r = row_weight row col_map)
  /\ row_weight [Some "2"; Some "Loss Maker"; Some "(1.23)%"; None]
                [("security", 1%nat); ("pct_of_aum", 2%nat); ("market_value", 3%nat)]
     = fneg (decimal 123 (-2)).
Proof.
  assert (P : forall name weight h,
             In h (parse_pair name weight) -> fgt (pct_of_aum h) zero = true).
  { intros name weight h H. now destruct (parse_pair_inv _ _ _ H) as (_ & s & _ & _ & _ & _ & G). }
  split; [exact P |]. split.
  { intros t header_idx h H. unfold _parse_two_column_table in H.
    apply in_flat_map in H. destruct H as (r & _ & H).
    destruct (parse_two_column_row_inv _ _ H) as (name & weight & Hp). eauto. }
  split; [exact text_fallback_weight |]. split.
  { intros r col_map current_sector h H.
    now destruct (parse_holding_row_inv _ _ _ _ H) as (c & text & _ & _ & _ & _ & _ & W). }
  split; [| vm_compute; reflexivity].
  intros mapper fs now pdf_path filename r Hr.
  destruct (process_pdf_fields mapper fs now pdf_path filename) as (_ & _ & _ & Hh).
  rewrite Hh in Hr. apply in_map_iff in Hr. destruct Hr as (h & <- & Hin).
  cbn [to_record r_pct_of_aum enrich pct_of_aum].
  destruct (extract_portfolio_table_inv _ _ _ Hin) as (pages & hs & _ & E & Hs).
  destruct (process_tables_inv _ _ _ _ E Hs)
    as [(name & weight & Q) | [(row & col_map & Q) | (ths & X & Q)]].
  - left. eauto.
  - right. exists row, col_map.
    now destruct (parse_holding_row_inv _ _ _ _ Q) as (c & text & _ & _ & _ & _ & _ & W).
  - left. now destruct (text_fallback_weight _ _ _ X Q).
Qed.

Lemma weights_by_layout_witness :
  let tcs :=
    {| security := "TCS"; isin := ""; sector := "Unknown";
       pct_of_aum := decimal 62 (-1); market_value := None; quantity := None |} in
  In tcs (parse_pair (Some "TCS") (Some "6.2%"))
  /\ fgt (pct_of_aum tcs) zero = true.
Proof.
  cbv zeta.
  assert (H : In {| security := "TCS"; isin := ""; sector := "Unknown";
                    pct_of_aum := decimal 62 (-1); market_value := None;
                    quantity := None |}
                 (parse_pair (Some "TCS") (Some "6.2%")))
    by (vm_compute; left; reflexivity).
  split; [exact H |].
  exact (proj1 weights_by_layout (Some "TCS") (Some "6.2%") _ H).
Defined.

(** C2, as first stated, fails: a single-block row with a parenthesised
    weight gives a record whose weight is below zero. *)
Lemma negative_weight_record :
  map (fun r => (r_security r, r_pct_of_aum r))
      (firstn 2 (res_holdings
                   (process_pdf Examples.mapper Examples.fs Examples.now
                                "/in/HDFC_BlueChip_202412.pdf"
                                (Some "HDFC_BlueChip_202412.pdf"))))
  = [("Infosys Ltd", decimal 100 (-1)); ("Loss Maker", fneg (decimal 123 (-2)))]
  /\ fge (fneg (decimal 123 (-2))) zero = false
  /\ flt (fneg (decimal 123 (-2))) zero = true.
Proof. vm_compute. repeat split. Qed.

(** ** The computed value *)

Lemma first_some_inv (A B : Type) (f : A -> option B) (l : list A) (b : B) :
  first_some f l = Some b -> exists a, In a l /\ f a = Some b.
Proof.
  induction l as [| a l IH]; cbn [first_some]; [discriminate |].
  destruct (f a) as [b' |] eqn:E.
  - intros [= <-]. exists a. split; [now left | exact E].
  - intros H. destruct (IH H) as (a' & Ha & Hf). exists a'. split; [now right | exact Hf].
Qed.

Lemma ten_le_truthy (x : pyfloat) : fle (of_Z 10) x = true -> PyFloat.truthy x = true.
Proof.
  replace (of_Z 10) with (F_fin 10) by (vm_compute; reflexivity).
  unfold fle, PyFloat.truthy.
  destruct x as [a | [] | ]; cbn [flt feq negb]; try reflexivity; try discriminate.
  destruct (Qeq_bool a 0) eqn:E; [| reflexivity].
  apply Qeq_bool_iff in E. intros H. apply orb_true_iff in H. destruct H as [H | H].
  - apply Qltb_lt in H. rewrite E in H. discriminate H.
  - apply Qeq_bool_iff in H. rewrite E in H. discriminate H.
Qed.

(** A total of managed assets that was found is not zero. *)
Lemma known_aum_truthy (fs : filesystem) (pdf_path : string) (aum : pyfloat) :
  aum_cr (snd (extract_portfolio_table fs pdf_path)) = Some aum ->
  PyFloat.truthy aum = true.
Proof.
  unfold extract_portfolio_table.
  destruct (fs pdf_path) as [pages |]; [| discriminate].
  assert (T : extract_aum_from_text (all_text_of pages) = Some aum ->
              PyFloat.truthy aum = true).
  { unfold extract_aum_from_text. intros H.
    destruct (first_some_inv _ _ _ _ _ H) as (pattern & _ & Hp).
    unfold aum_of in Hp.
    destruct (search pattern (all_text_of pages)); [| discriminate].
    destruct (py_float _) as [a |]; [| discriminate].
    destruct (fle (of_Z 10) a && fle a (of_Z 1000000)) eqn:R; [| discriminate].
    injection Hp as <-. apply andb_true_iff in R. now apply ten_le_truthy. }
  destruct (_process_tables _ _); cbn [snd aum_cr]; exact T.
Qed.

(** C5, as amended.  In a document whose total of managed assets is known,
    a holding of positive weight for which the table gave no value gets the
    value round(weight / 100 * total, 2); a value the table gave that is not
    zero is kept; a holding whose weight is not positive keeps what the
    table gave, and has no value when the table gave none.  For a weight of
    10.0 and a total of 1000.0 the computed value is 100.0. *)
Theorem market_value_rule (mapper : ISINMapper.t) (fs : filesystem)
        (now pdf_path filename : string) (aum : pyfloat) :
  aum_cr (snd (extract_portfolio_table fs pdf_path)) = Some aum ->
  computed_value (decimal 100 (-1)) (decimal 10000 (-1)) = decimal 1000 (-1)
  /\ (forall pct, computed_value pct aum = round2 (fmul (fdiv pct (of_Z 100)) aum))
  /\ forall r,
       In r (res_holdings (process_pdf mapper fs now pdf_path (Some filename))) ->
       exists h,
         In h (fst (extract_portfolio_table fs pdf_path))
         /\ r_security r = security h
         /\ r_pct_of_aum r = pct_of_aum h
         /\ (fgt (pct_of_aum h) zero = true -> market_value h = None ->
             r_market_value r = Some (computed_value (pct_of_aum h) aum))
         /\ (forall v, market_value h = Some v -> PyFloat.truthy v = true ->
                       r_market_value r = Some v)
         /\ (fgt (pct_of_aum h) zero = false -> r_market_value r = market_value h).
Proof.
  intros Ha. pose proof (known_aum_truthy _ _ _ Ha) as Ht.
  split; [vm_compute; reflexivity |]. split; [reflexivity |].
  intros r Hr.
  destruct (process_pdf_fields mapper fs now pdf_path filename) as (_ & _ & _ & Hh).
  rewrite Hh in Hr. apply in_map_iff in Hr. destruct Hr as (h & <- & Hin).
  exists h. rewrite Ha.
  cbn [to_record enrich r_security r_pct_of_aum r_market_value
       security pct_of_aum market_value].
  rewrite Ht. cbn [andb].
  repeat split; auto.
  - intros G N. rewrite G, N. reflexivity.
  - intros v Hv Tv. rewrite Hv. cbn [opt_truthy]. rewrite Tv.
    now destruct (fgt (pct_of_aum h) zero).
  - intros G. now rewrite G.
Qed.

Lemma market_value_rule_witness :
  aum_cr (snd (extract_portfolio_table Examples.fs "/in/HDFC_BlueChip_202412.pdf"))
  = Some (decimal 10000 (-1))
  /\ computed_value (decimal 100 (-1)) (decimal 10000 (-1)) = decimal 1000 (-1)
  /\ map (fun r => (r_security r, r_market_value r))
         (res_holdings (process_pdf Examples.mapper Examples.fs Examples.now
                                    "/in/HDFC_BlueChip_202412.pdf"
                                    (Some "HDFC_BlueChip_202412.pdf")))
     = [ ("Infosys Ltd", Some (decimal 1000 (-1)));
         ("Loss Maker", None);
         ("No Weight", None);
         ("Zero Value", Some (decimal 500 (-1)));
         ("Own Value", Some (decimal 75 (-1))) ].
Proof.
  assert (H : aum_cr (snd (extract_portfolio_table Examples.fs
                                                   "/in/HDFC_BlueChip_202412.pdf"))
              = Some (decimal 10000 (-1))) by (vm_compute; reflexivity).
  destruct (market_value_rule Examples.mapper Examples.fs Examples.now
                              "/in/HDFC_BlueChip_202412.pdf" "HDFC_BlueChip_202412.pdf"
                              (decimal 10000 (-1)) H) as (E & _ & _).
  split; [exact H |]. split; [exact E |]. vm_compute. reflexivity.
Defined.

(** C5, as first stated, fails: with the total known and no value in the
    table, a holding of weight 0.0 gets no value, where the claim gives it
    round(0.0 / 100 * 1000.0, 2) = 0.0. *)
Lemma zero_weight_gets_no_value :
  aum_cr (snd (extract_portfolio_table Examples.fs "/in/HDFC_BlueChip_202412.pdf"))
  = Some (decimal 10000 (-1))
  /\ nth_error (fst (extract_portfolio_table Examples.fs "/in/HDFC_BlueChip_202412.pdf")) 2
     = Some {| security := "No Weight"; isin := ""; sector := "Unknown";
               pct_of_aum := zero; market_value := None; quantity := None |}
  /\ option_map (fun r => (r_security r, r_pct_of_aum r, r_market_value r))
       (nth_error
          (res_holdings (process_pdf Examples.mapper Examples.fs Examples.now
                                     "/in/HDFC_BlueChip_202412.pdf"
                                     (Some "HDFC_BlueChip_202412.pdf"))) 2)
     = Some ("No Weight", zero, None)
  /\ computed_value zero (decimal 10000 (-1)) = zero.
Proof. vm_compute. repeat split. Qed.

(** ** The security column of a single-block table *)

Lemma get_set_other (V : Type) (k k' : string) (v : V) (d : Dict.dict V) :
  k' <> k -> Dict.get k (Dict.set k' v d) = Dict.get k d.
Proof.
  intros N. apply String.eqb_neq in N.
  induction d as [| [k0 v0] d IH]; cbn [Dict.set Dict.get].
  - now rewrite N.
  - destruct (k0 =? k') eqn:E; cbn [Dict.get].
    + apply String.eqb_eq in E. subst k0. now rewrite N.
    + now rewrite IH.
Qed.

Lemma map_cell_no_scrip (idx : nat) (cell_lower : string) (entries : list (string * list string)) :
  (forall e, In e entries -> fst e <> "scrip") ->
  forall col_map,
    Dict.get "scrip" col_map = None ->
    Dict.get "scrip" (fold_left (map_cell idx cell_lower) entries col_map) = None.
Proof.
  induction entries as [| [field patterns] entries IH]; intros Hk col_map H;
    cbn [fold_left]; [exact H |].
  apply IH; [intros e He; apply Hk; now right |].
  unfold map_cell.
  destruct (existsb _ patterns); [| exact H].
  destruct (negb (Dict.mem field col_map)); [| exact H].
  rewrite get_set_other; [exact H |]. apply (Hk (field, patterns)). now left.
Qed.

(** No header maps a column to the key 'scrip': it is not a key of
    [column_patterns]. *)
Lemma map_columns_no_scrip (header_row : row) :
  Dict.get "scrip" (_map_columns header_row) = None.
Proof.
  unfold _map_columns.
  assert (K : forall e, In e column_patterns -> fst e <> "scrip").
  { intros e He. unfold column_patterns in He. cbn [In] in He.
    repeat (destruct He as [<- | He]; [discriminate |]). destruct He. }
  assert (G : forall (cells : list (nat * cell)) col_map,
             Dict.get "scrip" col_map = None ->
             Dict.get "scrip"
               (fold_left
                  (fun col_map (ic : nat * cell) =>
                     let '(idx, c) := ic in
                     if negb (cell_truthy c) then col_map
                     else fold_left (map_cell idx (lower (cell_str c))) column_patterns col_map)
                  cells col_map) = None).
  { induction cells as [| [idx c] cells IH]; intros col_map H; cbn [fold_left]; [exact H |].
    apply IH. destruct (negb (cell_truthy c)); [exact H |].
    now apply map_cell_no_scrip. }
  now apply G.
Qed.

(** A single-block table whose header names the security in column 0 is
    skipped, whatever its rows. *)
Lemma security_in_column_0_skipped (t : table) (header_idx : nat) (header_row : row)
      (current_sector : string) :
  find_header (enumerate (firstn 3 t)) = Some (header_idx, header_row, false) ->
  Dict.get "security" (_map_columns header_row) = Some 0%nat ->
  process_table t current_sector = [].
Proof.
  intros H G. unfold process_table.
  destruct (is_empty t || (List.length t <? 2)%nat); [reflexivity |].
  rewrite H. unfold get_truthy. now rewrite G, map_columns_no_scrip.
Qed.

(** C3.  The claim holds of the design and fails on the code: the table
    [["Security", "Weight"], ["Infosys", "5.0%"]] has a recognised
    single-block header that maps the security role to column 0, yet it is
    skipped and its document yields no holding, because the test
    [not col_map.get('security')] takes the index 0 for a missing mapping.
    The row parser itself reads column 0, and the same table with a serial
    number in front is parsed. *)
Theorem first_column_security_table_skipped :
  let header : row := [Some "Security"; Some "Weight"] in
  let data : row := [Some "Infosys"; Some "5.0%"] in
  let infosys :=
    {| security := "Infosys"; isin := ""; sector := "Unknown";
       pct_of_aum := decimal 50 (-1); market_value := None; quantity := None |} in
  find_header (enumerate (firstn 3 [header; data])) = Some (0%nat, header, false)
  /\ _map_columns header = [("security", 0%nat); ("pct_of_aum", 1%nat)]
  /\ process_table [header; data] "Unknown" = []
  /\ fst (extract_portfolio_table Examples.fs "/in/first.pdf") = []
  /\ res_holdings (process_pdf Examples.mapper Examples.fs Examples.now
                               "/in/first.pdf" (Some "first.pdf")) = []
  /\ _parse_holding_row data (_map_columns header) "Unknown" = Some infosys
  /\ fst (extract_portfolio_table Examples.fs "/in/second.pdf") = [infosys].
Proof. vm_compute. repeat split. Qed.

(** ** A batch with a document that cannot be opened *)

Lemma process_pdf_unopened (mapper : ISINMapper.t) (fs : filesystem)
      (now pdf_path filename : string) :
  fs pdf_path = None ->
  res_holdings (process_pdf mapper fs now pdf_path (Some filename)) = []
  /\ res_sector_allocation (process_pdf mapper fs now pdf_path (Some filename)) = [].
Proof.
  intros H. unfold process_pdf, extract_portfolio_table, extract_sector_allocation.
  rewrite H. split; reflexivity.
Qed.

(** The holdings of a batch are those of its documents, in order; every
    document adds an entry to the metadata and none to the errors. *)
Lemma batch_fold (mapper : ISINMapper.t) (fs : filesystem) (now : string)
      (files : list (string * string)) :
  forall acc,
    all_holdings (fold_left (batch_step mapper fs now) files acc)
    = (all_holdings acc
       ++ flat_map (fun f => res_holdings (process_pdf mapper fs now (fst f) (Some (snd f))))
                   files)%list
    /\ errors (fold_left (batch_step mapper fs now) files acc) = errors acc
    /\ List.length (all_metadata (fold_left (batch_step mapper fs now) files acc))
       = (List.length (all_metadata acc) + List.length files)%nat.
Proof.
  induction files as [| [pdf_path filename] files IH]; intros acc; cbn [fold_left flat_map].
  - rewrite app_nil_r. repeat split. cbn [List.length]. lia.
  - destruct (IH (batch_step mapper fs now acc (pdf_path, filename))) as (H1 & H2 & H3).
    rewrite H1, H2, H3. unfold batch_step.
    destruct (process_pdf_fields mapper fs now pdf_path filename) as (S & _).
    rewrite S. cbn [all_holdings errors all_metadata fst snd].
    rewrite <- app_assoc, List.length_app. cbn [List.length]. repeat split. lia.
Qed.

(** C1, as amended.  In a batch where a document cannot be opened or
    parsed, that document contributes no holding and the holdings of the
    other documents are returned unchanged and in order; the batch is a
    value: nothing is raised. *)
Theorem unopened_document_in_batch (mapper : ISINMapper.t) (fs : filesystem) (now : string)
        (before after : list (string * string)) (pdf_path filename : string) :
  fs pdf_path = None ->
  let files := (before ++ (pdf_path, filename) :: after)%list in
  let others := (before ++ after)%list in
  all_holdings (process_multiple_pdfs mapper fs now files)
  = flat_map (fun f => res_holdings (process_pdf mapper fs now (fst f) (Some (snd f))))
             others
  /\ all_holdings (process_multiple_pdfs mapper fs now files)
     = all_holdings (process_multiple_pdfs mapper fs now others)
  /\ res_holdings (process_pdf mapper fs now pdf_path (Some filename)) = [].
Proof.
  intros H. cbv zeta. unfold process_multiple_pdfs.
  destruct (process_pdf_unopened mapper fs now pdf_path filename H) as (U & _).
  repeat split; auto;
    repeat match goal with
           | |- context [fold_left (batch_step mapper fs now) ?l ?acc] =>
               let H1 := fresh in
               destruct (batch_fold mapper fs now l acc) as (H1 & _);
               rewrite ?H1; clear H1
           end; cbn [all_holdings app];
    rewrite !flat_map_app; cbn [flat_map fst snd]; rewrite U; reflexivity.
Qed.

Lemma unopened_document_in_batch_witness :
  Examples.fs "/in/missing.pdf" = None
  /\ map r_security
         (all_holdings
            (process_multiple_pdfs Examples.mapper Examples.fs Examples.now
               [("/in/second.pdf", "second.pdf"); ("/in/missing.pdf", "missing.pdf");
                ("/in/two.pdf", "two.pdf")]))
     = ["Infosys"; "Reliance Industries"; "TCS"]
  /\ all_holdings
       (process_multiple_pdfs Examples.mapper Examples.fs Examples.now
          [("/in/second.pdf", "second.pdf"); ("/in/missing.pdf", "missing.pdf");
           ("/in/two.pdf", "two.pdf")])
     = all_holdings
         (process_multiple_pdfs Examples.mapper Examples.fs Examples.now
            [("/in/second.pdf", "second.pdf"); ("/in/two.pdf", "two.pdf")]).
Proof.
  assert (H : Examples.fs "/in/missing.pdf" = None) by reflexivity.
  destruct (unopened_document_in_batch Examples.mapper Examples.fs Examples.now
              [("/in/second.pdf", "second.pdf")] [("/in/two.pdf", "two.pdf")]
              "/in/missing.pdf" "missing.pdf" H) as (A & B & _).
  split; [exact H |]. split; [| exact B].
  cbn [app] in A. rewrite A. vm_compute. reflexivity.
Defined.

(** C1, as first stated, fails: a batch with one document that cannot be
    opened comes back with an empty list of errors, not with one entry that
    names the document. *)
Lemma unopened_document_leaves_no_error :
  Examples.fs "/in/missing.pdf" = None
  /\ errors
       (process_multiple_pdfs Examples.mapper Examples.fs Examples.now
          [("/in/second.pdf", "second.pdf"); ("/in/missing.pdf", "missing.pdf")]) = []
  /\ ~ (exists e,
          errors
            (process_multiple_pdfs Examples.mapper Examples.fs Examples.now
               [("/in/second.pdf", "second.pdf"); ("/in/missing.pdf", "missing.pdf")])
          = [e]
          /\ contains "missing.pdf" e = true).
Proof.
  split; [reflexivity |].
  assert (E : errors
                (process_multiple_pdfs Examples.mapper Examples.fs Examples.now
                   [("/in/second.pdf", "second.pdf"); ("/in/missing.pdf", "missing.pdf")])
              = []) by (vm_compute; reflexivity).
  split; [exact E |]. intros (e & He & _). rewrite E in He. discriminate.
Qed.

(** ** The date in a file name *)

Lemma yyyymm_match_here (total : nat) (d : string) :
  six_digits d ->
  match_here re_yyyymm_pdf total (d ++ ".pdf")
  = Some {| m_groups := [(1%nat, d)]; m_rest := "" |}.
Proof.
  intros (c1 & c2 & c3 & c4 & c5 & c6 & -> & H1 & H2 & H3 & H4 & H5 & H6).
  unfold match_here, re_yyyymm_pdf.
  cbn [seq Rep digit run append]. rewrite H1, H2, H3, H4, H5, H6.
  reflexivity.
Qed.

(** A match of the pattern takes ten characters and leaves nothing, or a
    final newline. *)
Lemma yyyymm_match_shape (total : nat) (s : string) (m : rmatch) :
  match_here re_yyyymm_pdf total s = Some m ->
  exists pre rest,
    s = pre ++ rest /\ String.length pre = 10%nat
    /\ (rest = "" \/ rest = String (ascii_of_nat 10) "").
Proof.
  unfold match_here. intros H. apply run_sound in H.
  destruct H as (s' & cs' & M & _).
  cbv [re_yyyymm_pdf seq Rep digit chr liti] in M.
  repeat match goal with
         | H : matches_re _ (Cat _ _) _ _ _ _ |- _ => inv H
         | H : matches_re _ (Grp _ _) _ _ _ _ |- _ => inv H
         | H : matches_re _ (Chr _) _ _ _ _ |- _ => inv H
         | H : matches_re _ Eps _ _ _ _ |- _ => inv H
         | H : matches_re _ Eol _ _ _ _ |- _ => inv H
         end.
  match goal with
  | H : ?r = "" \/ _ |- exists pre rest,
        String ?a1 (String ?a2 (String ?a3 (String ?a4 (String ?a5 (String ?a6
          (String ?a7 (String ?a8 (String ?a9 (String ?a10 _))))))))) = _ /\ _ =>
      exists (String a1 (String a2 (String a3 (String a4 (String a5 (String a6
                (String a7 (String a8 (String a9 (String a10 "")))))))))), r;
      repeat split; auto
  end.
Qed.

Lemma length_eq_inv (a b : string) : a = b -> String.length a = String.length b.
Proof. now intros ->. Qed.

(** With the six digits and the extension at its very end, a file name is
    matched there and nowhere before. *)
Lemma yyyymm_search (total : nat) (d : string) (stem : string) :
  six_digits d ->
  search_go re_yyyymm_pdf total (stem ++ d ++ ".pdf")
  = Some {| m_groups := [(1%nat, d)]; m_rest := "" |}.
Proof.
  intros Hd. induction stem as [| x stem IH].
  - cbn [append].
    assert (E := yyyymm_match_here total d Hd).
    destruct d as [| c d]; [destruct Hd as (? & ? & ? & ? & ? & ? & [=] & _) |].
    cbn [append search_go] in *. now rewrite E.
  - cbn [append search_go].
    destruct (match_here re_yyyymm_pdf total (String x (stem ++ d ++ ".pdf"))) as [m |] eqn:E;
      [exfalso | exact IH].
    destruct (yyyymm_match_shape _ _ _ E) as (pre & rest & S & L & R).
    destruct Hd as (c1 & c2 & c3 & c4 & c5 & c6 & -> & _).
    assert (Ls := length_eq_inv _ _ S).
    cbn [String.length] in Ls. rewrite !length_app in Ls.
    cbn [String.length append] in Ls. rewrite L in Ls.
    destruct R as [-> | ->]; cbn [String.length] in Ls; [lia |].
    assert (stem = "") by (destruct stem; [reflexivity | cbn [String.length] in Ls; lia]).
    subst stem. cbn [append] in S.
    do 10 (destruct pre as [| ? pre]; [discriminate L |];
           cbn [append] in S; injection S as ? S).
    destruct pre; [discriminate S | discriminate L].
Qed.


(** A file name that ends with six digits and ".pdf" is dated by them: the
    first four are the year and the last two the month. *)
Lemma yyyymm_rule (now stem d : string) :
  six_digits d ->
  extract_date_from_filename now (stem ++ d ++ ".pdf")
  = take 4 d ++ "-" ++ take 2 (drop 4 d) ++ "-01".
Proof.
  intros Hd. unfold extract_date_from_filename, search.
  now rewrite (yyyymm_search _ d stem Hd).
Qed.

(** ** The fund house in a file name *)

Lemma rfind_none_app (c : ascii) (a b : string) :
  OsPath.rfind c b = None -> OsPath.rfind c (a ++ b) = OsPath.rfind c a.
Proof.
  intros H. induction a as [| x a IH]; cbn [append OsPath.rfind]; [exact H |].
  now rewrite IH.
Qed.

Lemma rfind_some_app (c : ascii) (a b : string) (i : nat) :
  OsPath.rfind c b = Some i ->
  OsPath.rfind c (a ++ b) = Some (String.length a + i)%nat.
Proof.
  intros H. induction a as [| x a IH]; cbn [append OsPath.rfind String.length];
    [exact H |].
  now rewrite IH.
Qed.

Lemma rfind_absent (c : ascii) (s : string) :
  any_char (fun x => (x =? c)%char) s = false -> OsPath.rfind c s = None.
Proof.
  induction s as [| x s IH]; [reflexivity |]. cbn [any_char OsPath.rfind].
  intros H. apply orb_false_iff in H. destruct H as [H1 H2].
  now rewrite (IH H2), H1.
Qed.

(** The root of a path is the path cut at a dot, or the whole path. *)
Lemma splitext_root_cut (p : string) :
  OsPath.splitext_root p = p
  \/ exists dot, OsPath.rfind "." p = Some dot /\ OsPath.splitext_root p = take dot p.
Proof.
  unfold OsPath.splitext_root.
  destruct (OsPath.rfind "." p) as [dot |]; [| now left].
  destruct (_ && _); [right; now exists dot | now left].
Qed.

Lemma take_app_more (a b : string) (n : nat) :
  take (String.length a + n) (a ++ b) = a ++ take n b.
Proof. induction a as [| x a IH]; cbn [String.length Nat.add take append]; [reflexivity | now rewrite IH]. Qed.

(** A token followed by an underscore keeps both in the root. *)
Lemma splitext_root_token (token rest : string) :
  any_char (fun x => (x =? ".")%char) token = false ->
  exists rest', OsPath.splitext_root (token ++ "_" ++ rest) = token ++ "_" ++ rest'.
Proof.
  intros Hd.
  destruct (splitext_root_cut (token ++ "_" ++ rest)) as [-> | (dot & R & ->)];
    [now exists rest |].
  destruct (OsPath.rfind "." ("_" ++ rest)) as [i |] eqn:E.
  - rewrite (rfind_some_app _ token _ _ E) in R. injection R as <-.
    rewrite take_app_more.
    destruct i as [| i].
    + exfalso. cbn [append OsPath.rfind] in E.
      destruct (OsPath.rfind "." rest); discriminate.
    + exists (take i rest). reflexivity.
  - rewrite (rfind_none_app _ token _ E), (rfind_absent _ _ Hd) in R. discriminate.
Qed.

Lemma replace_underscore_token (token s : string) :
  any_char (fun x => (x =? "_")%char) token = false ->
  replace "_" " " (token ++ "_" ++ s) = token ++ " " ++ replace "_" " " s.
Proof.
  unfold replace. intros H. induction token as [| x token IH].
  - cbn [append replace_go]. rewrite prefix_single. reflexivity.
  - cbn [any_char] in H. apply orb_false_iff in H. destruct H as [H1 H2].
    cbn [append replace_go]. rewrite prefix_single.
    rewrite Ascii.eqb_sym, H1. cbn [append]. f_equal. now apply IH.
Qed.

Lemma split_go_token (token s cur : string) :
  any_char is_space token = false ->
  split_go cur (token ++ " " ++ s)
  = match cur ++ token with
    | "" => split_go "" s
    | first => first :: split_go "" s
    end.
Proof.
  revert cur. induction token as [| x token IH]; intros cur H.
  - cbn [append split_go]. change (is_space " ") with true. cbv iota.
    rewrite append_nil_r. now destruct cur.
  - cbn [any_char] in H. apply orb_false_iff in H. destruct H as [H1 H2].
    cbn [append split_go]. rewrite H1, (IH _ H2), append_assoc. reflexivity.
Qed.

(** The first token of a file name, up to its first underscore, is what
    is normalised. *)
Lemma first_token_rule (token rest : string) :
  token <> "" ->
  any_char (fun c => is_space c || (c =? "_")%char || (c =? ".")%char) token = false ->
  extract_amc_from_filename (token ++ "_" ++ rest) = normalize_amc token.
Proof.
  intros Hne H.
  assert (Hs : any_char is_space token = false
               /\ any_char (fun x => (x =? "_")%char) token = false
               /\ any_char (fun x => (x =? ".")%char) token = false).
  { clear Hne. induction token as [| x token IH]; [repeat split |].
    cbn [any_char] in *. apply orb_false_iff in H. destruct H as [H1 H2].
    apply orb_false_iff in H1. destruct H1 as [H1 H3].
    apply orb_false_iff in H1. destruct H1 as [H0 H1].
    destruct (IH H2) as (A & B & C). rewrite H0, H1, H3, A, B, C. repeat split. }
  destruct Hs as (S1 & S2 & S3).
  unfold extract_amc_from_filename.
  destruct (splitext_root_token token rest S3) as (rest' & ->).
  rewrite (replace_underscore_token _ _ S2). unfold split.
  rewrite (split_go_token _ _ "" S1). cbn [append].
  destruct token; [congruence | reflexivity].
Qed.

(** A token that names HDFC in any letter case gets the label "HDFC",
    unless it names Motilal Oswal, whose keys come first in the table. *)
Lemma hdfc_label (token : string) :
  token <> "" ->
  contains "hdfc" (strip (lower token)) = true ->
  contains "motilaloswal" (strip (lower token)) = false ->
  contains "motilal oswal" (strip (lower token)) = false ->
  normalize_amc token = "HDFC".
Proof.
  intros Hne H M1 M2. unfold normalize_amc.
  rewrite (truthy_nonempty _ Hne). cbn [negb].
  unfold AMC_MAPPINGS. cbn [find fst]. now rewrite M1, M2, H.
Qed.

(** C9.  The file name "HDFC_BlueChip_202412.pdf" gives the report date
    "2024-12-01", from the six digits before the extension, and the issuer
    "HDFC", from its first token passed through the normalisation of fund
    houses; the metadata and every record of the document carry them,
    whatever the document holds.  The date rule holds of every file name
    that ends with six digits and ".pdf".  The issuer rule holds of every
    file name that starts with a token and an underscore: the token is
    normalised, and a token that names HDFC in any letter case is given the
    canonical label, as in "hdfc_bluechip_202412.pdf". *)
Theorem hdfc_bluechip_filename (mapper : ISINMapper.t) (fs : filesystem)
        (now pdf_path : string) :
  let res := process_pdf mapper fs now pdf_path (Some "HDFC_BlueChip_202412.pdf") in
  extract_date_from_filename now "HDFC_BlueChip_202412.pdf" = "2024-12-01"
  /\ extract_amc_from_filename "HDFC_BlueChip_202412.pdf" = "HDFC"
  /\ split (replace "_" " " (OsPath.splitext_root "HDFC_BlueChip_202412.pdf"))
     = ["HDFC"; "BlueChip"; "202412"]
  /\ (exists md, res_metadata res = Some md
                 /\ date md = "2024-12-01" /\ amc md = "HDFC")
  /\ (forall r, In r (res_holdings res) -> r_date r = "2024-12-01" /\ r_amc r = "HDFC")
  /\ (forall stem d,
        six_digits d ->
        extract_date_from_filename now (stem ++ d ++ ".pdf")
        = take 4 d ++ "-" ++ take 2 (drop 4 d) ++ "-01")
  /\ extract_amc_from_filename "hdfc_bluechip_202412.pdf" = "HDFC"
  /\ (forall token rest,
        token <> "" -> is_ascii token = true ->
        any_char (fun c => is_space c || (c =? "_")%char || (c =? ".")%char) token
        = false ->
        extract_amc_from_filename (token ++ "_" ++ rest) = normalize_amc token)
  /\ (forall token,
        token <> "" -> is_ascii token = true ->
        contains "hdfc" (strip (lower token)) = true ->
        contains "motilaloswal" (strip (lower token)) = false ->
        contains "motilal oswal" (strip (lower token)) = false ->
        normalize_amc token = "HDFC").
Proof.
  cbv zeta.
  assert (Hd : extract_date_from_filename now "HDFC_BlueChip_202412.pdf" = "2024-12-01")
    by (vm_compute; reflexivity).
  assert (Ha : extract_amc_from_filename "HDFC_BlueChip_202412.pdf" = "HDFC")
    by (vm_compute; reflexivity).
  destruct (process_pdf_fields mapper fs now pdf_path "HDFC_BlueChip_202412.pdf")
    as (_ & _ & (md & Hmd & Hdate & Hamc & _) & Hh).
  rewrite Hd, Ha in *.
  split; [reflexivity |]. split; [reflexivity |]. split; [reflexivity |].
  split; [exists md; repeat split; auto; apply Hamc; discriminate |].
  split.
  { intros r H. rewrite Hh in H. apply in_map_iff in H.
    destruct H as (h & <- & _). split; reflexivity. }
  split; [intros stem d; apply yyyymm_rule |].
  split; [vm_compute; reflexivity |].
  split.
  - intros token rest Hne _ H. now apply first_token_rule.
  - intros token Hne _ H M1 M2. now apply hdfc_label.
Qed.

Lemma hdfc_bluechip_filename_witness :
  let res :=
    process_pdf Examples.mapper Examples.fs Examples.now
                "/in/HDFC_BlueChip_202412.pdf" (Some "HDFC_BlueChip_202412.pdf") in
  List.length (res_holdings res) = 5%nat
  /\ (forall r, In r (res_holdings res) -> r_date r = "2024-12-01" /\ r_amc r = "HDFC")
  /\ extract_amc_from_filename "Hdfc_MidCap_Opportunities.pdf" = normalize_amc "Hdfc"
  /\ normalize_amc "Hdfc" = "HDFC".
Proof.
  cbv zeta.
  destruct (hdfc_bluechip_filename Examples.mapper Examples.fs Examples.now
                                   "/in/HDFC_BlueChip_202412.pdf")
    as (_ & _ & _ & _ & R & _ & _ & T & L).
  split; [vm_compute; reflexivity |]. split; [exact R |]. split.
  - apply (T "Hdfc" "MidCap_Opportunities.pdf"); [discriminate | reflexivity | reflexivity].
  - apply (L "Hdfc"); [discriminate | reflexivity | reflexivity | reflexivity | reflexivity].
Defined.

(** * Further properties *)

(** ** The text fallback never raises *)

Lemma star_digits (total : nat) (s : string) (cs : captures) (s' : string) (cs' : captures) :
  matches_re total (Star (Chr is_digit)) s cs s' cs' ->
  exists pre, s = pre ++ s' /\ all_chars is_digit pre = true.
Proof.
  intros H. remember (Star (Chr is_digit)) as r eqn:R.
  induction H; try discriminate R.
  - now exists "".
  - injection R as ->. inv H.
    destruct (IHmatches_re2 eq_refl) as (pre & -> & D).
    exists (String c pre). split; [reflexivity |]. cbn [all_chars].
    match goal with Hd : is_digit c = true |- _ => now rewrite Hd end.
Qed.

Lemma lstrip_c_head (c : ascii) (s : string) :
  is_c_space c = false -> lstrip_c (String c s) = String c s.
Proof. intros H. cbn [lstrip_c]. now rewrite H. Qed.

Lemma rstrip_c_no_space (s : string) :
  any_char is_c_space s = false -> rstrip_c s = s.
Proof.
  induction s as [| c s IH]; [reflexivity |]. cbn [any_char].
  intros H. apply orb_false_iff in H. destruct H as [H1 H2].
  rewrite (rstrip_c_cons c s H1), IH by exact H2. reflexivity.
Qed.

Lemma underscores_ok_none (s : string) :
  any_char (Ascii.eqb "_") s = false -> forall b, underscores_ok b s = true.
Proof.
  induction s as [| c s IH]; [reflexivity |]. cbn [any_char underscores_ok].
  intros H b. apply orb_false_iff in H. destruct H as [H1 H2].
  replace (code c =? 95)%nat with false; [now apply IH |].
  symmetry. apply Nat.eqb_neq. intros E. apply Ascii.eqb_neq in H1. apply H1.
  rewrite <- (ascii_nat_embedding c). unfold code in E. now rewrite E.
Qed.

Lemma remove_chars_id (p : ascii -> bool) (s : string) :
  any_char p s = false -> remove_chars p s = s.
Proof.
  induction s as [| c s IH]; [reflexivity |]. cbn [any_char remove_chars].
  intros H. apply orb_false_iff in H. destruct H as [H1 H2].
  now rewrite H1, IH.
Qed.

Lemma any_char_app (p : ascii -> bool) (a b : string) :
  any_char p (a ++ b) = any_char p a || any_char p b.
Proof.
  induction a as [| c a IH]; [reflexivity |]. cbn [append any_char].
  now rewrite IH, orb_assoc.
Qed.

Lemma digits_any (p : ascii -> bool) (s : string) :
  (forall c, is_digit c = true -> p c = false) ->
  all_chars is_digit s = true -> any_char p s = false.
Proof.
  intros Hp. induction s as [| c s IH]; [reflexivity |]. cbn [all_chars any_char].
  intros H. apply andb_true_iff in H. destruct H as [H1 H2].
  now rewrite (Hp c H1), IH.
Qed.

Lemma digit_plain (c : ascii) :
  is_digit c = true -> is_c_space c = false /\ ("_" =? c)%char = false.
Proof.
  destruct c as [[] [] [] [] [] [] [] []]; vm_compute; intros H;
    try discriminate H; split; reflexivity.
Qed.

Lemma span_digits (a rest : string) :
  all_chars is_digit a = true ->
  match rest with String c _ => is_digit c = false | EmptyString => True end ->
  span is_digit (a ++ rest) = (a, rest).
Proof.
  intros Ha Hr. induction a as [| c a IH]; cbn [append].
  - destruct rest as [| c rest]; [reflexivity |]. cbn [span]. now rewrite Hr.
  - cbn [all_chars] in Ha. apply andb_true_iff in Ha. destruct Ha as [H1 H2].
    cbn [span]. now rewrite H1, (IH H2).
Qed.

(** [float] reads every text made of digits, a point and digits. *)
Lemma py_float_digits_point_digits (c : ascii) (a b : string) :
  is_digit c = true -> all_chars is_digit a = true ->
  all_chars is_digit b = true ->
  exists x, py_float (String c a ++ "." ++ b) = Some x.
Proof.
  intros Hc Ha Hb.
  assert (Hn : is_digit c || (c =? ".")%char = true) by now rewrite Hc.
  destruct (number_head c Hn) as (Hs & Hu & Ht & Hp).
  set (s := String c a ++ "." ++ b).
  assert (Sp : any_char is_c_space s = false).
  { unfold s. rewrite any_char_app. cbn [append any_char].
    rewrite Hs, (digits_any is_c_space a), (digits_any is_c_space b); auto;
      intros d Hd; apply (digit_plain d Hd). }
  assert (Us : any_char (Ascii.eqb "_") s = false).
  { unfold s. rewrite any_char_app. cbn [append any_char].
    rewrite (digits_any (Ascii.eqb "_") a), (digits_any (Ascii.eqb "_") b); auto;
      try (intros d Hd; apply (digit_plain d Hd)).
    rewrite (proj2 (digit_plain c Hc)). reflexivity. }
  unfold py_float.
  replace (lstrip_c s) with s by (unfold s; cbn [append]; now rewrite lstrip_c_head).
  rewrite (rstrip_c_no_space s Sp), (underscores_ok_none s Us).
  rewrite (replace_single "_" s), (remove_chars_id _ s Us).
  unfold parse_decimal, s. cbn [append]. rewrite Ht.
  unfold parse_unsigned.
  change (String c (a ++ String "." b)) with (String c a ++ String "." b).
  rewrite (span_digits (String c a) (String "." b));
    [| cbn [all_chars]; now rewrite Hc | reflexivity].
  pose proof (span_digits b "" Hb I) as Sb. rewrite append_nil_r in Sb.
  rewrite Sb. cbn [String.eqb andb]. eexists. reflexivity.
Qed.

(** The second group of a match of the text-fallback pattern is made of
    digits, a point and digits. *)
Lemma text_match_number_shape (total : nat) (s : string) (m : rmatch) :
  match_here re_text_holding total s = Some m ->
  exists c a b,
    group_or_empty 2 (m_groups m) = String c a ++ "." ++ b
    /\ is_digit c = true /\ all_chars is_digit a = true
    /\ all_chars is_digit b = true.
Proof.
  unfold match_here. intros H. apply run_sound in H.
  destruct H as (s' & cs' & M & [= <-]). cbn [m_groups].
  cbv [re_text_holding seq Plus digit chr] in M.
  inversion M as [| | r1 r2 s0 cs0 s1 c1 s2 c2 M1 M2 | | | | | | |]; subst; clear M M1.
  inversion M2 as [| | r1 r2 s0 cs0 s2 c2 s3 c3 M3 M4 | | | | | | |]; subst; clear M2 M3.
  inversion M4 as [| | | | | | | i r s0 cs0 s3 c3 M5 | |]; subst; clear M4.
  repeat match goal with
         | H : matches_re _ (Cat _ _) _ _ _ _ |- _ => inv H
         | H : matches_re _ (Chr _) _ _ _ _ |- _ => inv H
         end.
  repeat match goal with
         | H : matches_re _ (Star (Chr is_digit)) _ _ _ _ |- _ =>
             apply star_digits in H; destruct H as (? & ? & ?)
         end.
  subst.
  match goal with
  | Hd : ("." =? ?d)%char = true |- _ => apply Ascii.eqb_eq in Hd; subst d
  end.
  match goal with
  | |- context [take _ (String ?c (?a ++ String "." (String ?d (?b ++ ?t))))] =>
      exists c, a, (String d b);
      replace (String c (a ++ String "." (String d (b ++ t))))
        with ((String c a ++ "." ++ String d b) ++ t)
        by (cbn [append]; rewrite append_assoc; reflexivity);
      rewrite take_prefix
  end.
  cbn [all_chars]. repeat split; auto.
  repeat match goal with H : is_digit _ = true |- _ => rewrite H; clear H end.
  assumption.
Qed.

Lemma text_holdings_total (matches : list (string * string)) :
  (forall m, In m matches -> exists x, py_float (snd m) = Some x) ->
  exists holdings, text_holdings matches = Some holdings.
Proof.
  induction matches as [| m matches IH]; intros H; cbn [text_holdings]; [eauto |].
  destruct (H m (or_introl eq_refl)) as (x & ->).
  destruct IH as (hs & ->); [intros m' Hm; apply H; now right |].
  destruct (_ || _ || _); [eauto |]. destruct (existsb _ _); eauto.
Qed.

Lemma text_holdings_fields (matches : list (string * string)) :
  forall holdings h,
    text_holdings matches = Some holdings -> In h holdings ->
    (3 <= String.length (security h))%nat
    /\ isin h = "" /\ sector h = "Unknown"
    /\ market_value h = None /\ quantity h = None.
Proof.
  induction matches as [| m matches IH]; intros holdings h; cbn [text_holdings].
  - intros [= <-] [].
  - destruct (py_float (snd m)) as [pct |]; [| discriminate].
    destruct (text_holdings matches) as [hs |]; [| discriminate].
    destruct ((String.length (strip (fst m)) <? 3)%nat || fgt pct (of_Z 100)
              || fle pct zero) eqn:C.
    + intros [= <-]. now apply IH.
    + destruct (existsb _ skip_words).
      * intros [= <-]. now apply IH.
      * intros [= <-] [<- | Hh]; [| now apply (IH hs)].
        apply orb_false_iff in C. destruct C as [C _].
        apply orb_false_iff in C. destruct C as [C _].
        apply Nat.ltb_ge in C. cbn. auto.
Qed.

(** X1.  The text fallback never raises: the number of every match is read
    by [float], so [_process_tables] always returns.  Each holding of the
    fallback has a name of three characters or more that contains none of
    the noise words, a weight in (0, 100], no identifier, the sector
    "Unknown", and neither value nor quantity. *)
Theorem text_fallback_total (text : string) :
  (forall tables, exists holdings, _process_tables tables text = Some holdings)
  /\ exists holdings,
    _extract_holdings_from_text text = Some holdings
    /\ forall h, In h holdings ->
         (3 <= String.length (security h))%nat
         /\ (forall w, In w skip_words -> contains w (lower (security h)) = false)
         /\ fgt (pct_of_aum h) zero = true
         /\ fle (pct_of_aum h) (of_Z 100) = true
         /\ isin h = "" /\ sector h = "Unknown"
         /\ market_value h = None /\ quantity h = None.
Proof.
  destruct (text_holdings_total (map groups2 (findall re_text_holding text)))
    as (hs & E).
  { intros m Hm. apply in_map_iff in Hm. destruct Hm as (cs & <- & Hcs).
    unfold findall in Hcs. apply findall_go_inv in Hcs.
    destruct Hcs as (s0 & mt & Hmt & <-).
    cbn [groups2 snd].
    destruct (text_match_number_shape _ _ _ Hmt) as (c & a & b & G & Hc & Ha & Hb).
    rewrite G. now apply py_float_digits_point_digits. }
  split.
  { intros tables. unfold _process_tables. destruct (is_empty _); eauto. }
  exists hs. split; [exact E |]. intros h Hh.
  destruct (text_holdings_fields _ _ _ E Hh) as (L & I1 & I2 & I3 & I4).
  destruct (text_fallback_weight text hs h E Hh) as (W1 & W2).
  destruct (text_holdings_inv _ _ _ E Hh) as (m & pct & _ & Hs & _ & _ & _ & _ & S).
  repeat split; auto.
  intros w Hw. rewrite Hs. exact (existsb_false _ _ _ S w Hw).
Qed.

Lemma text_fallback_total_witness :
  exists h,
    _extract_holdings_from_text "Reliance Industries Ltd 8.5" = Some [h]
    /\ security h = "Reliance Industries Ltd"
    /\ pct_of_aum h = decimal 85 (-1)
    /\ fgt (pct_of_aum h) zero = true
    /\ fle (pct_of_aum h) (of_Z 100) = true.
Proof.
  destruct (text_fallback_total "Reliance Industries Ltd 8.5") as (_ & hs & E & P).
  assert (E' : _extract_holdings_from_text "Reliance Industries Ltd 8.5"
               = Some [ {| security := "Reliance Industries Ltd"; isin := "";
                           sector := "Unknown"; pct_of_aum := decimal 85 (-1);
                           market_value := None; quantity := None |} ])
    by (vm_compute; reflexivity).
  rewrite E' in E. injection E as <-.
  eexists. split; [exact E' |]. split; [reflexivity |]. split; [reflexivity |].
  destruct (P _ (or_introl eq_refl)) as (_ & _ & G & L & _).
  split; [exact G | exact L].
Defined.

(** ** Text metadata *)

(** X2.  A total of managed assets read from the text lies between 10 and
    1,000,000 crore: a figure outside that range is passed over, and the
    next pattern tried. *)
Theorem aum_in_range (text : string) (aum : pyfloat) :
  extract_aum_from_text text = Some aum ->
  fle (of_Z 10) aum = true /\ fle aum (of_Z 1000000) = true
  /\ PyFloat.truthy aum = true.
Proof.
  unfold extract_aum_from_text. intros H.
  destruct (first_some_inv _ _ _ _ _ H) as (pattern & _ & Hp).
  unfold aum_of in Hp.
  destruct (search pattern text); [| discriminate].
  destruct (py_float _) as [a |]; [| discriminate].
  destruct (fle (of_Z 10) a && fle a (of_Z 1000000)) eqn:R; [| discriminate].
  injection Hp as <-. apply andb_true_iff in R. destruct R as [R1 R2].
  repeat split; auto. now apply ten_le_truthy.
Qed.

Lemma aum_in_range_witness :
  extract_aum_from_text "AUM 5 Cr; Net Assets: 1,23,456.5 Crores"
  = Some (decimal 1234565 (-1))
  /\ fle (of_Z 10) (decimal 1234565 (-1)) = true
  /\ fle (decimal 1234565 (-1)) (of_Z 1000000) = true.
Proof.
  assert (H : extract_aum_from_text "AUM 5 Cr; Net Assets: 1,23,456.5 Crores"
              = Some (decimal 1234565 (-1))) by (vm_compute; reflexivity).
  destruct (aum_in_range _ _ H) as (A & B & _).
  split; [exact H |]. split; [exact A | exact B].
Defined.

(** X3.  The fund name read from the text is never short or unrelated: it
    has more than ten characters and contains "fund" in some letter case,
    the default "Unknown Fund" included. *)
Theorem fund_name_shape (text : string) :
  (10 < String.length (extract_fund_name_from_text text))%nat
  /\ contains "fund" (lower (extract_fund_name_from_text text)) = true.
Proof.
  unfold extract_fund_name_from_text.
  destruct (first_some (fund_name_of text) [re_fund_capped; re_fund_any])
    as [name |] eqn:E; [| split; [cbn; lia | reflexivity]].
  destruct (first_some_inv _ _ _ _ _ E) as (pattern & _ & Hp).
  unfold fund_name_of in Hp.
  destruct (search pattern text) as [m |]; [| discriminate].
  destruct ((10 <? String.length _)%nat && contains "fund" _) eqn:C; [| discriminate].
  injection Hp as <-. apply andb_true_iff in C. destruct C as [C1 C2].
  split; [now apply Nat.ltb_lt | exact C2].
Qed.

(** ** The sector allocation of a document *)

Lemma get_set_same (V : Type) (k : string) (v : V) (d : Dict.dict V) :
  Dict.get k (Dict.set k v d) = Some v.
Proof.
  induction d as [| [k0 v0] d IH]; cbn [Dict.set Dict.get].
  - now rewrite String.eqb_refl.
  - destruct (k0 =? k) eqn:E; cbn [Dict.get]; now rewrite E.
Qed.

Lemma get_none_not_in (V : Type) (k : string) (d : Dict.dict V) :
  Dict.get k d = None -> ~ In k (map fst d).
Proof.
  intros H Hin. apply in_map_iff in Hin. destruct Hin as (e & <- & He).
  exact (get_none_keys _ _ _ H e He eq_refl).
Qed.

(** A new key goes last. *)
Lemma set_new (V : Type) (k : string) (v : V) (d : Dict.dict V) :
  Dict.get k d = None -> Dict.set k v d = (d ++ [(k, v)])%list.
Proof.
  induction d as [| [k0 v0] d IH]; cbn [Dict.set Dict.get app]; [reflexivity |].
  destruct (k0 =? k); [discriminate |]. intros H. now rewrite IH.
Qed.

Lemma mem_false_get (V : Type) (k : string) (d : Dict.dict V) :
  Dict.mem k d = false -> Dict.get k d = None.
Proof. unfold Dict.mem. now destruct (Dict.get k d). Qed.

Lemma allocation_loop_keeps (P : string * pyfloat -> Prop)
      (matches : list (string * string)) :
  (forall sector pct, fgt pct zero = true -> fle pct (of_Z 100) = true ->
                      P (sector, pct)) ->
  forall acc,
    NoDup (map fst acc) -> (forall e, In e acc -> P e) ->
    NoDup (map fst (allocation_loop matches acc))
    /\ forall e, In e (allocation_loop matches acc) -> P e.
Proof.
  intros HP. induction matches as [| m matches IH]; intros acc N A;
    cbn [allocation_loop]; [auto |].
  destruct (py_float (snd m)) as [pct |]; [| auto].
  destruct ((3 <? String.length (strip (fst m)))%nat && fgt pct zero
            && fle pct (of_Z 100)) eqn:C; [| now apply IH].
  destruct (negb (Dict.mem (normalize_sector (strip (fst m))) acc)) eqn:M;
    [| now apply IH].
  apply negb_true_iff, mem_false_get in M.
  apply andb_true_iff in C. destruct C as [C C3].
  apply andb_true_iff in C. destruct C as [_ C2].
  apply IH; rewrite (set_new _ _ _ _ M).
  - rewrite map_app. cbn [map fst].
    apply NoDup_app; auto.
    + constructor; [intros [] | constructor].
    + intros x Hx [<- | []]. exact (get_none_not_in _ _ _ M Hx).
  - intros e He. apply in_app_or in He. destruct He as [He | [<- | []]]; auto.
Qed.

(** X4.  The sector allocation of a document has no sector twice, and
    every percentage in it lies in (0, 100]; a document that cannot be
    opened has the empty allocation. *)
Theorem sector_allocation_sound (fs : filesystem) (pdf_path : string) :
  NoDup (map fst (extract_sector_allocation fs pdf_path))
  /\ (forall sector pct,
        In (sector, pct) (extract_sector_allocation fs pdf_path) ->
        fgt pct zero = true /\ fle pct (of_Z 100) = true)
  /\ (fs pdf_path = None -> extract_sector_allocation fs pdf_path = []).
Proof.
  unfold extract_sector_allocation.
  destruct (fs pdf_path) as [pages |].
  - match goal with
    | |- context [allocation_loop ?ms []] =>
        destruct (allocation_loop_keeps
                    (fun e => fgt (snd e) zero = true /\ fle (snd e) (of_Z 100) = true)
                    ms (fun _ _ A B => conj A B) [] (NoDup_nil _)
                    (fun e (H : In e []) => match H with end)) as (N & A)
    end.
    split; [exact N |]. split; [| discriminate].
    intros sec pct H. exact (A (sec, pct) H).
  - split; [constructor |]. split; [intros sec pct [] | reflexivity].
Qed.

Lemma sector_allocation_sound_witness :
  let doc : filesystem :=
    fun _ => Some [ {| extract_text := Some "Banking 25.5% Pharma 10% Banks 3%";
                       extract_tables := [] |} ] in
  extract_sector_allocation doc "factsheet.pdf"
  = [("Banking", decimal 255 (-1)); ("Pharmaceuticals", of_Z 10)]
  /\ fgt (decimal 255 (-1)) zero = true /\ fle (decimal 255 (-1)) (of_Z 100) = true.
Proof.
  cbv zeta.
  set (doc := fun _ : string =>
                Some [ {| extract_text := Some "Banking 25.5% Pharma 10% Banks 3%";
                          extract_tables := [] |} ]).
  assert (E : extract_sector_allocation doc "factsheet.pdf"
              = [("Banking", decimal 255 (-1)); ("Pharmaceuticals", of_Z 10)])
    by (vm_compute; reflexivity).
  split; [exact E |].
  destruct (sector_allocation_sound doc "factsheet.pdf") as (_ & A & _).
  apply (A "Banking" (decimal 255 (-1))). rewrite E. now left.
Defined.

(** ** Loading the reference file and looking names up *)

Lemma load_row_accepts (self : ISINMapper.t) (name isin : string) :
  strip name <> "" -> startswith "INE" (strip isin) = true ->
  ISINMapper.load_row self (name, isin)
  = {| ISINMapper.isin_map :=
         Dict.set (ISINMapper._normalize_name (strip name)) (strip isin)
                  (ISINMapper.isin_map self);
       ISINMapper.company_names := ISINMapper.company_names self ++ [strip name] |}.
Proof.
  intros Hn Hi. unfold ISINMapper.load_row. cbn [fst snd].
  rewrite (truthy_nonempty _ Hn), Hi.
  destruct (strip isin); [discriminate | reflexivity].
Qed.

Lemma load_row_other (self : ISINMapper.t) (r : string * string) (key : string) :
  ISINMapper._normalize_name (strip (fst r)) <> key ->
  Dict.get key (ISINMapper.isin_map (ISINMapper.load_row self r))
  = Dict.get key (ISINMapper.isin_map self).
Proof.
  intros H. unfold ISINMapper.load_row.
  destruct (PyStr.truthy (strip (fst r)) && PyStr.truthy (strip (snd r))
            && startswith "INE" (strip (snd r))); [| reflexivity].
  cbn [ISINMapper.isin_map]. now apply get_set_other.
Qed.

Lemma load_rows_other (rows : ISINMapper.csv_rows) (key : string) :
  (forall r, In r rows -> ISINMapper._normalize_name (strip (fst r)) <> key) ->
  forall self,
    Dict.get key (ISINMapper.isin_map (ISINMapper._load_csv self rows))
    = Dict.get key (ISINMapper.isin_map self).
Proof.
  unfold ISINMapper._load_csv.
  induction rows as [| r rows IH]; intros H self; cbn [fold_left]; [reflexivity |].
  rewrite IH by (intros r' Hr'; apply H; now right).
  apply load_row_other. apply H. now left.
Qed.

(** X5.  Loading and looking up round-trip: after the reference file is
    loaded, a name with the normal form of an accepted row (non-empty name,
    code starting with "INE") resolves to the stripped code of that row,
    provided no later row has the same normal form; whatever the catalog
    held under that key before, built-in entries included, is overridden,
    and no similarity is computed. *)
Theorem loaded_row_resolves (self : ISINMapper.t) (before after : ISINMapper.csv_rows)
        (name isin company_name : string) (threshold : pyfloat) :
  strip name <> "" ->
  startswith "INE" (strip isin) = true ->
  (forall r, In r after ->
             ISINMapper._normalize_name (strip (fst r))
             <> ISINMapper._normalize_name (strip name)) ->
  company_name <> "" ->
  ISINMapper._normalize_name company_name = ISINMapper._normalize_name (strip name) ->
  ISINMapper.get_isin
    (ISINMapper._load_csv self (before ++ (name, isin) :: after)%list)
    company_name threshold
  = Some (strip isin).
Proof.
  intros Hn Hi Hafter Hc Hk. unfold ISINMapper.get_isin.
  rewrite (truthy_nonempty _ Hc). cbn [negb]. rewrite Hk.
  unfold ISINMapper._load_csv. rewrite fold_left_app. cbn [fold_left].
  fold (ISINMapper._load_csv self before).
  fold (ISINMapper._load_csv
          (ISINMapper.load_row (ISINMapper._load_csv self before) (name, isin)) after).
  rewrite (load_rows_other after _ Hafter).
  rewrite (load_row_accepts _ _ _ Hn Hi). cbn [ISINMapper.isin_map].
  now rewrite get_set_same.
Qed.

Lemma loaded_row_resolves_witness :
  ISINMapper.get_isin
    (ISINMapper.init
       (Some [("Reliance Industries", "INE000000001");
              (" HDFC Bank Limited ", " INE123456789 ");
              ("Infosys", "INE009A01021")]))
    "HDFC BANK LTD" (of_Z 2)
  = Some "INE123456789".
Proof.
  exact (loaded_row_resolves
           {| ISINMapper.isin_map := ISINMapper.BUILTIN_ISIN_DB;
              ISINMapper.company_names := [] |}
           [("Reliance Industries", "INE000000001")]
           [("Infosys", "INE009A01021")]
           " HDFC Bank Limited " " INE123456789 " "HDFC BANK LTD" (of_Z 2)
           ltac:(vm_compute; discriminate)
           ltac:(vm_compute; reflexivity)
           ltac:(intros r [<- | []]; vm_compute; discriminate)
           ltac:(discriminate)
           ltac:(vm_compute; reflexivity)).
Defined.

(** A lookup returns the sentinel or a code stored in the catalog. *)
Lemma get_isin_in (self : ISINMapper.t) (company_name : string)
      (threshold : pyfloat) (code : string) :
  ISINMapper.get_isin self company_name threshold = Some code ->
  code = "-" \/ exists key, In (key, code) (ISINMapper.isin_map self).
Proof.
  unfold ISINMapper.get_isin.
  destruct (negb (PyStr.truthy company_name)); [intros [= <-]; now left |].
  destruct (Dict.get _ _) as [c |] eqn:G.
  - intros [= <-]. right.
    destruct (get_some_in _ _ _ _ G) as ([k v] & Hin & Hv). cbn in Hv. subst v.
    now exists k.
  - rewrite (fold_left_ext _ _ _ _ (ISINMapper.isin_map self)
               (fuzzy_step_best_step (ISINMapper._normalize_name company_name))).
    set (sc := fun e : string * string =>
                 Spec.score (ISINMapper._normalize_name company_name) (fst e)).
    assert (Hsc : forall e, sc e <> F_nan) by (intros e; apply score_not_nan).
    assert (Hz : snd (@None string, of_Z 0) <> F_nan) by apply rnd_not_nan.
    destruct (fold_best_first _ sc snd Hsc (ISINMapper.isin_map self) _ Hz)
      as [[E F] | (l1 & a & l2 & El & E & _)]; rewrite E.
    + destruct (fge (of_Z 0) threshold); [discriminate | intros [= <-]; now left].
    + destruct (fge (sc a) threshold); [| intros [= <-]; now left].
      intros [= <-]. right. exists (fst a). rewrite El.
      apply in_or_app. right. left. now destruct a.
Qed.

(** Every code of the catalog built by [__init__] starts with "INE". *)
Lemma init_codes (csv : option ISINMapper.csv_rows) (e : string * string) :
  In e (ISINMapper.isin_map (ISINMapper.init csv)) -> startswith "INE" (snd e) = true.
Proof.
  assert (B : forall e, In e ISINMapper.BUILTIN_ISIN_DB -> startswith "INE" (snd e) = true).
  { apply forallb_forall. vm_compute. reflexivity. }
  unfold ISINMapper.init. destruct csv as [rows |]; [| apply B].
  unfold ISINMapper._load_csv.
  set (self0 := {| ISINMapper.isin_map := ISINMapper.BUILTIN_ISIN_DB;
                   ISINMapper.company_names := [] |}).
  assert (B0 : forall e, In e (ISINMapper.isin_map self0) -> startswith "INE" (snd e) = true)
    by exact B.
  clearbody self0. revert self0 B0 e.
  induction rows as [| r rows IH]; intros self Hs; cbn [fold_left]; [exact Hs |].
  apply IH. intros e. unfold ISINMapper.load_row.
  destruct (PyStr.truthy (strip (fst r)) && PyStr.truthy (strip (snd r))
            && startswith "INE" (strip (snd r))) eqn:G; [| apply Hs].
  cbn [ISINMapper.isin_map]. intros He.
  destruct (set_in _ _ _ _ _ He) as [H | ->]; [now apply Hs |].
  apply andb_true_iff in G. apply G.
Qed.

(** X6.  What the pipeline's lookup can return: with the built-in catalog,
    extended or not by a reference file, a name resolves either to the
    sentinel "-" or to a code that is stored in the catalog and starts
    with "INE"; nothing else is ever returned. *)
Theorem lookup_code_or_sentinel (csv : option ISINMapper.csv_rows) (company_name : string) :
  ISINMapper.get_isin_default (ISINMapper.init csv) company_name = "-"
  \/ (startswith "INE" (ISINMapper.get_isin_default (ISINMapper.init csv) company_name)
      = true
      /\ exists key,
          In (key, ISINMapper.get_isin_default (ISINMapper.init csv) company_name)
             (ISINMapper.isin_map (ISINMapper.init csv))).
Proof.
  destruct (get_isin_in _ _ _ _ (get_isin_default_eq (ISINMapper.init csv) company_name))
    as [H | (key & H)]; [now left | right].
  split; [exact (init_codes csv _ H) | now exists key].
Qed.

(** ** The normal form of a company name *)

Lemma all_chars_impl (p q : ascii -> bool) (s : string) :
  (forall c, p c = true -> q c = true) ->
  all_chars p s = true -> all_chars q s = true.
Proof.
  intros H. induction s as [| c s IH]; [reflexivity |]. cbn [all_chars].
  intros A. apply andb_true_iff in A. destruct A as [A1 A2].
  now rewrite (H _ A1), IH.
Qed.

Lemma all_chars_lstrip (p : ascii -> bool) (s : string) :
  all_chars p s = true -> all_chars p (lstrip s) = true.
Proof.
  induction s as [| c s IH]; [reflexivity |]. cbn [lstrip].
  destruct (is_space c); [| auto]. cbn [all_chars]. intros A.
  apply andb_true_iff in A. now apply IH.
Qed.

Lemma all_chars_rstrip (p : ascii -> bool) (s : string) :
  all_chars p s = true -> all_chars p (rstrip s) = true.
Proof.
  induction s as [| c s IH]; [reflexivity |]. cbn [rstrip all_chars].
  intros A. apply andb_true_iff in A. destruct A as [A1 A2]. specialize (IH A2).
  destruct (rstrip s) as [| y r].
  - destruct (is_space c); [reflexivity |]. cbn [all_chars]. now rewrite A1.
  - cbn [all_chars] in *. now rewrite A1, IH.
Qed.

Lemma all_chars_strip (p : ascii -> bool) (s : string) :
  all_chars p s = true -> all_chars p (strip s) = true.
Proof. intros H. now apply all_chars_rstrip, all_chars_lstrip. Qed.

Lemma all_chars_take (p : ascii -> bool) (n : nat) (s : string) :
  all_chars p s = true -> all_chars p (take n s) = true.
Proof.
  revert n. induction s as [| c s IH]; intros [| n]; try reflexivity.
  cbn [take all_chars]. intros A. apply andb_true_iff in A. destruct A as [A1 A2].
  now rewrite A1, IH.
Qed.

Lemma lower_char_not_upper (c : ascii) : is_upper (lower_char c) = false.
Proof. destruct c as [[] [] [] [] [] [] [] []]; reflexivity. Qed.

Lemma all_chars_lower (s : string) :
  all_chars (fun c => negb (is_upper c)) (lower s) = true.
Proof.
  induction s as [| c s IH]; [reflexivity |].
  cbn [lower map_chars all_chars]. fold (lower s).
  now rewrite lower_char_not_upper, IH.
Qed.

Lemma all_chars_remove (p q : ascii -> bool) (s : string) :
  all_chars p s = true ->
  all_chars (fun c => p c && negb (q c)) (remove_chars q s) = true.
Proof.
  induction s as [| c s IH]; [reflexivity |]. cbn [remove_chars all_chars].
  intros A. apply andb_true_iff in A. destruct A as [A1 A2].
  destruct (q c) eqn:Q; [auto |]. cbn [all_chars]. now rewrite A1, Q, IH.
Qed.

Lemma all_chars_collapse (p q : ascii -> bool) (s : string) :
  (forall c, p c = true -> is_space c = false -> q c = true) ->
  q " "%char = true ->
  all_chars p s = true ->
  forall in_run, all_chars q (collapse_go in_run s) = true.
Proof.
  intros H Hb. induction s as [| c s IH]; [reflexivity |]. cbn [collapse_go all_chars].
  intros A in_run. apply andb_true_iff in A. destruct A as [A1 A2].
  destruct (is_space c) eqn:E.
  - destruct in_run; [now apply IH |]. cbn [all_chars]. now rewrite Hb, IH.
  - cbn [all_chars]. now rewrite (H _ A1 E), IH.
Qed.

Lemma strip_suffixes_keeps (p : ascii -> bool) (l : list string) :
  forall name,
    all_chars p name = true ->
    all_chars p
      (fold_left
         (fun name suffix =>
            if endswith suffix name then drop_last (String.length suffix) name else name)
         l name) = true.
Proof.
  induction l as [| suffix l IH]; intros name A; cbn [fold_left]; [exact A |].
  apply IH. destruct (endswith suffix name); [| exact A].
  now apply all_chars_take.
Qed.

(** Stripping twice is stripping once. *)
Lemma lstrip_head (s : string) :
  lstrip s = "" \/ exists c t, lstrip s = String c t /\ is_space c = false.
Proof.
  induction s as [| c s IH]; [now left |]. cbn [lstrip].
  destruct (is_space c) eqn:E; [exact IH |]. right. now exists c, s.
Qed.

Lemma rstrip_cons (c : ascii) (t : string) :
  is_space c = false -> rstrip (String c t) = String c (rstrip t).
Proof. intros E. cbn [rstrip]. rewrite E. now destruct (rstrip t). Qed.

Lemma rstrip_idem (s : string) : rstrip (rstrip s) = rstrip s.
Proof.
  induction s as [| c s IH]; [reflexivity |]. cbn [rstrip].
  destruct (rstrip s) as [| y r] eqn:R.
  - destruct (is_space c) eqn:E; [reflexivity |]. cbn [rstrip]. now rewrite E.
  - change (rstrip (String c (String y r)))
      with (match rstrip (String y r) with
            | "" => if is_space c then "" else String c ""
            | String a b => String c (String a b)
            end).
    now rewrite IH.
Qed.

Lemma strip_idem (s : string) : strip (strip s) = strip s.
Proof.
  unfold strip. destruct (lstrip_head s) as [-> | (c & t & -> & E)]; [reflexivity |].
  rewrite (rstrip_cons _ _ E). cbn [lstrip]. rewrite E.
  rewrite <- (rstrip_cons _ _ E). apply rstrip_idem.
Qed.

(** What contains a text still contains it after more is appended, and a
    stripped text is contained in the text it comes from. *)
Lemma prefix_app (sub a t : string) :
  prefix sub a = true -> prefix sub (a ++ t) = true.
Proof.
  revert a. induction sub as [| x sub IH]; intros a.
  - intros _. now destruct (a ++ t).
  - destruct a as [| y a]; cbn [prefix append]; [discriminate |].
    destruct (ascii_dec x y); [apply IH | discriminate].
Qed.

Lemma contains_app_l (sub a t : string) :
  contains sub a = true -> contains sub (a ++ t) = true.
Proof.
  induction a as [| y a IH]; cbn [contains append].
  - rewrite orb_false_r. intros H. destruct sub; [| discriminate].
    apply contains_empty.
  - intros H. apply orb_true_iff in H. destruct H as [H | H].
    + change (String y (a ++ t)) with (String y a ++ t).
      rewrite (prefix_app _ _ _ H). reflexivity.
    + rewrite (IH H). apply orb_true_r.
Qed.

Lemma rstrip_prefix (s : string) : exists t, s = rstrip s ++ t.
Proof.
  induction s as [| c s (t & IH)]; [now exists "" |]. cbn [rstrip].
  destruct (rstrip s) as [| y r].
  - destruct (is_space c).
    + now exists (String c s).
    + exists t. cbn [append] in *. now rewrite <- IH.
  - exists t. cbn [append] in *. now rewrite <- IH.
Qed.

Lemma contains_lstrip (sub s : string) :
  contains sub (lstrip s) = true -> contains sub s = true.
Proof.
  induction s as [| c s IH]; [auto |]. cbn [lstrip].
  destruct (is_space c); [| auto]. intros H. cbn [contains].
  rewrite (IH H). apply orb_true_r.
Qed.

Lemma contains_strip (sub s : string) :
  contains sub s = false -> contains sub (strip s) = false.
Proof.
  intros H. apply not_true_is_false. intros C. unfold strip in C.
  destruct (rstrip_prefix (lstrip s)) as (t & E).
  apply (contains_app_l _ _ t) in C. rewrite <- E in C.
  apply contains_lstrip in C. congruence.
Qed.

(** After a run of blanks has begun, what follows does not start with a
    blank; so the collapsed text has no two blanks in a row. *)
Lemma collapse_run_head (s : string) : prefix " " (collapse_go true s) = false.
Proof.
  induction s as [| c s IH]; [reflexivity |]. cbn [collapse_go].
  destruct (is_space c) eqn:E; [exact IH |].
  rewrite prefix_single. apply Ascii.eqb_neq. intros <-. discriminate.
Qed.

Lemma collapse_no_double (s : string) :
  forall in_run, contains "  " (collapse_go in_run s) = false.
Proof.
  induction s as [| c s IH]; intros in_run; [reflexivity |]. cbn [collapse_go].
  destruct (is_space c) eqn:E.
  - destruct in_run; [apply IH |].
    cbn [contains]. rewrite IH, orb_false_r.
    change (prefix "  " (String " " (collapse_go true s)))
      with (prefix " " (collapse_go true s)).
    apply collapse_run_head.
  - cbn [contains]. rewrite IH, orb_false_r.
    cbn [prefix]. destruct (ascii_dec " " c) as [<- | N]; [discriminate | reflexivity].
Qed.

(** X7.  The normal form of an ASCII company name, the key of the
    catalog: every character of it is a lower-case letter, a digit, an
    underscore or a blank; it neither starts nor ends with a blank
    (stripping it changes nothing) and has no two blanks in a row. *)
Theorem normalize_name_shape (name : string) :
  is_ascii name = true ->
  all_chars normal_char (ISINMapper._normalize_name name) = true
  /\ strip (ISINMapper._normalize_name name) = ISINMapper._normalize_name name
  /\ contains "  " (ISINMapper._normalize_name name) = false.
Proof.
  intros _. unfold ISINMapper._normalize_name. repeat split.
  - apply all_chars_strip. unfold collapse_spaces.
    eapply all_chars_collapse; [| reflexivity |].
    2:{ apply all_chars_remove. apply strip_suffixes_keeps.
        apply all_chars_strip. apply all_chars_lower. }
    intros c H E. cbn beta in H. unfold normal_char. rewrite E in H.
    rewrite orb_false_r, negb_involutive in H.
    apply andb_true_iff in H. destruct H as [H1 H2]. now rewrite H1, H2.
  - apply strip_idem.
  - apply contains_strip. apply collapse_no_double.
Qed.

Lemma normalize_name_shape_witness :
  ISINMapper._normalize_name "  Larsen & Toubro   (India) Ltd. " = "larsen toubro"
  /\ all_chars normal_char
               (ISINMapper._normalize_name "  Larsen & Toubro   (India) Ltd. ") = true
  /\ contains "  " (ISINMapper._normalize_name "  Larsen & Toubro   (India) Ltd. ")
     = false.
Proof.
  destruct (normalize_name_shape "  Larsen & Toubro   (India) Ltd. " eq_refl)
    as (A & _ & B).
  split; [vm_compute; reflexivity |]. split; [exact A | exact B].
Defined.

(** ** Normalised sector and fund-house names are fixed points *)

Lemma lower_upper_char (c : ascii) : lower_char (upper_char c) = lower_char c.
Proof. destruct c as [[] [] [] [] [] [] [] []]; reflexivity. Qed.

Lemma lower_lower_char (c : ascii) : lower_char (lower_char c) = lower_char c.
Proof. destruct c as [[] [] [] [] [] [] [] []]; reflexivity. Qed.

Lemma upper_upper_char (c : ascii) : upper_char (upper_char c) = upper_char c.
Proof. destruct c as [[] [] [] [] [] [] [] []]; reflexivity. Qed.

Lemma is_alpha_lower_char (c : ascii) : is_alpha (lower_char c) = is_alpha c.
Proof. destruct c as [[] [] [] [] [] [] [] []]; reflexivity. Qed.

Lemma is_alpha_upper_char (c : ascii) : is_alpha (upper_char c) = is_alpha c.
Proof. destruct c as [[] [] [] [] [] [] [] []]; reflexivity. Qed.

Lemma lower_char_not_alpha (c : ascii) : is_alpha c = false -> lower_char c = c.
Proof. destruct c as [[] [] [] [] [] [] [] []]; (reflexivity || discriminate). Qed.

(** Title-casing changes the case of letters only. *)
Lemma lower_title_go (s : string) :
  forall prev_cased, lower (title_go prev_cased s) = lower s.
Proof.
  induction s as [| c s IH]; intros prev_cased; [reflexivity |].
  cbn [title_go]. destruct (is_alpha c); cbn [lower map_chars];
    fold (lower (title_go true s)); fold (lower (title_go false s)); fold (lower s);
    rewrite IH; [| reflexivity].
  destruct prev_cased; now rewrite ?lower_lower_char, ?lower_upper_char.
Qed.

Lemma title_go_idem (s : string) :
  forall prev_cased, title_go prev_cased (title_go prev_cased s) = title_go prev_cased s.
Proof.
  induction s as [| c s IH]; intros prev_cased; [reflexivity |].
  cbn [title_go]. destruct (is_alpha c) eqn:E; cbn [title_go].
  - destruct prev_cased.
    + now rewrite is_alpha_lower_char, E, lower_lower_char, IH.
    + now rewrite is_alpha_upper_char, E, upper_upper_char, IH.
  - now rewrite E, IH.
Qed.

Lemma title_truthy (s : string) : PyStr.truthy (title s) = PyStr.truthy s.
Proof. destruct s as [| c s]; [reflexivity |]. unfold title. cbn [title_go]. now destruct (is_alpha c). Qed.

(** On ASCII texts the two normalisers are idempotent. *)
Lemma normalize_sector_idem (sector : string) :
  is_ascii sector = true ->
  normalize_sector (normalize_sector sector) = normalize_sector sector.
Proof.
  intros _.
  assert (T : forallb (fun kv => normalize_sector (snd kv) =? snd kv) SECTOR_MAPPINGS
              = true) by (vm_compute; reflexivity).
  rewrite forallb_forall in T.
  unfold normalize_sector at 2 3.
  destruct (negb (PyStr.truthy sector)) eqn:E; [reflexivity |].
  destruct (Dict.get (strip (lower sector)) SECTOR_MAPPINGS) as [v |] eqn:G.
  - destruct (get_some_in _ _ _ _ G) as (e & He & <-).
    apply String.eqb_eq. exact (T e He).
  - unfold normalize_sector. rewrite title_truthy, E.
    unfold title at 1. rewrite lower_title_go, G.
    apply title_go_idem.
Qed.

Lemma normalize_amc_idem (amc : string) :
  is_ascii amc = true ->
  normalize_amc (normalize_amc amc) = normalize_amc amc.
Proof.
  intros _.
  assert (T : forallb (fun kv => normalize_amc (snd kv) =? snd kv) AMC_MAPPINGS = true)
    by (vm_compute; reflexivity).
  rewrite forallb_forall in T.
  unfold normalize_amc at 2 3.
  destruct (negb (PyStr.truthy amc)) eqn:E; [reflexivity |].
  destruct (find _ AMC_MAPPINGS) as [[k v] |] eqn:F.
  - apply find_some in F. destruct F as [He _].
    apply String.eqb_eq. exact (T _ He).
  - unfold normalize_amc. rewrite title_truthy, E.
    unfold title at 1. rewrite lower_title_go, F.
    apply title_go_idem.
Qed.

(** X8.  On ASCII names normalising is idempotent: a normalised sector
    name normalises to itself, and so does a normalised fund-house name;
    the values of the two tables and the default "Unknown" are fixed
    points. *)
Theorem normalize_idempotent :
  (forall sector,
     is_ascii sector = true ->
     normalize_sector (normalize_sector sector) = normalize_sector sector)
  /\ (forall amc,
        is_ascii amc = true ->
        normalize_amc (normalize_amc amc) = normalize_amc amc).
Proof. split; [exact normalize_sector_idem | exact normalize_amc_idem]. Qed.

Lemma normalize_idempotent_witness :
  normalize_sector " it - SOFTWARE " = "Information Technology"
  /\ normalize_sector (normalize_sector " it - SOFTWARE ")
     = normalize_sector " it - SOFTWARE "
  /\ normalize_amc "icici prudential amc" = "ICICI Prudential"
  /\ normalize_amc (normalize_amc "icici prudential amc")
     = normalize_amc "icici prudential amc".
Proof.
  destruct normalize_idempotent as (S & A).
  split; [vm_compute; reflexivity |].
  split; [exact (S " it - SOFTWARE " eq_refl) |].
  split; [vm_compute; reflexivity |].
  exact (A "icici prudential amc" eq_refl).
Defined.

(** ** Batches compose *)

(** A batch, field by field: what each document gives, in order. *)
Lemma batch_fold_all (mapper : ISINMapper.t) (fs : filesystem) (now : string)
      (files : list (string * string)) :
  forall acc,
    fold_left (batch_step mapper fs now) files acc
    = {| all_holdings :=
           all_holdings acc
           ++ flat_map (fun f => res_holdings (process_pdf mapper fs now (fst f) (Some (snd f))))
                       files;
         all_metadata :=
           all_metadata acc
           ++ map (fun f =>
                     {| bm_filename := snd f;
                        bm_metadata :=
                          res_metadata (process_pdf mapper fs now (fst f) (Some (snd f))) |})
                  files;
         all_sector_allocations :=
           all_sector_allocations acc
           ++ map (fun f =>
                     let res := process_pdf mapper fs now (fst f) (Some (snd f)) in
                     {| ba_filename := snd f;
                        ba_amc := md_get amc "Unknown" (res_metadata res);
                        ba_fund_name := md_get fund_name "Unknown" (res_metadata res);
                        ba_date := md_get date "" (res_metadata res);
                        ba_allocation := res_sector_allocation res |})
                  files;
         errors := errors acc |}.
Proof.
  induction files as [| [pdf_path filename] files IH]; intros acc;
    cbn [fold_left flat_map map].
  - rewrite !app_nil_r. now destruct acc.
  - rewrite IH. unfold batch_step.
    destruct (process_pdf_fields mapper fs now pdf_path filename) as (S & _).
    rewrite S. cbn [all_holdings errors all_metadata all_sector_allocations fst snd].
    now rewrite <- !app_assoc.
Qed.

(** X9.  Batches compose: the batch of two lists of files one after the
    other has the holdings, the metadata and the sector allocations of the
    first batch followed by those of the second; the metadata and the
    allocations name the files in the order given, one entry each; and no
    batch ever reports an error. *)
Theorem batch_composes (mapper : ISINMapper.t) (fs : filesystem) (now : string)
        (files1 files2 : list (string * string)) :
  all_holdings (process_multiple_pdfs mapper fs now (files1 ++ files2))
  = (all_holdings (process_multiple_pdfs mapper fs now files1)
     ++ all_holdings (process_multiple_pdfs mapper fs now files2))%list
  /\ all_metadata (process_multiple_pdfs mapper fs now (files1 ++ files2))
     = (all_metadata (process_multiple_pdfs mapper fs now files1)
        ++ all_metadata (process_multiple_pdfs mapper fs now files2))%list
  /\ all_sector_allocations (process_multiple_pdfs mapper fs now (files1 ++ files2))
     = (all_sector_allocations (process_multiple_pdfs mapper fs now files1)
        ++ all_sector_allocations (process_multiple_pdfs mapper fs now files2))%list
  /\ map bm_filename (all_metadata (process_multiple_pdfs mapper fs now files1))
     = map snd files1
  /\ map ba_filename (all_sector_allocations (process_multiple_pdfs mapper fs now files1))
     = map snd files1
  /\ errors (process_multiple_pdfs mapper fs now files1) = [].
Proof.
  unfold process_multiple_pdfs. rewrite !batch_fold_all.
  cbn [all_holdings all_metadata all_sector_allocations errors app].
  rewrite flat_map_app, !map_app, !map_map. cbn [bm_filename ba_filename].
  repeat split.
Qed.

(** ** The fund house of a document *)

(** X10.  The metadata of a processed document never names the fund house
    "Unknown": when the file name gives none, the fallback reads the key
    the table extraction initialised and yields the empty text instead.
    The same holds of every record of the document, and the name a batch
    lists for the document is that of the metadata. *)
Theorem amc_never_unknown (mapper : ISINMapper.t) (fs : filesystem)
        (now pdf_path : string) (filename : option string) :
  let res := process_pdf mapper fs now pdf_path filename in
  (exists md,
     res_metadata res = Some md
     /\ amc md <> "Unknown"
     /\ (amc md = "" \/ amc md = extract_amc_from_filename (res_filename res)))
  /\ forall r, In r (res_holdings res) -> r_amc r <> "Unknown" .
Proof.
  cbv zeta. unfold process_pdf.
  set (name := match filename with Some f => f | None => OsPath.basename pdf_path end).
  assert (M : FactsheetExtractor.amc (snd (extract_portfolio_table fs pdf_path)) = "").
  { unfold extract_portfolio_table. destruct (fs pdf_path) as [pages |]; [| reflexivity].
    now destruct (_process_tables _ _). }
  destruct (extract_portfolio_table fs pdf_path) as [holdings md]. cbn [snd] in M.
  cbn [res_metadata res_holdings res_filename].
  assert (A : (if negb (extract_amc_from_filename name =? "Unknown")
               then extract_amc_from_filename name
               else FactsheetExtractor.amc md) <> "Unknown").
  { destruct (extract_amc_from_filename name =? "Unknown") eqn:E; cbn [negb].
    - rewrite M. discriminate.
    - now apply String.eqb_neq. }
  split.
  - eexists. split; [reflexivity |]. cbn [FactsheetExtractor.amc]. split; [exact A |].
    destruct (negb (extract_amc_from_filename name =? "Unknown")); [now right | now left].
  - intros r Hr. apply in_map_iff in Hr. destruct Hr as (h & <- & _).
    cbn [to_record r_amc FactsheetExtractor.amc]. exact A.
Qed.

Lemma amc_never_unknown_witness :
  extract_amc_from_filename "unknown_202401.pdf" = "Unknown"
  /\ exists md r,
       res_metadata (process_pdf Examples.mapper Examples.fs Examples.now
                                 "/in/two.pdf" (Some "unknown_202401.pdf")) = Some md
       /\ amc md = ""
       /\ In r (res_holdings (process_pdf Examples.mapper Examples.fs Examples.now
                                          "/in/two.pdf" (Some "unknown_202401.pdf")))
       /\ r_amc r <> "Unknown".
Proof.
  split; [vm_compute; reflexivity |].
  destruct (amc_never_unknown Examples.mapper Examples.fs Examples.now
                              "/in/two.pdf" (Some "unknown_202401.pdf"))
    as ((md & M & _ & _) & R).
  set (l := res_holdings (process_pdf Examples.mapper Examples.fs Examples.now
                                      "/in/two.pdf" (Some "unknown_202401.pdf"))) in *.
  destruct (nth_error l 0) as [r |] eqn:E; [| vm_compute in E; discriminate].
  pose proof (nth_error_In l 0 E) as H.
  exists md, r. split; [exact M |].
  split; [vm_compute in M; injection M as <-; reflexivity |].
  split; [exact H | exact (R r H)].
Defined.

(** ** Where the header of a table is looked for *)

Lemma find_header_none (rows : list (nat * row)) :
  (forall ir, In ir rows ->
              existsb (fun kw => contains kw (row_text (snd ir))) portfolio_keywords = false) ->
  find_header rows = None.
Proof.
  induction rows as [| [idx r] rows IH]; intros H; cbn [find_header]; [reflexivity |].
  assert (IH' : find_header rows = None) by (apply IH; intros ir Hir; apply H; now right).
  destruct r as [| c r]; [exact IH' |].
  pose proof (H (idx, c :: r) (or_introl eq_refl)) as E. cbn [snd] in E.
  now rewrite E.
Qed.

(** X11.  The header of a table is looked for in its first three rows
    only: a table none of whose first three rows names a portfolio keyword
    gives no holding, whatever its later rows hold. *)
Theorem header_only_in_first_three (t : table) (current_sector : string) :
  (forall r : row, In r (firstn 3 t) ->
     existsb (fun kw => contains kw (row_text r)) portfolio_keywords = false) ->
  process_table t current_sector = [].
Proof.
  intros H. unfold process_table.
  destruct (is_empty t || (List.length t <? 2)%nat); [reflexivity |].
  rewrite find_header_none; [reflexivity |].
  intros [idx r] Hir. apply H. unfold enumerate in Hir.
  exact (in_combine_r _ _ _ _ Hir).
Qed.

Lemma header_only_in_first_three_witness :
  let block : table :=
    [ [Some "Sr"; Some "Security Name"; Some "% of AUM"];
      [Some "1"; Some "Infosys Ltd"; Some "10.0%"] ] in
  let preamble : table :=
    [ [Some "Monthly factsheet"]; [Some "December 2024"]; [Some "Equity"] ] in
  process_table (preamble ++ block)%list "Unknown" = []
  /\ List.length (process_table block "Unknown") = 1%nat.
Proof.
  cbv zeta. split; [| vm_compute; reflexivity].
  apply (header_only_in_first_three
           ([ [Some "Monthly factsheet"]; [Some "December 2024"]; [Some "Equity"] ]
            ++ [ [Some "Sr"; Some "Security Name"; Some "% of AUM"];
                 [Some "1"; Some "Infosys Ltd"; Some "10.0%"] ])%list
           "Unknown").
  intros r [<- | [<- | [<- | []]]]; vm_compute; reflexivity.
Defined.

(** ** A file name without a date *)

Lemma search_go_none (r : re) (total : nat) (s : string) :
  match_here r total "" = None ->
  (forall c t, is_digit c = false -> match_here r total (String c t) = None) ->
  any_char is_digit s = false -> search_go r total s = None.
Proof.
  intros H0 H. induction s as [| c s IH]; cbn [search_go any_char].
  - intros _. now rewrite H0.
  - intros A. apply orb_false_iff in A. destruct A as [A1 A2].
    rewrite (H _ _ A1). now apply IH.
Qed.

(** X12.  A file name without any digit is dated with the first day of the
    current month, since neither date pattern can match it. *)
Theorem undated_filename (now filename : string) :
  any_char is_digit filename = false ->
  extract_date_from_filename now filename = now.
Proof.
  intros H. unfold extract_date_from_filename, search.
  rewrite (search_go_none re_yyyymm_pdf); [| reflexivity | | exact H].
  2:{ intros c t E. unfold match_here, re_yyyymm_pdf.
      cbn [seq Rep digit run]. now rewrite E. }
  rewrite (search_go_none re_yyyy_mm); [reflexivity | reflexivity | | exact H].
  intros c t E. unfold match_here, re_yyyy_mm.
  cbn [seq Rep digit run]. now rewrite E.
Qed.

Lemma undated_filename_witness :
  extract_date_from_filename "2026-01-01" "Axis_Bluechip_factsheet.pdf" = "2026-01-01".
Proof.
  apply (undated_filename "2026-01-01" "Axis_Bluechip_factsheet.pdf"). reflexivity.
Defined.

(** ** The columns of a header *)

Lemma map_cell_other (idx : nat) (cell_lower field : string)
      (entries : list (string * list string)) :
  (forall e, In e entries -> fst e <> field) ->
  forall col_map,
    Dict.get field (fold_left (map_cell idx cell_lower) entries col_map)
    = Dict.get field col_map.
Proof.
  induction entries as [| [f patterns] entries IH]; intros Hk col_map;
    cbn [fold_left]; [reflexivity |].
  rewrite IH by (intros e He; apply Hk; now right).
  unfold map_cell.
  destruct (existsb _ patterns); [| reflexivity].
  destruct (negb (Dict.mem f col_map)); [| reflexivity].
  apply get_set_other. apply (Hk (f, patterns)). now left.
Qed.

(** One header cell maps a role that is still free, when it names it. *)
Lemma map_cell_fold (idx : nat) (cell_lower field : string) (patterns : list string)
      (entries : list (string * list string)) :
  NoDup (map fst entries) -> In (field, patterns) entries ->
  forall col_map,
    Dict.get field (fold_left (map_cell idx cell_lower) entries col_map)
    = match Dict.get field col_map with
      | Some i => Some i
      | None =>
          if existsb (fun pattern => contains pattern cell_lower) patterns
          then Some idx else None
      end.
Proof.
  induction entries as [| [f p] entries IH]; intros N Hin col_map; [destruct Hin |].
  cbn [map fst] in N. apply NoDup_cons_iff in N. destruct N as [N1 N2].
  cbn [fold_left]. destruct Hin as [[= -> ->] | Hin].
  - rewrite map_cell_other.
    2:{ intros e He C. apply N1. rewrite <- C. now apply in_map. }
    unfold map_cell, Dict.mem.
    destruct (existsb _ patterns); [| now destruct (Dict.get field col_map)].
    destruct (Dict.get field col_map) as [i |] eqn:G; cbn [negb]; [exact G |].
    apply get_set_same.
  - rewrite (IH N2 Hin).
    assert (D : f <> field).
    { intros ->. apply N1. change field with (fst (field, patterns)). now apply in_map. }
    unfold map_cell.
    destruct (existsb _ p); [| reflexivity].
    destruct (negb (Dict.mem f col_map)); [| reflexivity].
    now rewrite (get_set_other _ _ _ _ _ D).
Qed.

Lemma column_patterns_nodup : NoDup (map fst column_patterns).
Proof.
  cbn. repeat (constructor; [cbn; intuition discriminate |]). constructor.
Qed.

Lemma map_columns_fold (field : string) (patterns : list string) :
  In (field, patterns) column_patterns ->
  forall (cells : row) (n : nat) (col_map : Dict.dict nat),
    Dict.get field
      (fold_left
         (fun col_map (ic : nat * cell) =>
            let '(idx, c) := ic in
            if negb (cell_truthy c) then col_map
            else fold_left (map_cell idx (lower (cell_str c))) column_patterns col_map)
         (combine (List.seq n (List.length cells)) cells) col_map)
    = match Dict.get field col_map with
      | Some i => Some i
      | None => option_map (Nat.add n) (first_index _ (names_role patterns) cells)
      end.
Proof.
  intros Hin. induction cells as [| c cells IH]; intros n col_map.
  - cbn. now destruct (Dict.get field col_map).
  - cbn [List.length List.seq combine fold_left first_index]. rewrite IH.
    unfold names_role at 2.
    destruct (cell_truthy c); cbn [negb andb].
    + rewrite (map_cell_fold _ _ _ _ _ column_patterns_nodup Hin).
      destruct (Dict.get field col_map) as [i |]; [reflexivity |].
      destruct (existsb _ patterns); cbn [option_map]; [now rewrite Nat.add_0_r |].
      destruct (first_index _ (names_role patterns) cells); cbn [option_map];
        [| reflexivity].
      f_equal. lia.
    + destruct (Dict.get field col_map) as [i |]; [reflexivity |].
      destruct (first_index _ (names_role patterns) cells); cbn [option_map];
        [| reflexivity].
      f_equal. lia.
Qed.

Lemma map_columns_other (field : string) :
  (forall e, In e column_patterns -> fst e <> field) ->
  forall (cells : list (nat * cell)) (col_map : Dict.dict nat),
    Dict.get field
      (fold_left
         (fun col_map (ic : nat * cell) =>
            let '(idx, c) := ic in
            if negb (cell_truthy c) then col_map
            else fold_left (map_cell idx (lower (cell_str c))) column_patterns col_map)
         cells col_map)
    = Dict.get field col_map.
Proof.
  intros Hk. induction cells as [| [idx c] cells IH]; intros col_map;
    cbn [fold_left]; [reflexivity |].
  rewrite IH. destruct (negb (cell_truthy c)); [reflexivity |].
  now apply map_cell_other.
Qed.

(** X13.  A header maps each of the six roles to the first of its cells
    that names the role: a cell with a text that contains one of the
    patterns of the role, in any letter case.  A later cell that names the
    same role does not replace it, an empty cell is passed over, and no
    other key is ever mapped. *)
Theorem map_columns_first (header_row : row) :
  (forall field patterns,
     In (field, patterns) column_patterns ->
     Dict.get field (_map_columns header_row)
     = first_index _ (names_role patterns) header_row)
  /\ (forall key,
        ~ In key (map fst column_patterns) ->
        Dict.get key (_map_columns header_row) = None).
Proof.
  unfold _map_columns, enumerate. split.
  - intros field patterns Hin. rewrite (map_columns_fold _ _ Hin).
    cbn [Dict.get]. destruct (first_index _ (names_role patterns) header_row);
      reflexivity.
  - intros key Hk. rewrite map_columns_other; [reflexivity |].
    intros e He C. apply Hk. rewrite <- C. now apply in_map.
Qed.

Lemma map_columns_first_witness :
  let header : row :=
    [Some "Sr"; None; Some "Security Name"; Some "Stock"; Some "% of AUM"] in
  Dict.get "security" (_map_columns header) = Some 2%nat
  /\ Dict.get "scrip" (_map_columns header) = None.
Proof.
  cbv zeta.
  destruct (map_columns_first
              [Some "Sr"; None; Some "Security Name"; Some "Stock"; Some "% of AUM"])
    as (A & B).
  split.
  - rewrite (A "security" ["scrip"; "security"; "stock"; "name"; "holding"; "company"]);
      [reflexivity | now left].
  - apply B. cbn. intuition discriminate.
Defined.

(** ** The identifiers of the records *)

Lemma rstrip_length (s : string) : (String.length (rstrip s) <= String.length s)%nat.
Proof.
  induction s as [| c s IH]; [reflexivity |]. cbn [rstrip].
  destruct (rstrip s) as [| y r].
  - destruct (is_space c); cbn [String.length]; lia.
  - cbn [String.length] in *. lia.
Qed.

Lemma rstrip_app_space (a : string) (c : ascii) :
  is_space c = true -> rstrip (a ++ String c "") = rstrip a.
Proof.
  intros E. induction a as [| x a IH]; cbn [append rstrip].
  - now rewrite E.
  - now rewrite IH.
Qed.

(** A stripped text does not end with a newline. *)
Lemma strip_no_newline (s pre : string) : strip s <> pre ++ String (ascii_of_nat 10) "".
Proof.
  intros C. pose proof (rstrip_idem (lstrip s)) as I. fold (strip s) in I.
  rewrite C, rstrip_app_space in I by reflexivity.
  pose proof (rstrip_length pre) as L. rewrite I, length_app in L.
  cbn [String.length] in L. lia.
Qed.

(** What the pattern of an identifier matches. *)
Lemma isin_match_shape (s : string) (m : rmatch) :
  rematch re_isin s = Some m ->
  exists pre rest,
    s = pre ++ rest /\ isin_format pre = true
    /\ (rest = "" \/ rest = String (ascii_of_nat 10) "").
Proof.
  unfold rematch, match_here. intros H. apply run_sound in H.
  destruct H as (s' & cs' & M & _).
  cbv [re_isin seq Rep lit chr] in M.
  repeat match goal with
         | H : matches_re _ (Cat _ _) _ _ _ _ |- _ => inv H
         | H : matches_re _ (Chr _) _ _ _ _ |- _ => inv H
         | H : matches_re _ Eps _ _ _ _ |- _ => inv H
         | H : matches_re _ Bol _ _ _ _ |- _ => inv H
         | H : matches_re _ Eol _ _ _ _ |- _ => inv H
         end.
  repeat match goal with
         | H : (_ =? _)%char = true |- _ => apply Ascii.eqb_eq in H; subst
         end.
  match goal with
  | H : ?r = "" \/ _ |- exists pre rest,
        String ?a1 (String ?a2 (String ?a3 (String ?a4 (String ?a5 (String ?a6
          (String ?a7 (String ?a8 (String ?a9 (String ?a10 (String ?a11
            (String ?a12 _))))))))))) = _ /\ _ =>
      exists (String a1 (String a2 (String a3 (String a4 (String a5 (String a6
                (String a7 (String a8 (String a9 (String a10 (String a11
                  (String a12 "")))))))))))), r;
      split; [reflexivity |]; split; [| assumption]
  end.
  unfold isin_format. cbn [String.length Nat.eqb startswith prefix all_chars andb].
  repeat match goal with
         | H : (is_upper ?c || is_digit ?c) = true |- _ => rewrite H; clear H
         end.
  reflexivity.
Qed.

Lemma stripped_isin (x : string) (m : rmatch) :
  rematch re_isin (strip x) = Some m -> isin_format (strip x) = true.
Proof.
  intros H. destruct (isin_match_shape _ _ H) as (pre & rest & E & F & [-> | ->]).
  - rewrite append_nil_r in E. now rewrite E.
  - exfalso. exact (strip_no_newline _ _ E).
Qed.

(** The identifier of a holding read from a table or from the text: none,
    or one of the format. *)
Lemma holding_isin (fs : filesystem) (pdf_path : string) (h : holding) :
  In h (fst (extract_portfolio_table fs pdf_path)) ->
  isin h = "" \/ isin_format (isin h) = true.
Proof.
  intros H. destruct (extract_portfolio_table_inv _ _ _ H) as (pages & hs & _ & P & Hh).
  destruct (process_tables_inv _ _ _ _ P Hh)
    as [(name & weight & Hp) | [(r & col_map & Hr) | (ths & T & Hth)]].
  - left. unfold parse_pair in Hp.
    destruct (cell_truthy name); [| destruct Hp].
    destruct (PyStr.truthy _ && _is_valid_security _); [| destruct Hp].
    destruct (fgt _ zero); [| destruct Hp].
    now destruct Hp as [<- | []].
  - unfold _parse_holding_row in Hr.
    destruct (nth_error r (security_index col_map)) as [c |]; [| discriminate].
    destruct (cell_truthy c); [| discriminate].
    destruct (negb _ || PyStr.mem _ non_data_labels); [discriminate |].
    injection Hr as <-. cbn [isin].
    destruct (mapped_cell "isin" col_map r) as [ci |]; [| now left].
    destruct (cell_truthy ci); [| now left].
    destruct (rematch re_isin (strip (cell_str ci))) as [m |] eqn:E; [| now left].
    right. exact (stripped_isin _ _ E).
  - left. unfold _extract_holdings_from_text in T.
    clear - T Hth. revert ths T Hth.
    induction (map groups2 (findall re_text_holding (all_text_of pages))) as [| m ms IH];
      cbn [text_holdings]; intros ths T Hth.
    + injection T as <-. destruct Hth.
    + destruct (py_float (snd m)); [| discriminate].
      destruct (text_holdings ms) as [hs' |]; [| discriminate].
      destruct (_ || _ || _); [injection T as <-; eauto |].
      destruct (existsb _ skip_words); [injection T as <-; eauto |].
      injection T as <-. destruct Hth as [<- | Hth]; [reflexivity | eauto].
Qed.

(** X14.  The identifier of a record is never empty or free text: it is
    the sentinel "-", or an identifier of the format (twelve characters,
    "IN" first, upper-case letters and digits) that the document's table
    gave, or a code stored in the catalog, which starts with "INE". *)
Theorem record_isin_shape (csv : option ISINMapper.csv_rows) (fs : filesystem)
        (now pdf_path : string) (filename : option string) (r : HoldingRecord) :
  In r (res_holdings (process_pdf (ISINMapper.init csv) fs now pdf_path filename)) ->
  r_isin r = "-"
  \/ isin_format (r_isin r) = true
  \/ (startswith "INE" (r_isin r) = true
      /\ exists key, In (key, r_isin r) (ISINMapper.isin_map (ISINMapper.init csv))).
Proof.
  unfold process_pdf.
  pose proof (holding_isin fs pdf_path) as HI.
  destruct (extract_portfolio_table fs pdf_path) as [holdings md]. cbn [fst] in HI.
  cbn [res_holdings]. intros Hr.
  apply in_map_iff in Hr. destruct Hr as (h' & <- & Hr).
  apply in_map_iff in Hr. destruct Hr as (h & <- & Hh).
  cbn [to_record r_isin enrich isin].
  destruct (HI h Hh) as [E | E].
  - rewrite E. cbn [PyStr.truthy String.eqb negb orb].
    destruct (get_isin_in _ _ _ _
                (get_isin_default_eq (ISINMapper.init csv) (security h)))
      as [G | (key & G)]; [now left | right; right].
    split; [exact (init_codes csv _ G) | now exists key].
  - destruct (negb (PyStr.truthy (isin h)) || (isin h =? "")) eqn:B.
    + assert (isin h = "") as Z.
      { apply orb_true_iff in B. destruct B as [B | B].
        - unfold PyStr.truthy in B. rewrite negb_involutive in B.
          now apply String.eqb_eq.
        - now apply String.eqb_eq. }
      rewrite Z in E. discriminate.
    + right. now left.
Qed.

Lemma record_isin_shape_witness :
  exists r,
    In r (res_holdings (process_pdf (ISINMapper.init None) Examples.fs Examples.now
                                    "/in/two.pdf" None))
    /\ r_security r = "TCS"
    /\ r_isin r = "INE467B01029"
    /\ (r_isin r = "-"
        \/ isin_format (r_isin r) = true
        \/ (startswith "INE" (r_isin r) = true
            /\ exists key,
                In (key, r_isin r) (ISINMapper.isin_map (ISINMapper.init None)))).
Proof.
  set (l := res_holdings (process_pdf (ISINMapper.init None) Examples.fs Examples.now
                                      "/in/two.pdf" None)).
  destruct (nth_error l 1) as [r |] eqn:E; [| vm_compute in E; discriminate].
  exists r. pose proof (nth_error_In l 1 E) as H.
  split; [exact H |].
  split; [vm_compute in E; injection E as <-; reflexivity |].
  split; [vm_compute in E; injection E as <-; reflexivity |].
  exact (record_isin_shape None Examples.fs Examples.now "/in/two.pdf" None r H).
Defined.

(** ** Normalised names in the output *)

Lemma normalize_sector_nonempty (sector : string) : normalize_sector sector <> "".
Proof.
  assert (T : forallb (fun kv => PyStr.truthy (snd kv)) SECTOR_MAPPINGS = true)
    by (vm_compute; reflexivity).
  rewrite forallb_forall in T.
  unfold normalize_sector.
  destruct (negb (PyStr.truthy sector)) eqn:E; [discriminate |].
  destruct (Dict.get _ SECTOR_MAPPINGS) as [v |] eqn:G.
  - destruct (get_some_in _ _ _ _ G) as (e & He & <-).
    intros C. specialize (T e He). rewrite C in T. discriminate.
  - intros C. apply negb_false_iff in E. rewrite <- title_truthy, C in E. discriminate.
Qed.

Lemma normalize_amc_nonempty (amc : string) : normalize_amc amc <> "".
Proof.
  assert (T : forallb (fun kv => PyStr.truthy (snd kv)) AMC_MAPPINGS = true)
    by (vm_compute; reflexivity).
  rewrite forallb_forall in T.
  unfold normalize_amc.
  destruct (negb (PyStr.truthy amc)) eqn:E; [discriminate |].
  destruct (find _ AMC_MAPPINGS) as [[k v] |] eqn:F.
  - apply find_some in F. destruct F as [He _].
    intros C. specialize (T _ He). cbn [snd] in T. rewrite C in T. discriminate.
  - intros C. apply negb_false_iff in E. rewrite <- title_truthy, C in E. discriminate.
Qed.

(** What [_guess_sector] answers with the keyword table of the code. *)
Lemma guess_sector_normalised (security : string) :
  _guess_sector security sector_keywords <> ""
  /\ normalize_sector (_guess_sector security sector_keywords)
     = _guess_sector security sector_keywords.
Proof.
  assert (T : forallb (fun sk => PyStr.truthy (fst sk)
                                 && (normalize_sector (fst sk) =? fst sk))
                      sector_keywords = true) by (vm_compute; reflexivity).
  rewrite forallb_forall in T.
  unfold _guess_sector.
  destruct (find _ sector_keywords) as [[sector kws] |] eqn:F.
  - apply find_some in F. destruct F as [He _]. specialize (T _ He). cbn [fst] in T.
    apply andb_true_iff in T. destruct T as [T1 T2].
    split; [intros C; rewrite C in T1; discriminate | now apply String.eqb_eq].
  - split; [discriminate | reflexivity].
Qed.

(** X15.  Every record of a document whose sector texts are ASCII carries
    a sector that is not empty and is in normal form: normalising it again
    changes nothing.  This holds whether the sector was read from the table
    or guessed from the name of the security. *)
Theorem record_sector_normalised (mapper : ISINMapper.t) (fs : filesystem)
        (now pdf_path : string) (filename : option string) (r : HoldingRecord) :
  (forall h, In h (fst (extract_portfolio_table fs pdf_path)) ->
             is_ascii (sector h) = true) ->
  In r (res_holdings (process_pdf mapper fs now pdf_path filename)) ->
  r_sector r <> "" /\ normalize_sector (r_sector r) = r_sector r.
Proof.
  intros HA. unfold process_pdf.
  destruct (extract_portfolio_table fs pdf_path) as [holdings md]. cbn [fst] in HA.
  cbn [res_holdings]. intros Hr.
  apply in_map_iff in Hr. destruct Hr as (h' & <- & Hr).
  apply in_map_iff in Hr. destruct Hr as (h & <- & Hh).
  cbn [to_record r_sector enrich sector]. unfold _build_sector_keyword_map.
  destruct (sector h =? "Unknown").
  - apply guess_sector_normalised.
  - split; [apply normalize_sector_nonempty | apply normalize_sector_idem; auto].
Qed.

Lemma record_sector_normalised_witness :
  exists r,
    In r (res_holdings (process_pdf Examples.mapper Examples.fs Examples.now
                                    "/in/two.pdf" None))
    /\ r_security r = "TCS"
    /\ r_sector r = "Information Technology"
    /\ normalize_sector (r_sector r) = r_sector r.
Proof.
  assert (HA : forall h, In h (fst (extract_portfolio_table Examples.fs "/in/two.pdf")) ->
                         is_ascii (sector h) = true).
  { intros h Hh. vm_compute in Hh. destruct Hh as [<- | [<- | []]]; reflexivity. }
  set (l := res_holdings (process_pdf Examples.mapper Examples.fs Examples.now
                                      "/in/two.pdf" None)).
  destruct (nth_error l 1) as [r |] eqn:E; [| vm_compute in E; discriminate].
  exists r. pose proof (nth_error_In l 1 E) as H.
  split; [exact H |].
  split; [vm_compute in E; injection E as <-; reflexivity |].
  split; [vm_compute in E; injection E as <-; reflexivity |].
  exact (proj2 (record_sector_normalised Examples.mapper Examples.fs Examples.now
                                         "/in/two.pdf" None r HA H)).
Defined.

(** The tokens of an ASCII file name are ASCII. *)
Lemma take_keeps_none (p : ascii -> bool) (n : nat) (s : string) :
  any_char p s = false -> any_char p (take n s) = false.
Proof.
  revert n. induction s as [| c s IH]; intros [| n]; try reflexivity.
  cbn [take any_char]. intros A. apply orb_false_iff in A. destruct A as [A1 A2].
  now rewrite A1, IH.
Qed.

Lemma splitext_root_keeps_none (p : ascii -> bool) (s : string) :
  any_char p s = false -> any_char p (OsPath.splitext_root s) = false.
Proof.
  intros H. destruct (splitext_root_cut s) as [-> | (dot & _ & ->)]; [exact H |].
  now apply take_keeps_none.
Qed.

Lemma replace_underscore_keeps_none (p : ascii -> bool) (s : string) :
  p " "%char = false ->
  any_char p s = false -> any_char p (replace "_" " " s) = false.
Proof.
  intros Hb. unfold replace. induction s as [| c s IH]; [reflexivity |].
  cbn [any_char replace_go]. intros A. apply orb_false_iff in A. destruct A as [A1 A2].
  rewrite prefix_single. destruct ("_" =? c)%char.
  - cbn [String.length Nat.sub append any_char]. now rewrite Hb, IH.
  - cbn [any_char]. now rewrite A1, IH.
Qed.

Lemma split_go_keeps_none (p : ascii -> bool) (s : string) :
  forall cur,
    any_char p cur = false -> any_char p s = false ->
    forall t, In t (split_go cur s) -> any_char p t = false.
Proof.
  induction s as [| c s IH]; intros cur Hc Hs t; cbn [split_go].
  - destruct cur; [intros [] | intros [<- | []]; exact Hc].
  - cbn [any_char] in Hs. apply orb_false_iff in Hs. destruct Hs as [H1 H2].
    destruct (is_space c).
    + destruct cur; [apply IH; auto |].
      intros [<- | Ht]; [exact Hc | exact (IH "" eq_refl H2 t Ht)].
    + apply IH; [| exact H2].
      rewrite any_char_app. cbn [any_char]. now rewrite Hc, H1.
Qed.

(** X16.  The fund house read from an ASCII file name is never empty and
    is in normal form, the default "Unknown" of a name without a token
    included. *)
Theorem amc_from_filename_normalised (filename : string) :
  is_ascii filename = true ->
  extract_amc_from_filename filename <> ""
  /\ normalize_amc (extract_amc_from_filename filename)
     = extract_amc_from_filename filename.
Proof.
  intros HA. unfold is_ascii in HA. apply negb_true_iff in HA.
  pose proof (split_go_keeps_none _ _ ""
                eq_refl
                (replace_underscore_keeps_none _ _ eq_refl
                   (splitext_root_keeps_none _ _ HA))) as T.
  unfold extract_amc_from_filename. fold (split (replace "_" " " (OsPath.splitext_root filename))) in T.
  destruct (split _) as [| first parts].
  - split; [discriminate | reflexivity].
  - split; [apply normalize_amc_nonempty |].
    apply normalize_amc_idem. unfold is_ascii. rewrite (T first); [reflexivity | now left].
Qed.

Lemma amc_from_filename_normalised_witness :
  extract_amc_from_filename "motilaloswal_midcap_202501.pdf" = "Motilal Oswal"
  /\ normalize_amc (extract_amc_from_filename "motilaloswal_midcap_202501.pdf")
     = extract_amc_from_filename "motilaloswal_midcap_202501.pdf".
Proof.
  split; [vm_compute; reflexivity |].
  exact (proj2 (amc_from_filename_normalised "motilaloswal_midcap_202501.pdf" eq_refl)).
Defined.

(** ** Looking up a list of names *)

Lemma batch_lookup_fold (self : ISINMapper.t) (names : list string) (name : string) :
  forall d,
    Dict.get name
      (fold_left (fun d name => Dict.set name (ISINMapper.get_isin_default self name) d)
                 names d)
    = if PyStr.mem name names
      then Some (ISINMapper.get_isin_default self name)
      else Dict.get name d.
Proof.
  induction names as [| n names IH]; intros d; cbn [fold_left]; [reflexivity |].
  rewrite IH. unfold PyStr.mem. cbn [existsb].
  fold (PyStr.mem name names).
  destruct (PyStr.mem name names); [now rewrite orb_true_r |].
  rewrite orb_false_r. destruct (name =? n) eqn:E.
  - apply String.eqb_eq in E. subst n. apply get_set_same.
  - apply get_set_other. apply String.eqb_neq in E. congruence.
Qed.

Lemma set_keys (V : Type) (k : string) (v : V) (d : Dict.dict V) :
  map fst (Dict.set k v d)
  = if Dict.mem k d then map fst d else (map fst d ++ [k])%list.
Proof.
  unfold Dict.mem.
  induction d as [| [k0 v0] d IH]; cbn [Dict.set Dict.get map fst app]; [reflexivity |].
  destruct (k0 =? k) eqn:E; cbn [map fst]; [reflexivity |].
  rewrite IH. now destruct (Dict.get k d).
Qed.

Lemma batch_lookup_keys (self : ISINMapper.t) (names : list string) :
  forall d,
    NoDup (map fst d) ->
    NoDup (map fst
             (fold_left
                (fun d name => Dict.set name (ISINMapper.get_isin_default self name) d)
                names d)).
Proof.
  induction names as [| n names IH]; intros d N; cbn [fold_left]; [exact N |].
  apply IH. rewrite set_keys. unfold Dict.mem.
  destruct (Dict.get n d) eqn:G; [exact N |].
  apply NoDup_app; [exact N | constructor; [intros [] | constructor] |].
  intros x Hx [<- | []]. exact (get_none_not_in _ _ _ G Hx).
Qed.

(** X17.  A batch lookup answers for every name it was given with what
    the single lookup gives for that name, has no entry for any other
    name, and lists a name given several times once. *)
Theorem batch_lookup_agrees (self : ISINMapper.t) (company_names : list string) :
  (forall name,
     Dict.get name (batch_lookup self company_names)
     = if PyStr.mem name company_names
       then Some (ISINMapper.get_isin_default self name)
       else None)
  /\ NoDup (map fst (batch_lookup self company_names)).
Proof.
  unfold batch_lookup. split.
  - intros name. now rewrite batch_lookup_fold.
  - apply batch_lookup_keys. constructor.
Qed.
